(** * Sitemap formatter and Schema.org generator: a shallow embedding

    The development follows [src/lib/sitemap.ts] and [src/lib/schemas.ts].
    JavaScript strings are modelled as [string] (a sequence of code units),
    JavaScript numbers as [spec_float] (the exact value of a double), thrown
    exceptions as the [Throw] branch of [result]. *)

From Stdlib Require Import Bool List ZArith Lia Ascii String.
From Stdlib Require Import Floats.SpecFloat.
Import ListNotations.

Local Open Scope string_scope.
Local Open Scope Z_scope.

(* ================================================================= *)
(** ** JavaScript string primitives *)

Module JsString.

(** The line feed and the double quote cannot be written inside a literal. *)
Definition LF : string := String "010"%char "".
Definition DQ : string := String "034"%char "".

(** [s.startsWith(p)] *)
Fixpoint startsWith (p s : string) : bool :=
  match p, s with
  | EmptyString, _ => true
  | String _ _, EmptyString => false
  | String a p', String b s' => Ascii.eqb b a && startsWith p' s'
  end.

(** [s.endsWith(p)] *)
Fixpoint endsWith (p s : string) : bool :=
  (s =? p)%string ||
  match s with
  | EmptyString => false
  | String _ r => endsWith p r
  end.

(** [s.slice(1)] *)
Definition slice1 (s : string) : string :=
  match s with
  | EmptyString => EmptyString
  | String _ r => r
  end.

(** [s.slice(0, -1)] *)
Fixpoint slice0m1 (s : string) : string :=
  match s with
  | EmptyString => EmptyString
  | String _ EmptyString => EmptyString
  | String c r => String c (slice0m1 r)
  end.

(** [s.includes(p)] *)
Fixpoint includes (p s : string) : bool :=
  startsWith p s ||
  match s with
  | EmptyString => false
  | String _ r => includes p r
  end.

(** [s.replace(/c/g, rep)] for a one-character pattern [c]. *)
Fixpoint replaceAll (c : ascii) (rep s : string) : string :=
  match s with
  | EmptyString => EmptyString
  | String d r =>
      if Ascii.eqb d c then rep ++ replaceAll c rep r
      else String d (replaceAll c rep r)
  end.

(** Truthiness of a string: non-empty. *)
Definition truthy (s : string) : bool :=
  match s with EmptyString => false | _ => true end.

(** Every character satisfies [P]. *)
Fixpoint allChars (P : ascii -> bool) (s : string) : bool :=
  match s with
  | EmptyString => true
  | String c r => P c && allChars P r
  end.

(** Propositional counterparts. *)
Definition Prefix (p s : string) : Prop := exists r, s = p ++ r.
Definition Suffix (p s : string) : Prop := exists l, s = l ++ p.
Definition Contains (p s : string) : Prop := exists l r, s = l ++ p ++ r.

End JsString.
Import JsString.

(* ================================================================= *)
(** ** sitemap.ts: URL helpers *)

(** [formatSitemapUrl(url, baseUrl)] *)
Definition formatSitemapUrl (url baseUrl : string) : string :=
  if startsWith "http://" url || startsWith "https://" url then url
  else
    let cleanUrl := if startsWith "/" url then slice1 url else url in
    let cleanBaseUrl := if endsWith "/" baseUrl then slice0m1 baseUrl else baseUrl in
    cleanBaseUrl ++ "/" ++ cleanUrl.

(** [escapeXml(text)]: five global replacements, ampersand first. *)
Definition escapeXml (text : string) : string :=
  replaceAll "'"%char "&apos;"
    (replaceAll "034"%char "&quot;"
      (replaceAll ">"%char "&gt;"
        (replaceAll "<"%char "&lt;"
          (replaceAll "&"%char "&amp;" text)))).

(** What [escapeXml] makes of one character. *)
Definition escapeChar (c : ascii) : string :=
  if Ascii.eqb c "&"%char then "&amp;"
  else if Ascii.eqb c "<"%char then "&lt;"
  else if Ascii.eqb c ">"%char then "&gt;"
  else if Ascii.eqb c "034"%char then "&quot;"
  else if Ascii.eqb c "'"%char then "&apos;"
  else String c "".

(** The characters [escapeXml] leaves none of. *)
Definition special (a : ascii) : bool :=
  Ascii.eqb a "<"%char || Ascii.eqb a ">"%char ||
  Ascii.eqb a "034"%char || Ascii.eqb a "'"%char.

Definition excludePatterns : list string :=
  ["/preview/"; "/search"; "/api/"; "/_"; "/admin"].

(** [shouldIncludeInSitemap(url)] *)
Definition shouldIncludeInSitemap (url : string) : bool :=
  negb (existsb (fun pattern => includes pattern url) excludePatterns).

(** The two halves [formatSitemapUrl] joins. *)
Definition cleanUrl (u : string) : string :=
  if startsWith "/" u then slice1 u else u.

Definition cleanBaseUrl (b : string) : string :=
  if endsWith "/" b then slice0m1 b else b.

(** The predicates the properties of [formatSitemapUrl] are stated with. *)
Definition isAbsolute (url : string) : bool :=
  startsWith "http://" url || startsWith "https://" url.

(** [stripPrefix p s] is the rest of [s] after its prefix [p], if it has it. *)
Fixpoint stripPrefix (p s : string) : option string :=
  match p, s with
  | EmptyString, _ => Some s
  | String a p', String b s' => if Ascii.eqb a b then stripPrefix p' s' else None
  | String _ _, EmptyString => None
  end.

(** The part of a URL after its [http://] or [https://] scheme separator
    (the whole string when it has none). *)
Definition afterScheme (url : string) : string :=
  match stripPrefix "http://" url with
  | Some r => r
  | None =>
      match stripPrefix "https://" url with
      | Some r => r
      | None => url
      end
  end.

(** No [//] other than the one that ends the scheme. *)
Definition noDoubleSlash (url : string) : bool :=
  negb (includes "//" (afterScheme url)).

(** [b] with every trailing slash removed. *)
Fixpoint stripTrailingSlashes (b : string) : string :=
  match b with
  | EmptyString => EmptyString
  | String c r =>
      match stripTrailingSlashes r with
      | EmptyString => if Ascii.eqb c "/"%char then EmptyString else String c EmptyString
      | r' => String c r'
      end
  end.


(* ================================================================= *)
(** ** Exceptions *)

Inductive JsError : Type :=
| Error (message : string)
| RangeError
| TypeError.

Inductive result (A : Type) : Type :=
| Ok (a : A)
| Throw (e : JsError).
Arguments Ok {A} a.
Arguments Throw {A} e.

Definition bind {A B : Type} (r : result A) (k : A -> result B) : result B :=
  match r with
  | Ok a => k a
  | Throw e => Throw e
  end.

Notation "x <- r ;; k" := (bind r (fun x => k))
  (at level 61, r at next level, right associativity).

(** [try { body } catch { handler }] *)
Definition tryCatch {A : Type} (body : result A) (handler : A) : A :=
  match body with
  | Ok a => a
  | Throw _ => handler
  end.

(** The error [formatSitemapTimestamp] raises: [new Error(`Invalid timestamp: ...`)]. *)
Definition InvalidTimestamp (e : JsError) : Prop :=
  exists shown, e = Error ("Invalid timestamp: " ++ shown).

(* ================================================================= *)
(** ** JavaScript numbers *)

Module JsNumber.

(** A double is its exact value: zero, infinity, NaN or [(-1)^s * m * 2^e]. *)
Definition number : Type := spec_float.

Definition digitChar (d : Z) : ascii := ascii_of_nat (48 + Z.to_nat d).

Definition isDigit (c : ascii) : bool :=
  (48 <=? nat_of_ascii c)%nat && (nat_of_ascii c <=? 57)%nat.

(** Decimal digits of [n >= 0] in front of [acc]; the fuel is a number at
    least as large as [n], read bit by bit. *)
Fixpoint digitsAux (fuel : positive) (n : Z) (acc : string) : string :=
  match fuel with
  | xH => String (digitChar (n mod 10)) acc
  | xO f | xI f =>
      if n <? 10 then String (digitChar (n mod 10)) acc
      else digitsAux f (n / 10) (String (digitChar (n mod 10)) acc)
  end.

(** The decimal representation of an integer [n >= 0], no leading zeroes. *)
Definition toDecimal (n : Z) : string :=
  match n with
  | Zpos p => digitsAux p n ""
  | _ => "0"
  end.

Fixpoint repeat0 (k : nat) : string :=
  match k with
  | O => ""
  | S k' => String "0"%char (repeat0 k')
  end.

(** [s.padStart(width, "0")] *)
Definition padStart0 (width : nat) (s : string) : string :=
  repeat0 (width - String.length s) ++ s.

(** The magnitude of a finite number as a fraction [(num, den)]. *)
Definition magnitude (m : positive) (e : Z) : Z * Z :=
  if 0 <=? e then (Zpos m * 2 ^ e, 1) else (Zpos m, 2 ^ (- e)).

(** Truthiness: every number but [0], [-0] and [NaN]. *)
Definition truthyNumber (x : number) : bool :=
  match x with
  | S754_zero _ | S754_nan => false
  | _ => true
  end.

(** The integer [n] for which [n / 10^f] is closest to [num / den], the
    larger one on a tie. *)
Definition roundScaled (num den f : Z) : Z :=
  (2 * num * 10 ^ f + den) / (2 * den).

(** The digits of [n] with a decimal point before the last [f] of them. *)
Definition pointed (n : Z) (f : nat) : string :=
  let m := toDecimal n in
  match f with
  | O => m
  | _ =>
      let m := if (String.length m <=? f)%nat
               then repeat0 (f + 1 - String.length m) ++ m else m in
      let k := String.length m in
      String.substring 0 (k - f) m ++ "." ++ String.substring (k - f) f m
  end.

(** The characters of the text of a finite number. *)
Definition numberChar (c : ascii) : bool :=
  isDigit c || Ascii.eqb c "."%char || Ascii.eqb c "e"%char ||
  Ascii.eqb c "+"%char || Ascii.eqb c "-"%char.


(** An integer as a double. *)
Definition ofZ (z : Z) : number :=
  match z with
  | Z0 => S754_zero false
  | Zpos p => S754_finite false p 0
  | Zneg p => S754_finite true p 0
  end.

(** [num / den] for [0 < den], as the double [num * 2^-k] when [den = 2^k]. *)
Definition dyadic (num : positive) (k : Z) : number := S754_finite false num (- k).

End JsNumber.
Import JsNumber.

(* ================================================================= *)
(** ** The host: built-ins of the JavaScript runtime the code calls *)

Module JsDate.

Definition msPerDay : Z := 86400000.

(** A [Date] object is its time value: [None] is the invalid date (NaN). *)
Record Date : Type := mkDate { getTime : option Z }.

(** Time values are clipped to 8.64e15 ms around the epoch. *)
Definition timeClipped (t : Z) : bool := Z.abs t <=? 8640000000000000.

Definition wellFormed (d : Date) : Prop :=
  match getTime d with
  | Some t => timeClipped t = true
  | None => True
  end.

Definition Day (t : Z) : Z := t / msPerDay.
Definition TimeWithinDay (t : Z) : Z := t mod msPerDay.

Definition DayFromYear (y : Z) : Z :=
  365 * (y - 1970) + (y - 1969) / 4 - (y - 1901) / 100 + (y - 1601) / 400.

(** The largest [y] with [DayFromYear y <= Day t]: the estimate from the
    mean year length is off by at most one. *)
Definition YearFromTime (t : Z) : Z :=
  let d := Day t in
  let y := 1970 + (400 * d) / 146097 in
  if DayFromYear (y + 1) <=? d then y + 1
  else if DayFromYear y <=? d then y
  else y - 1.

Definition isLeapYear (y : Z) : bool :=
  ((y mod 4 =? 0) && negb (y mod 100 =? 0)) || (y mod 400 =? 0).

Definition InLeapYear (t : Z) : Z := if isLeapYear (YearFromTime t) then 1 else 0.

Definition DayWithinYear (t : Z) : Z := Day t - DayFromYear (YearFromTime t).

(** Month number, 0 for January. *)
Definition MonthFromTime (t : Z) : Z :=
  let d := DayWithinYear t in
  let l := InLeapYear t in
  if d <? 31 then 0
  else if d <? 59 + l then 1
  else if d <? 90 + l then 2
  else if d <? 120 + l then 3
  else if d <? 151 + l then 4
  else if d <? 181 + l then 5
  else if d <? 212 + l then 6
  else if d <? 243 + l then 7
  else if d <? 273 + l then 8
  else if d <? 304 + l then 9
  else if d <? 334 + l then 10
  else 11.

(** Day of the month, from 1. *)
Definition DateFromTime (t : Z) : Z :=
  let d := DayWithinYear t in
  let l := InLeapYear t in
  match MonthFromTime t with
  | 0 => d + 1
  | 1 => d - 30
  | 2 => d - 58 - l
  | 3 => d - 89 - l
  | 4 => d - 119 - l
  | 5 => d - 150 - l
  | 6 => d - 180 - l
  | 7 => d - 211 - l
  | 8 => d - 242 - l
  | 9 => d - 272 - l
  | 10 => d - 303 - l
  | _ => d - 333 - l
  end.

Definition HourFromTime (t : Z) : Z := (t / 3600000) mod 24.
Definition MinFromTime (t : Z) : Z := (t / 60000) mod 60.
Definition SecFromTime (t : Z) : Z := (t / 1000) mod 60.
Definition msFromTime (t : Z) : Z := t mod 1000.

(** The year field: four digits from 0000 to 9999, otherwise a sign and
    six digits. *)
Definition yearField (y : Z) : string :=
  if (0 <=? y) && (y <=? 9999) then padStart0 4 (toDecimal y)
  else (if y <? 0 then "-" else "+") ++ padStart0 6 (toDecimal (Z.abs y)).

(** The text of a valid time value in the date-time string format. *)
Definition isoString (t : Z) : string :=
  yearField (YearFromTime t) ++ "-" ++
  padStart0 2 (toDecimal (MonthFromTime t + 1)) ++ "-" ++
  padStart0 2 (toDecimal (DateFromTime t)) ++ "T" ++
  padStart0 2 (toDecimal (HourFromTime t)) ++ ":" ++
  padStart0 2 (toDecimal (MinFromTime t)) ++ ":" ++
  padStart0 2 (toDecimal (SecFromTime t)) ++ "." ++
  padStart0 3 (toDecimal (msFromTime t)) ++ "Z".

(** A field of [w] digits. *)
Definition digitField (w : nat) (x : string) : Prop :=
  String.length x = w /\ allChars isDigit x = true.

(** Recognising the date-time string format [YYYY-MM-DDTHH:mm:ss.sssZ],
    of 24 characters with a year of four digits, and its expanded form
    [+YYYYYY-MM-DDTHH:mm:ss.sssZ], of 27 characters with a sign and a year
    of six digits. *)
Fixpoint takeDigits (n : nat) (s : string) : option string :=
  match n with
  | O => Some s
  | S n' =>
      match s with
      | String c r => if isDigit c then takeDigits n' r else None
      | EmptyString => None
      end
  end.

Definition takeChar (c : ascii) (s : string) : option string :=
  match s with
  | String d r => if Ascii.eqb d c then Some r else None
  | EmptyString => None
  end.

Definition takeExpandedYear (s : string) : option string :=
  match s with
  | String c r =>
      if Ascii.eqb c "+"%char || Ascii.eqb c "-"%char then takeDigits 6 r else None
  | EmptyString => None
  end.

Definition andThen (o : option string) (f : string -> option string) : option string :=
  match o with
  | Some s => f s
  | None => None
  end.

(** What follows the year: [-MM-DDTHH:mm:ss.sssZ] and the end. *)
Definition afterYear (o : option string) : bool :=
  match
    andThen (andThen (andThen (andThen (andThen (andThen (andThen
    (andThen (andThen (andThen (andThen (andThen (andThen o
      (takeChar "-")) (takeDigits 2)) (takeChar "-")) (takeDigits 2))
      (takeChar "T")) (takeDigits 2)) (takeChar ":")) (takeDigits 2))
      (takeChar ":")) (takeDigits 2)) (takeChar ".")) (takeDigits 3))
      (takeChar "Z")
  with
  | Some EmptyString => true
  | _ => false
  end.

Definition isDateTimeString (s : string) : bool := afterYear (takeDigits 4 s).

Definition isExpandedDateTimeString (s : string) : bool :=
  afterYear (takeExpandedYear s).

(** A time value whose year is written with four digits. *)
Definition fourDigitYear (t : Z) : bool :=
  (0 <=? YearFromTime t) && (YearFromTime t <=? 9999).

(** [date.toISOString()]: a [RangeError] on the invalid date. *)
Definition toISOString (d : Date) : result string :=
  match getTime d with
  | Some t => Ok (isoString t)
  | None => Throw RangeError
  end.

(** [String(date)] of the invalid date, as a template literal shows it. *)
Definition invalidDateText : string := "Invalid Date".

End JsDate.
Import JsDate.

(** What the code takes from the runtime and this development does not
    compute: the shortest round-trip digits of [Number::toString] (needed for
    non-integers and for magnitudes above 2^53), the date parser, the URL
    parser and the process environment. *)
Class Host : Type := {
  shortestDecimal : positive -> Z -> string;
  Date_parse : string -> option Z;
  URL_protocol : string -> option string;
  SITE_URL : option string
}.

(** What every runtime guarantees of them: the text of a finite number is
    made of digits, a point, an exponent mark and signs; parsed dates are
    clipped time values. *)
Class HostLaws (h : Host) : Prop := {
  shortestDecimal_chars : forall m e, allChars numberChar (shortestDecimal m e) = true;
  Date_parse_clipped : forall s t, Date_parse s = Some t -> timeClipped t = true
}.

Section WithHost.

Context {host : Host}.

(** [Number::toString(x)], as a template literal or [String(x)] shows [x]:
    the shortest digits that read back as [x]. For an integer up to 2^53
    these are all its digits, since every integer below it is a double of
    its own; from there on, and for a number that is no integer, they are
    the runtime's. *)
Definition numberToString (x : number) : string :=
  match x with
  | S754_nan => "NaN"
  | S754_zero _ => "0"
  | S754_infinity s => (if s then "-" else "") ++ "Infinity"
  | S754_finite s m e =>
      let (num, den) := magnitude m e in
      (if s then "-" else "") ++
      (if (num mod den =? 0) && (num / den <=? 2 ^ 53) then toDecimal (num / den)
       else shortestDecimal m e)
  end.

(** [x.toFixed(fractionDigits)] *)
Definition toFixed (x : number) (fractionDigits : Z) : result string :=
  if (fractionDigits <? 0) || (100 <? fractionDigits) then Throw RangeError
  else
    match x with
    | S754_nan | S754_infinity _ => Ok (numberToString x)
    | S754_zero _ => Ok (pointed 0 (Z.to_nat fractionDigits))
    | S754_finite s m e =>
        let (num, den) := magnitude m e in
        let sign := if s then "-" else "" in
        if 10 ^ 21 * den <=? num
        then Ok (sign ++ numberToString (S754_finite false m e))
        else Ok (sign ++ pointed (roundScaled num den fractionDigits)
                                 (Z.to_nat fractionDigits))
    end.

(* ================================================================= *)
(** ** sitemap.ts: timestamps, entries, documents *)

Record SitemapEntry : Type := mkSitemapEntry {
  url : string;
  lastmod : option string;
  changefreq : option string;
  priority : option number
}.

Record SitemapIndex : Type := mkSitemapIndex {
  sitemap : string;
  index_lastmod : option string
}.

(** The values [changefreq] may take according to its type. *)
Definition changefreqValues : list string :=
  ["always"; "hourly"; "daily"; "weekly"; "monthly"; "yearly"; "never"].

(** Truthiness of an optional string: defined and non-empty. *)
Definition truthyOpt (o : option string) : bool :=
  match o with
  | Some s => JsString.truthy s
  | None => false
  end.

Definition getOr (o : option string) : string :=
  match o with
  | Some s => s
  | None => ""
  end.

(** [new URL(url)], reduced to the protocol the code reads. *)
Definition URL_new (u : string) : result string :=
  match URL_protocol u with
  | Some p => Ok p
  | None => Throw TypeError
  end.

(** [validateSitemapUrl(url)] *)
Definition validateSitemapUrl (u : string) : bool :=
  tryCatch
    (protocol <- URL_new u ;;
     Ok ((protocol =? "http:")%string || (protocol =? "https:")%string))
    false.

(** The time value of what [formatSitemapTimestamp] is given. *)
Definition timeValue (timestamp : string + Date) : option Z :=
  match timestamp with
  | inl s => Date_parse s
  | inr d => getTime d
  end.

(** [formatSitemapTimestamp(timestamp)] *)
Definition formatSitemapTimestamp (timestamp : string + Date) : result string :=
  let date := match timestamp with
              | inl s => mkDate (Date_parse s)
              | inr d => d
              end in
  match getTime date with
  | None =>
      Throw (Error ("Invalid timestamp: " ++
                    match timestamp with
                    | inl s => s
                    | inr _ => invalidDateText
                    end))
  | Some _ => toISOString date
  end.

(** [generateSitemapEntry(entry)] *)
Definition generateSitemapEntry (entry : SitemapEntry) : result string :=
  let xml := "  <url>" ++ LF in
  let xml := xml ++ ("    <loc>" ++ escapeXml (url entry) ++ "</loc>" ++ LF) in
  let xml := if truthyOpt (lastmod entry)
             then xml ++ ("    <lastmod>" ++ escapeXml (getOr (lastmod entry)) ++ "</lastmod>" ++ LF)
             else xml in
  let xml := if truthyOpt (changefreq entry)
             then xml ++ ("    <changefreq>" ++ escapeXml (getOr (changefreq entry)) ++ "</changefreq>" ++ LF)
             else xml in
  xml <- match priority entry with
         | Some p =>
             shown <- toFixed p 1 ;;
             Ok (xml ++ ("    <priority>" ++ shown ++ "</priority>" ++ LF))
         | None => Ok xml
         end ;;
  Ok (xml ++ ("  </url>" ++ LF)).

(** [generateSitemapIndexEntry(entry)] *)
Definition generateSitemapIndexEntry (entry : SitemapIndex) : result string :=
  let xml := "  <sitemap>" ++ LF in
  let xml := xml ++ ("    <loc>" ++ escapeXml (sitemap entry) ++ "</loc>" ++ LF) in
  let xml := if truthyOpt (index_lastmod entry)
             then xml ++ ("    <lastmod>" ++ escapeXml (getOr (index_lastmod entry)) ++ "</lastmod>" ++ LF)
             else xml in
  Ok (xml ++ ("  </sitemap>" ++ LF)).

(** [for (const entry of entries) xml += render(entry)] *)
Fixpoint appendEach {A : Type} (render : A -> result string)
    (xml : string) (entries : list A) : result string :=
  match entries with
  | [] => Ok xml
  | entry :: rest =>
      piece <- render entry ;;
      appendEach render (xml ++ piece) rest
  end.

Definition xmlDeclaration : string :=
  "<?xml version=" ++ DQ ++ "1.0" ++ DQ ++ " encoding=" ++ DQ ++ "UTF-8" ++ DQ ++ "?>" ++ LF.

Definition sitemapNamespace : string :=
  DQ ++ "http://www.sitemaps.org/schemas/sitemap/0.9" ++ DQ.

(** [generateSitemapXml(entries)] *)
Definition generateSitemapXml (entries : list SitemapEntry) : result string :=
  let xml := xmlDeclaration in
  let xml := xml ++ ("<urlset xmlns=" ++ sitemapNamespace ++ ">" ++ LF) in
  xml <- appendEach generateSitemapEntry xml entries ;;
  Ok (xml ++ ("</urlset>" ++ LF)).

(** [generateSitemapIndexXml(entries)] *)
Definition generateSitemapIndexXml (entries : list SitemapIndex) : result string :=
  let xml := xmlDeclaration in
  let xml := xml ++ ("<sitemapindex xmlns=" ++ sitemapNamespace ++ ">" ++ LF) in
  xml <- appendEach generateSitemapIndexEntry xml entries ;;
  Ok (xml ++ ("</sitemapindex>" ++ LF)).

(** [getSitemapBaseUrl()] *)
Definition getSitemapBaseUrl : string :=
  if truthyOpt SITE_URL then getOr SITE_URL else "http://localhost:4321".

End WithHost.

(* ================================================================= *)
(** ** Reading a sitemap back: the XML a consumer parses

    The fragment of XML that sitemaps are written in: a declaration, elements
    with attributes, character data and the five predefined entities.

    [lex], [build] and [parse] are the tokenizer and the tree builder alone:
    they take every character as it is written. A conforming processor does
    two things to its input before them (XML 1.0, sections 2.2 and 2.11): it
    refuses a document that holds a character outside [Char], and it turns
    every CR LF and every CR alone into LF. That processor is [parseDocument],
    and [loadSitemap] is what a consumer of a sitemap gets from it. The two
    readers agree on text without control characters and without CR. *)

Module Xml.

Inductive token : Type :=
| TDecl (body : string)
| TOpen (name attrs : string)
| TClose (name : string)
| TText (raw : string).

Inductive lexState : Type :=
| InText (acc : string)
| InTag (acc : string).

Definition snoc (s : string) (c : ascii) : string := s ++ String c "".

(** Splits a start tag at its first space. *)
Fixpoint splitName (body : string) : string * string :=
  match body with
  | EmptyString => ("", "")
  | String c r =>
      if Ascii.eqb c " "%char then ("", r)
      else let (n, a) := splitName r in (String c n, a)
  end.

Definition tagToken (body : string) : token :=
  match body with
  | String "?"%char r => TDecl r
  | String "/"%char r => TClose r
  | _ => let (n, a) := splitName body in TOpen n a
  end.

Fixpoint lex (st : lexState) (s : string) : option (list token) :=
  match s with
  | EmptyString =>
      match st with
      | InText acc => Some [TText acc]
      | InTag _ => None
      end
  | String c r =>
      match st with
      | InText acc =>
          if Ascii.eqb c "<"%char
          then option_map (cons (TText acc)) (lex (InTag "") r)
          else lex (InText (snoc acc c)) r
      | InTag acc =>
          if Ascii.eqb c ">"%char
          then option_map (cons (tagToken acc)) (lex (InText "") r)
          else if Ascii.eqb c "<"%char then None
          else lex (InTag (snoc acc c)) r
      end
  end.

#[warnings="-register-all"]
Inductive node : Type :=
| Element (name attrs : string) (children : list node)
| CharData (raw : string).

(** An open element: its name, its attributes and the nodes of its parent
    read before it. *)
Definition frame : Type := string * string * list node.

Fixpoint build (toks : list token) (cur : list node) (stack : list frame)
  : option (list node) :=
  match toks with
  | [] =>
      match stack with
      | [] => Some cur
      | _ :: _ => None
      end
  | TText t :: rest => build rest (cur ++ [CharData t])%list stack
  | TDecl _ :: rest => build rest cur stack
  | TOpen n a :: rest => build rest [] ((n, a, cur) :: stack)
  | TClose n :: rest =>
      match stack with
      | (n', a, parent) :: stack' =>
          if (n =? n')%string
          then build rest (parent ++ [Element n' a cur])%list stack'
          else None
      | [] => None
      end
  end.

Definition parse (s : string) : option (list node) :=
  match lex (InText "") s with
  | Some toks => build toks [] []
  | None => None
  end.

(** Entities. *)
Inductive refState : Type :=
| Plain
| Reference (name : string).

Definition entityChar (name : string) : option ascii :=
  if (name =? "amp")%string then Some "&"%char
  else if (name =? "lt")%string then Some "<"%char
  else if (name =? "gt")%string then Some ">"%char
  else if (name =? "quot")%string then Some "034"%char
  else if (name =? "apos")%string then Some "'"%char
  else None.

Fixpoint unescapeFrom (st : refState) (s : string) : option string :=
  match s with
  | EmptyString =>
      match st with
      | Plain => Some ""
      | Reference _ => None
      end
  | String c r =>
      match st with
      | Plain =>
          if Ascii.eqb c "&"%char then unescapeFrom (Reference "") r
          else option_map (String c) (unescapeFrom Plain r)
      | Reference n =>
          if Ascii.eqb c ";"%char
          then match entityChar n with
               | Some d => option_map (String d) (unescapeFrom Plain r)
               | None => None
               end
          else unescapeFrom (Reference (snoc n c)) r
      end
  end.

Definition unescape (s : string) : option string := unescapeFrom Plain s.

Definition isWhitespace (c : ascii) : bool :=
  Ascii.eqb c " "%char || Ascii.eqb c "010"%char ||
  Ascii.eqb c "013"%char || Ascii.eqb c "009"%char.

Fixpoint allWhitespace (s : string) : bool :=
  match s with
  | EmptyString => true
  | String c r => isWhitespace c && allWhitespace r
  end.

(** The text of an element that has character data only. *)
Fixpoint textContent (children : list node) : option string :=
  match children with
  | [] => Some ""
  | CharData t :: rest => option_map (append t) (textContent rest)
  | Element _ _ _ :: _ => None
  end.

(** The child elements of a node list as (name, unescaped text) pairs;
    character data between them has to be white space. *)
Fixpoint fields (children : list node) : option (list (string * string)) :=
  match children with
  | [] => Some []
  | CharData t :: rest => if allWhitespace t then fields rest else None
  | Element n _ inner :: rest =>
      match textContent inner with
      | Some raw =>
          match unescape raw, fields rest with
          | Some text, Some fs => Some ((n, text) :: fs)
          | _, _ => None
          end
      | None => None
      end
  end.

(** The child elements of a node list that are named [name], each as its
    fields; any other child element is an error. *)
Fixpoint records (name : string) (children : list node)
  : option (list (list (string * string))) :=
  match children with
  | [] => Some []
  | CharData t :: rest => if allWhitespace t then records name rest else None
  | Element n _ inner :: rest =>
      if (n =? name)%string
      then match fields inner, records name rest with
           | Some f, Some rs => Some (f :: rs)
           | _, _ => None
           end
      else None
  end.

(** Nothing but white space. *)
Fixpoint blank (forest : list node) : bool :=
  match forest with
  | [] => true
  | CharData t :: rest => allWhitespace t && blank rest
  | Element _ _ _ :: _ => false
  end.

(** The single root element of a document. *)
Fixpoint rootElement (forest : list node) : option (string * list node) :=
  match forest with
  | [] => None
  | CharData t :: rest => if allWhitespace t then rootElement rest else None
  | Element n _ inner :: rest => if blank rest then Some (n, inner) else None
  end.

(** A sitemap document as the list of its [<url>] elements. *)
Definition readSitemap (s : string) : option (list (list (string * string))) :=
  match parse s with
  | Some forest =>
      match rootElement forest with
      | Some (n, inner) => if (n =? "urlset")%string then records "url" inner else None
      | None => None
      end
  | None => None
  end.

(** A lone element named [name], as its fields. *)
Definition readElement (name s : string) : option (list (string * string)) :=
  match parse s with
  | Some forest =>
      match rootElement forest with
      | Some (n, inner) => if (n =? name)%string then fields inner else None
      | None => None
      end
  | None => None
  end.

(** The value of the first field named [k]. *)
Fixpoint field (k : string) (fs : list (string * string)) : option string :=
  match fs with
  | [] => None
  | (n, v) :: rest => if (n =? k)%string then Some v else field k rest
  end.










End Xml.

(* ================================================================= *)
(** ** JSON-LD values *)

Module Json.

#[warnings="-register-all"]
Inductive json : Type :=
| JNull
| JString (s : string)
| JNumber (x : number)
| JArray (items : list json)
| JObject (members : list (string * json)).

(** [obj[k]] *)
Fixpoint getProp (k : string) (members : list (string * json)) : option json :=
  match members with
  | [] => None
  | (k', v) :: rest => if (k' =? k)%string then Some v else getProp k rest
  end.

(** [obj[k] = v]: in place when the key exists, else added last. *)
Fixpoint setProp (k : string) (v : json) (members : list (string * json))
  : list (string * json) :=
  match members with
  | [] => [(k, v)]
  | (k', v') :: rest =>
      if (k' =? k)%string then (k, v) :: rest else (k', v') :: setProp k v rest
  end.

(** [obj[k][k2] = v] for an object-valued [obj[k]]. *)
Fixpoint setNested (k k2 : string) (v : json) (members : list (string * json))
  : list (string * json) :=
  match members with
  | [] => []
  | (k', JObject inner) :: rest =>
      if (k' =? k)%string then (k', JObject (setProp k2 v inner)) :: rest
      else (k', JObject inner) :: setNested k k2 v rest
  | kv :: rest => kv :: setNested k k2 v rest
  end.

(** [obj.a.b] *)
Definition getNested (k k2 : string) (members : list (string * json)) : option json :=
  match getProp k members with
  | Some (JObject inner) => getProp k2 inner
  | _ => None
  end.

Definition strings (l : list string) : json := JArray (map JString l).

Definition isNullOrEmpty (v : json) : bool :=
  match v with
  | JNull => true
  | JString EmptyString => true
  | _ => false
  end.

(** No key that [optional] selects (by the key of the enclosing object and
    its own name) is bound to [null] or to the empty string, at any depth. *)
Fixpoint populated (optional : string -> string -> bool) (parent : string)
    (v : json) : bool :=
  match v with
  | JObject members =>
      (fix each (ms : list (string * json)) : bool :=
         match ms with
         | [] => true
         | (k, x) :: rest =>
             (if optional parent k then negb (isNullOrEmpty x) else true)
             && populated optional k x && each rest
         end) members
  | JArray items =>
      (fix each (xs : list json) : bool :=
         match xs with
         | [] => true
         | x :: rest => populated optional parent x && each rest
         end) items
  | _ => true
  end.

(** The condition [populated] puts on one member. *)
Definition member_ok (opt : string -> string -> bool) (parent k : string) (v : json) : bool :=
  (if opt parent k then negb (isNullOrEmpty v) else true) && populated opt k v.

End Json.
Import Json.

(* ================================================================= *)
(** ** contentful.ts: the content records *)

Record ContentfulSys : Type := mkSys {
  sys_id : string;
  createdAt : string;
  updatedAt : string
}.

Record ImageDetails : Type := mkImageDetails {
  width : number;
  height : number
}.

Record AssetFile : Type := mkAssetFile {
  file_url : string;
  details_size : number;
  details_image : option ImageDetails;
  fileName : string;
  contentType : string
}.

Record ContentfulAsset : Type := mkAsset {
  asset_sys : ContentfulSys;
  asset_title : string;
  asset_description : option string;
  file : AssetFile
}.

Record Author : Type := mkAuthor {
  author_sys : ContentfulSys;
  author_name : string;
  author_slug : string;
  bio : option string;
  avatar : option ContentfulAsset;
  author_socialLinks : option (list (string * string))
}.

Record Category : Type := mkCategory {
  category_sys : ContentfulSys;
  category_name : string;
  category_slug : string;
  category_description : string;
  category_featuredImage : option ContentfulAsset;
  color : string
}.

Record Seo : Type := mkSeo {
  seo_title : option string;
  seo_description : option string;
  ogImage : option ContentfulAsset
}.

Record BlogPost : Type := mkBlogPost {
  post_sys : ContentfulSys;
  post_title : string;
  post_slug : string;
  excerpt : string;
  post_content : string;
  post_featuredImage : option ContentfulAsset;
  author : Author;
  post_category : Category;
  tags : list string;
  publishedAt : string;
  seo : option Seo
}.

Record GuideStep : Type := mkGuideStep {
  step_title : string;
  step_content : string;
  step_image : option ContentfulAsset
}.

Inductive Difficulty : Type := beginner | intermediate | advanced.

Record Guide : Type := mkGuide {
  guide_sys : ContentfulSys;
  guide_title : string;
  guide_slug : string;
  guide_description : string;
  guide_content : string;
  difficulty : Difficulty;
  estimatedTime : number;
  steps : list GuideStep;
  guide_featuredImage : option ContentfulAsset;
  guide_category : Category;
  tools : list string;
  guide_publishedAt : string
}.

Record FaqEntry : Type := mkFaqEntry {
  faq_sys : ContentfulSys;
  question : string;
  answer : string;
  faq_category : string;
  order : number
}.

Record Breadcrumb : Type := mkBreadcrumb {
  crumb_name : string;
  crumb_url : string
}.

(* ================================================================= *)
(** ** schemas.ts: the generator *)

Record SchemaConfig : Type := mkSchemaConfig {
  siteUrl : string;
  siteName : string;
  organizationName : string;
  logoUrl : option string;
  socialLinks : option (list string)
}.

Record SchemaGenerator : Type := mkSchemaGenerator { config : SchemaConfig }.

(** An object reference is truthy whatever it holds. *)
Definition present {A : Type} (_ : A) : bool := true.

(** [array.map((x, index) => f(x, index))] *)
Fixpoint mapIndexed {A B : Type} (f : A -> Z -> B) (index : Z) (l : list A) : list B :=
  match l with
  | [] => []
  | x :: rest => f x index :: mapIndexed f (index + 1) rest
  end.

Section Schemas.

Context {host : Host}.
Variable this : SchemaGenerator.

(** [generateOrganizationSchema()] *)
Definition generateOrganizationSchema : list (string * json) :=
  let schema := [
    ("@context", JString "https://schema.org");
    ("@type", JString "Organization");
    ("name", JString (organizationName (config this)));
    ("url", JString (siteUrl (config this)))
  ] in
  let schema :=
    if truthyOpt (logoUrl (config this))
    then setProp "logo" (JObject [
           ("@type", JString "ImageObject");
           ("url", JString (getOr (logoUrl (config this))))
         ]) schema
    else schema in
  let schema :=
    match socialLinks (config this) with
    | Some links =>
        if (0 <? List.length links)%nat
        then setProp "sameAs" (strings links) schema
        else schema
    | None => schema
    end in
  schema.

(** [generateWebSiteSchema()] *)
Definition generateWebSiteSchema : list (string * json) := [
  ("@context", JString "https://schema.org");
  ("@type", JString "WebSite");
  ("name", JString (siteName (config this)));
  ("url", JString (siteUrl (config this)));
  ("potentialAction", JObject [
     ("@type", JString "SearchAction");
     ("target", JObject [
        ("@type", JString "EntryPoint");
        ("urlTemplate", JString (siteUrl (config this) ++ "/search?q={search_term_string}"))
      ]);
     ("query-input", JString "required name=search_term_string")
   ])
].

(** The [ImageObject] of an asset: its URL as it is when it starts with
    [http], else after the site URL. *)
Definition imageObject (asset : ContentfulAsset) : list (string * json) := [
  ("@type", JString "ImageObject");
  ("url", JString (if startsWith "http" (file_url (file asset))
                   then file_url (file asset)
                   else siteUrl (config this) ++ file_url (file asset)))
].

(** [generateBlogPostingSchema(post, canonicalUrl)] *)
Definition generateBlogPostingSchema (post : BlogPost) (canonicalUrl : string)
  : list (string * json) :=
  let schema := [
    ("@context", JString "https://schema.org");
    ("@type", JString "BlogPosting");
    ("headline", JString (post_title post));
    ("description", JString (excerpt post));
    ("author", JObject [
       ("@type", JString "Person");
       ("name", JString (author_name (author post)))
     ]);
    ("publisher", JObject generateOrganizationSchema);
    ("datePublished", JString (publishedAt post));
    ("dateModified", JString (updatedAt (post_sys post)));
    ("mainEntityOfPage", JObject [
       ("@type", JString "WebPage");
       ("@id", JString canonicalUrl)
     ])
  ] in
  let schema :=
    if JsString.truthy (author_slug (author post))
    then setNested "author" "url"
           (JString (siteUrl (config this) ++ "/author/" ++ author_slug (author post)))
           schema
    else schema in
  let schema :=
    match post_featuredImage post with
    | Some featuredImage =>
        let schema := setProp "image" (JObject (imageObject featuredImage)) schema in
        match details_image (file featuredImage) with
        | Some image =>
            setNested "image" "height" (JNumber (height image))
              (setNested "image" "width" (JNumber (width image)) schema)
        | None => schema
        end
    | None => schema
    end in
  let schema :=
    if present (post_category post)
    then setProp "articleSection" (JString (category_name (post_category post))) schema
    else schema in
  let schema :=
    if present (tags post) && (0 <? List.length (tags post))%nat
    then setProp "keywords" (strings (tags post)) schema
    else schema in
  schema.

(** One [HowToStep]. *)
Definition howToStep (step : GuideStep) : json :=
  let howToStep := [
    ("@type", JString "HowToStep");
    ("name", JString (step_title step));
    ("text", JString (step_content step))
  ] in
  let howToStep :=
    match step_image step with
    | Some image => setProp "image" (JObject (imageObject image)) howToStep
    | None => howToStep
    end in
  JObject howToStep.

(** [generateHowToSchema(guide)] *)
Definition generateHowToSchema (guide : Guide) : list (string * json) :=
  let schema := [
    ("@context", JString "https://schema.org");
    ("@type", JString "HowTo");
    ("name", JString (guide_title guide));
    ("description", JString (guide_description guide));
    ("step", JArray (map howToStep (steps guide)))
  ] in
  let schema :=
    match guide_featuredImage guide with
    | Some featuredImage => setProp "image" (JObject (imageObject featuredImage)) schema
    | None => schema
    end in
  let schema :=
    if truthyNumber (estimatedTime guide)
    then setProp "totalTime" (JString ("PT" ++ numberToString (estimatedTime guide) ++ "M")) schema
    else schema in
  let schema :=
    if present (tools guide) && (0 <? List.length (tools guide))%nat
    then setProp "tool" (strings (tools guide)) schema
    else schema in
  schema.

(** [generateBreadcrumbListSchema(breadcrumbs)] *)
Definition generateBreadcrumbListSchema (breadcrumbs : list Breadcrumb)
  : list (string * json) := [
  ("@context", JString "https://schema.org");
  ("@type", JString "BreadcrumbList");
  ("itemListElement", JArray (mapIndexed (fun crumb index => JObject [
     ("@type", JString "ListItem");
     ("position", JNumber (ofZ (index + 1)));
     ("name", JString (crumb_name crumb));
     ("item", JString (if startsWith "http" (crumb_url crumb)
                       then crumb_url crumb
                       else siteUrl (config this) ++ crumb_url crumb))
   ]) 0 breadcrumbs))
].

(** [generateFAQPageSchema(faqEntries)] *)
Definition generateFAQPageSchema (faqEntries : list FaqEntry) : list (string * json) := [
  ("@context", JString "https://schema.org");
  ("@type", JString "FAQPage");
  ("mainEntity", JArray (map (fun entry => JObject [
     ("@type", JString "Question");
     ("name", JString (question entry));
     ("acceptedAnswer", JObject [
        ("@type", JString "Answer");
        ("text", JString (answer entry))
      ])
   ]) faqEntries))
].

End Schemas.

(** The optional keys of the generated objects: [url] is optional inside
    [author] only. *)
Definition optionalKeys : list string :=
  ["logo"; "sameAs"; "image"; "width"; "height"; "articleSection";
   "keywords"; "totalTime"; "tool"].

Definition isOptionalKey (parent k : string) : bool :=
  existsb (String.eqb k) optionalKeys ||
  ((parent =? "author")%string && (k =? "url")%string).

(** The same without [articleSection]. *)
Definition isGuardedKey (parent k : string) : bool :=
  isOptionalKey parent k && negb (k =? "articleSection")%string.


(* ================================================================= *)
(** ** The shape of what the sitemap functions write *)

Module Layout.

Import Xml.

(** One line of a record: an element with text, indented by four. *)
Definition fieldLine (f : string * string) : string :=
  "    <" ++ fst f ++ ">" ++ snd f ++ "</" ++ fst f ++ ">" ++ LF.

Fixpoint fieldLines (fs : list (string * string)) : string :=
  match fs with
  | [] => ""
  | f :: rest => fieldLine f ++ fieldLines rest
  end.

(** A record: an element of field lines, indented by two. *)
Definition recordText (name : string) (fs : list (string * string)) : string :=
  "  <" ++ name ++ ">" ++ LF ++ fieldLines fs ++ "  </" ++ name ++ ">" ++ LF.

Fixpoint recordTexts (name : string) (rs : list (list (string * string))) : string :=
  match rs with
  | [] => ""
  | fs :: rest => recordText name fs ++ recordTexts name rest
  end.

(** An element name that a start tag holds as it is. *)
Definition plainName (name : string) : bool :=
  match tagToken name with
  | TOpen n a => (n =? name)%string && (a =? "")%string
  | _ => false
  end && negb (includes "<" name) && negb (includes ">" name).

(** Text that a reader takes as character data without references. *)
Definition plainText (s : string) : bool :=
  negb (includes "<" s) && negb (includes "&" s).

(** A field that can be written: an element name and text without [<]. *)
Definition writable (f : string * string) : Prop :=
  plainName (fst f) = true /\ includes "<" (snd f) = false.

Definition fieldTokens (f : string * string) : list token :=
  [TText (LF ++ "    "); TOpen (fst f) ""; TText (snd f); TClose (fst f)].

Definition recordTokens (acc name : string) (fs : list (string * string)) : list token :=
  (TText (acc ++ "  ") :: TOpen name "" :: flat_map fieldTokens fs ++
   [TText (LF ++ "  "); TClose name])%list.

Definition fieldNodes (f : string * string) : list node :=
  [CharData (LF ++ "    "); Element (fst f) "" [CharData (snd f)]].

Definition recordNodes (acc name : string) (fs : list (string * string)) : list node :=
  [CharData (acc ++ "  ");
   Element name "" (flat_map fieldNodes fs ++ [CharData (LF ++ "  ")])%list].

(** The tokens and nodes of a run of records that follows a line feed. *)
Fixpoint recordsTokens (name : string) (rs : list (list (string * string))) : list token :=
  match rs with
  | [] => []
  | fs :: rest => (recordTokens LF name fs ++ recordsTokens name rest)%list
  end.

Fixpoint recordsNodes (name : string) (rs : list (list (string * string))) : list node :=
  match rs with
  | [] => []
  | fs :: rest => (recordNodes LF name fs ++ recordsNodes name rest)%list
  end.

(** The fields a reader gets from the written ones. *)
Fixpoint readFields (fs : list (string * string)) : option (list (string * string)) :=
  match fs with
  | [] => Some []
  | (n, raw) :: rest =>
      match unescape raw, readFields rest with
      | Some text, Some fs' => Some ((n, text) :: fs')
      | _, _ => None
      end
  end.

End Layout.



Section EntryLayout.

Context {host : Host}.

(** The text [toFixed(1)] gives; the call cannot throw. *)
Definition priorityText (p : number) : string :=
  match toFixed p 1 with
  | Ok s => s
  | Throw _ => ""
  end.

Definition optionalField (name : string) (o : option string) : list (string * string) :=
  if truthyOpt o then [(name, getOr o)] else [].

(** The fields of an entry, as a reader gets them. *)
Definition entryFields (e : SitemapEntry) : list (string * string) :=
  (("loc", url e) :: optionalField "lastmod" (lastmod e) ++
   optionalField "changefreq" (changefreq e) ++
   match priority e with
   | Some p => [("priority", priorityText p)]
   | None => []
   end)%list.

(** The fields of an entry, as they are written. *)
Definition entryWritten (e : SitemapEntry) : list (string * string) :=
  (("loc", escapeXml (url e)) ::
   map (fun f => (fst f, escapeXml (snd f)))
     (optionalField "lastmod" (lastmod e) ++ optionalField "changefreq" (changefreq e)) ++
   match priority e with
   | Some p => [("priority", priorityText p)]
   | None => []
   end)%list.

End EntryLayout.

(* ================================================================= *)
(** ** Sample data *)

Module Example.

(** A host for the samples: it parses one date string, knows three URL
    schemes, and has no [SITE_URL]. *)
Definition sampleHost : Host := {|
  shortestDecimal := fun _ _ => "1e+21";
  Date_parse := fun s =>
    if (s =? "2024-01-15T10:00:00Z")%string then Some 1705312800000 else None;
  URL_protocol := fun u =>
    if startsWith "https://" u then Some "https:"
    else if startsWith "http://" u then Some "http:"
    else if startsWith "ftp://" u then Some "ftp:"
    else None;
  SITE_URL := None
|}.







(** The first millisecond of the year 10000, and a [Date] of it. *)
Definition year10000 : Z := 253402300800000.

Definition farDate : Date := mkDate (Some year10000).

Definition sampleSys : ContentfulSys :=
  mkSys "post-1" "2024-01-01T00:00:00.000Z" "2024-02-01T00:00:00.000Z".

Definition sampleAuthor : Author :=
  mkAuthor sampleSys "Ada" "ada" None None None.

(** A category whose name the CMS delivered empty. *)
Definition unnamedCategory : Category :=
  mkCategory sampleSys "" "misc" "" None "#000000".

Definition samplePost : BlogPost :=
  mkBlogPost sampleSys "Title" "title" "Excerpt" "Content" None sampleAuthor
    unnamedCategory ["seo"] "2024-01-15T10:00:00.000Z" None.

Definition sampleGenerator : SchemaGenerator :=
  mkSchemaGenerator
    (mkSchemaConfig "https://example.com" "Site" "Org"
       (Some "https://example.com/images/logo.png") (Some ["https://github.com/org"])).

(** A guide that takes [minutes]. *)
Definition sampleGuide (minutes : number) : Guide :=
  mkGuide sampleSys "Guide" "guide" "A guide" "Content" beginner minutes
    [mkGuideStep "One" "Do it" None] None unnamedCategory [] "2024-01-15".

(** The sample host with the digits a runtime shows for 2^64. *)
Definition digitsHost : Host := {|
  shortestDecimal := fun m e =>
    if Zpos m * 2 ^ e =? 2 ^ 64 then "18446744073709552000" else "1e+21";
  Date_parse := @Date_parse sampleHost;
  URL_protocol := @URL_protocol sampleHost;
  SITE_URL := None
|}.

End Example.

(* ================================================================= *)
(** ** Sitemap index documents, as a consumer reads them *)




(** One of the five characters [escapeXml] replaces. *)
Definition escaped (c : ascii) : bool :=
  Ascii.eqb c "&"%char || special c.

(** A number between 0 and 1, ends included. *)
Definition unitRange (x : number) : bool :=
  match x with
  | S754_zero _ => true
  | S754_finite false m e => let (num, den) := magnitude m e in num <=? den
  | _ => false
  end.

(* ================================================================= *)
(** ** pages/sitemap-*.xml.ts: the routes that serve the sitemaps *)

Record Response : Type := mkResponse {
  body : string;
  status : Z;
  headerContentType : string;
  headerCacheControl : string
}.

(** [try { body } catch (error) { handler }] where the handler may throw. *)
Definition catchWith {A : Type} (body : result A) (handler : JsError -> result A)
  : result A :=
  match body with
  | Ok a => Ok a
  | Throw e => handler e
  end.

(** [array.map(f)] for an [f] that may throw: in order, the first throw ends it. *)
Fixpoint mapResult {A B : Type} (f : A -> result B) (l : list A) : result (list B) :=
  match l with
  | [] => Ok []
  | x :: rest =>
      y <- f x ;;
      ys <- mapResult f rest ;;
      Ok (y :: ys)
  end.

(** [array.filter((entry) => entry !== null)] *)
Fixpoint nonNull {A : Type} (l : list (option A)) : list A :=
  match l with
  | [] => []
  | Some x :: rest => x :: nonNull rest
  | None :: rest => nonNull rest
  end.

Definition priority09 : number := dyadic 8106479329266893 53.
Definition priority08 : number := dyadic 7205759403792794 53.

Definition xmlContentType : string := "application/xml; charset=utf-8".


Section Routes.

Context {host : Host}.



(** [GET] of [sitemap-blog.xml.ts]; [getBlogPosts] is what awaiting
    [contentService.getBlogPosts(1000, false)] gives. *)
Definition blogGET (getBlogPosts : result (list BlogPost)) : result Response :=
  let baseUrl := getSitemapBaseUrl in
  catchWith
    (blogPosts <- getBlogPosts ;;
     mapped <- mapResult
       (fun post =>
          let url := formatSitemapUrl ("/blog/" ++ post_slug post) baseUrl in
          if negb (shouldIncludeInSitemap url) then Ok None
          else
            stamp <- formatSitemapTimestamp (inl (updatedAt (post_sys post))) ;;
            Ok (Some (mkSitemapEntry url (Some stamp) (Some "weekly") (Some priority08))))
       blogPosts ;;
     let sitemapEntries := nonNull mapped in
     xml <- generateSitemapXml sitemapEntries ;;
     Ok (mkResponse xml 200 xmlContentType "public, max-age=3600"))
    (fun _ =>
     emptyXml <- generateSitemapXml [] ;;
     Ok (mkResponse emptyXml 200 xmlContentType "public, max-age=300")).

(** [GET] of [sitemap-guides.xml.ts]; [getGuides] is what awaiting
    [contentService.getGuides(1000, false)] gives. *)
Definition guidesGET (getGuides : result (list Guide)) : result Response :=
  let baseUrl := getSitemapBaseUrl in
  catchWith
    (guides <- getGuides ;;
     mapped <- mapResult
       (fun guide =>
          let url := formatSitemapUrl ("/guides/" ++ guide_slug guide) baseUrl in
          if negb (shouldIncludeInSitemap url) then Ok None
          else
            stamp <- formatSitemapTimestamp (inl (updatedAt (guide_sys guide))) ;;
            Ok (Some (mkSitemapEntry url (Some stamp) (Some "monthly") (Some priority09))))
       guides ;;
     let sitemapEntries := nonNull mapped in
     xml <- generateSitemapXml sitemapEntries ;;
     Ok (mkResponse xml 200 xmlContentType "public, max-age=3600"))
    (fun _ =>
     emptyXml <- generateSitemapXml [] ;;
     Ok (mkResponse emptyXml 200 xmlContentType "public, max-age=300")).


(** The document of an empty sitemap. *)
Definition emptySitemap : string :=
  xmlDeclaration ++ "<urlset xmlns=" ++ sitemapNamespace ++ ">" ++ LF ++ "</urlset>" ++ LF.

(** What a content route answers when something went wrong. *)
Definition fallbackResponse : Response :=
  mkResponse emptySitemap 200 xmlContentType "public, max-age=300".

(** An entry whose priority is written without markup. *)
Definition plainPriority (e : SitemapEntry) : Prop :=
  forall p, priority e = Some p -> Layout.plainText (priorityText p) = true.

(** What the content routes have in common, for the properties: a path
    prefix, a change frequency and a priority over (slug, updatedAt) pairs. *)
Definition contentEntry (prefix freq : string) (prio : number) (item : string * string)
  : result (option SitemapEntry) :=
  let url := formatSitemapUrl (prefix ++ fst item) getSitemapBaseUrl in
  if negb (shouldIncludeInSitemap url) then Ok None
  else
    stamp <- formatSitemapTimestamp (inl (snd item)) ;;
    Ok (Some (mkSitemapEntry url (Some stamp) (Some freq) (Some prio))).

Definition contentGET (prefix freq : string) (prio : number)
    (fetched : result (list (string * string))) : result Response :=
  catchWith
    (items <- fetched ;;
     mapped <- mapResult (contentEntry prefix freq prio) items ;;
     xml <- generateSitemapXml (nonNull mapped) ;;
     Ok (mkResponse xml 200 xmlContentType "public, max-age=3600"))
    (fun _ =>
     emptyXml <- generateSitemapXml [] ;;
     Ok (mkResponse emptyXml 200 xmlContentType "public, max-age=300")).

(** A content item whose URL passes the sitemap filter. *)
Definition eligible (prefix : string) (item : string * string) : bool :=
  shouldIncludeInSitemap (formatSitemapUrl (prefix ++ fst item) getSitemapBaseUrl).

(** The fields a reader gets for an eligible item with time value [t]. *)
Definition contentFields (prefix freq shown : string) (item : string * string) (t : Z)
  : list (string * string) :=
  [("loc", formatSitemapUrl (prefix ++ fst item) getSitemapBaseUrl);
   ("lastmod", isoString t); ("changefreq", freq); ("priority", shown)].

(** The fields of the eligible items, when each of them has a time value. *)
Fixpoint contentRecords (prefix freq shown : string) (items : list (string * string))
  : option (list (list (string * string))) :=
  match items with
  | [] => Some []
  | item :: rest =>
      if eligible prefix item then
        match Date_parse (snd item), contentRecords prefix freq shown rest with
        | Some t, Some rs => Some (contentFields prefix freq shown item t :: rs)
        | _, _ => None
        end
      else contentRecords prefix freq shown rest
  end.

Definition postItem (post : BlogPost) : string * string :=
  (post_slug post, updatedAt (post_sys post)).

Definition guideItem (guide : Guide) : string * string :=
  (guide_slug guide, updatedAt (guide_sys guide)).

Definition mapOk {A B : Type} (f : A -> B) (r : result A) : result B :=
  match r with
  | Ok a => Ok (f a)
  | Throw e => Throw e
  end.



End Routes.

(* ================================================================= *)
(** ** schemas.ts and structuredData.ts: the factories and the
       per-content-type generator *)

Record StructuredDataConfig : Type := mkStructuredDataConfig {
  sd_siteUrl : string;
  sd_siteName : string;
  sd_organizationName : string;
  sd_logoUrl : option string;
  sd_socialLinks : option (list string)
}.

Record ContentTypeStructuredDataGenerator : Type := mkStructuredDataGenerator {
  schemaGenerator : SchemaGenerator;
  sd_config : StructuredDataConfig
}.

(** The text of a [difficulty]. *)
Definition difficultyText (d : Difficulty) : string :=
  match d with
  | beginner => "beginner"
  | intermediate => "intermediate"
  | advanced => "advanced"
  end.

Definition defaultSocialLinks : list string :=
  ["https://github.com/technical-seo-lab";
   "https://twitter.com/techseolab";
   "https://linkedin.com/company/technical-seo-lab"].

Section StructuredData.

Context {host : Host}.

(** [createSchemaGenerator()] *)
Definition createSchemaGenerator : SchemaGenerator :=
  mkSchemaGenerator
    (mkSchemaConfig
       (if truthyOpt SITE_URL then getOr SITE_URL else "http://localhost:4321")
       "Technical SEO CWV Astro Lab"
       "Technical SEO Lab"
       (Some (if truthyOpt SITE_URL then getOr SITE_URL ++ "/images/logo.png"
              else "http://localhost:4321/images/logo.png"))
       (Some defaultSocialLinks)).

(** [new ContentTypeStructuredDataGenerator(config)] *)
Definition newStructuredDataGenerator (config : StructuredDataConfig)
  : ContentTypeStructuredDataGenerator :=
  mkStructuredDataGenerator createSchemaGenerator config.

(** [createContentTypeStructuredDataGenerator()] *)
Definition createContentTypeStructuredDataGenerator : ContentTypeStructuredDataGenerator :=
  newStructuredDataGenerator
    (mkStructuredDataConfig
       (if truthyOpt SITE_URL then getOr SITE_URL else "http://localhost:4321")
       "Technical SEO CWV Astro Lab"
       "Technical SEO Lab"
       (Some (if truthyOpt SITE_URL then getOr SITE_URL ++ "/images/logo.png"
              else "http://localhost:4321/images/logo.png"))
       (Some defaultSocialLinks)).

Variable this : ContentTypeStructuredDataGenerator.

(** [generateCourseSchema(guide, canonicalUrl)] *)
Definition generateCourseSchema (guide : Guide) (canonicalUrl : string)
  : list (string * json) :=
  ([("@context", JString "https://schema.org");
    ("@type", JString "Course");
    ("name", JString (guide_title guide));
    ("description", JString (guide_description guide));
    ("provider", JObject [
       ("@type", JString "Organization");
       ("name", JString (sd_organizationName (sd_config this)));
       ("url", JString (sd_siteUrl (sd_config this)))
     ]);
    ("educationalLevel", JString (difficultyText (difficulty guide)));
    ("timeRequired", JString ("PT" ++ numberToString (estimatedTime guide) ++ "M"));
    ("courseCode", JString (guide_slug guide));
    ("url", JString canonicalUrl)] ++
   match guide_featuredImage guide with
   | Some featuredImage =>
       [("image", JObject [
           ("@type", JString "ImageObject");
           ("url", JString (if startsWith "http" (file_url (file featuredImage))
                            then file_url (file featuredImage)
                            else sd_siteUrl (sd_config this) ++ file_url (file featuredImage)))
         ])]
   | None => []
   end)%list.

(** [generateWebPageSchema(canonicalUrl, title, description)] *)
Definition generateWebPageSchema (canonicalUrl : string) (title description : option string)
  : list (string * json) := [
  ("@context", JString "https://schema.org");
  ("@type", JString "WebPage");
  ("name", JString (if truthyOpt title then getOr title else sd_siteName (sd_config this)));
  ("description", JString (if truthyOpt description then getOr description
                           else "Content from " ++ sd_siteName (sd_config this)));
  ("url", JString canonicalUrl);
  ("publisher", JObject [
     ("@type", JString "Organization");
     ("name", JString (sd_organizationName (sd_config this)));
     ("url", JString (sd_siteUrl (sd_config this)))
   ])
].

(** [generateBlogPostStructuredData(post, canonicalUrl, includeOrganization)] *)
Definition generateBlogPostStructuredData (post : BlogPost) (canonicalUrl : string)
    (includeOrganization : bool) : list json :=
  let schemas := [] in
  let blogPostingSchema :=
    generateBlogPostingSchema (schemaGenerator this) post canonicalUrl in
  let schemas := (schemas ++ [JObject blogPostingSchema])%list in
  let breadcrumbs := [
    mkBreadcrumb "Home" "/";
    mkBreadcrumb "Blog" "/blog";
    mkBreadcrumb (post_title post) ("/blog/" ++ post_slug post)
  ] in
  let breadcrumbSchema :=
    generateBreadcrumbListSchema (schemaGenerator this) breadcrumbs in
  let schemas := (schemas ++ [JObject breadcrumbSchema])%list in
  let schemas :=
    if includeOrganization
    then (schemas ++ [JObject (generateOrganizationSchema (schemaGenerator this))])%list
    else schemas in
  schemas.

(** [generateGuideStructuredData(guide, canonicalUrl, includeOrganization)] *)
Definition generateGuideStructuredData (guide : Guide) (canonicalUrl : string)
    (includeOrganization : bool) : list json :=
  let schemas := [] in
  let howToSchema := generateHowToSchema (schemaGenerator this) guide in
  let schemas := (schemas ++ [JObject howToSchema])%list in
  let breadcrumbs := [
    mkBreadcrumb "Home" "/";
    mkBreadcrumb "Guides" "/guides";
    mkBreadcrumb (guide_title guide) ("/guides/" ++ guide_slug guide)
  ] in
  let breadcrumbSchema :=
    generateBreadcrumbListSchema (schemaGenerator this) breadcrumbs in
  let schemas := (schemas ++ [JObject breadcrumbSchema])%list in
  let schemas :=
    if includeOrganization
    then (schemas ++ [JObject (generateOrganizationSchema (schemaGenerator this))])%list
    else schemas in
  let schemas :=
    if JsString.truthy (difficultyText (difficulty guide))
       && truthyNumber (estimatedTime guide)
    then (schemas ++ [JObject (generateCourseSchema guide canonicalUrl)])%list
    else schemas in
  schemas.

(** [generateFaqStructuredData(faqEntries, canonicalUrl)] *)
Definition generateFaqStructuredData (faqEntries : list FaqEntry) (canonicalUrl : string)
  : list json :=
  let schemas := [] in
  let schemas := (schemas ++ [JObject (generateFAQPageSchema faqEntries)])%list in
  let breadcrumbs := [mkBreadcrumb "Home" "/"; mkBreadcrumb "FAQ" "/faq"] in
  let schemas :=
    (schemas ++ [JObject (generateBreadcrumbListSchema (schemaGenerator this) breadcrumbs)])%list in
  let schemas :=
    (schemas ++ [JObject (generateOrganizationSchema (schemaGenerator this))])%list in
  schemas.

(** [generateHomepageStructuredData()] *)
Definition generateHomepageStructuredData : list json :=
  let schemas := [] in
  let schemas :=
    (schemas ++ [JObject (generateOrganizationSchema (schemaGenerator this))])%list in
  let schemas :=
    (schemas ++ [JObject (generateWebSiteSchema (schemaGenerator this))])%list in
  schemas.

(** [generateFallbackStructuredData(contentType, canonicalUrl, title, description)] *)
Definition generateFallbackStructuredData (canonicalUrl : string)
    (title description : option string) : list json :=
  let schemas := [] in
  let schemas :=
    (schemas ++ [JObject (generateWebPageSchema canonicalUrl title description)])%list in
  let schemas :=
    (schemas ++ [JObject (generateOrganizationSchema (schemaGenerator this))])%list in
  schemas.

End StructuredData.

(** The [k]-th object of a list of schemas, and a member of it. *)
Definition schemaAt (k : nat) (schemas : list json) : list (string * json) :=
  match nth_error schemas k with
  | Some (JObject members) => members
  | _ => []
  end.

(** The type of each schema of a list. *)
Definition schemaTypes (schemas : list json) : list (option json) :=
  map (fun v => match v with
                | JObject members => getProp "@type" members
                | _ => None
                end) schemas.

(** The text of a JSON string that starts with [http]. *)
Definition httpText (v : option json) : bool :=
  match v with
  | Some (JString s) => startsWith "http" s
  | _ => false
  end.

(** More sample data. *)
Module Example2.

Definition siteHost (site : option string) : Host := {|
  shortestDecimal := fun _ _ => "1e+21";
  Date_parse := fun s =>
    if (s =? "2024-01-15T10:00:00Z")%string then Some 1705312800000
    else if (s =? "2024-02-01T00:00:00.000Z")%string then Some 1706745600000
    else None;
  URL_protocol := fun _ => None;
  SITE_URL := site
|}.

Definition someSys (updated : string) : ContentfulSys :=
  mkSys "id" "2024-01-01T00:00:00.000Z" updated.

Definition someCategory : Category :=
  mkCategory (someSys "2024-02-01T00:00:00.000Z") "SEO" "seo" "About SEO" None "#336699".

Definition somePost (slug updated : string) : BlogPost :=
  mkBlogPost (someSys updated) "Title" slug "Excerpt" "Content" None
    (mkAuthor (someSys updated) "Ada" "ada" None None None)
    someCategory ["seo"] "2024-01-15T10:00:00.000Z" None.

Definition someGuide (slug updated : string) : Guide :=
  mkGuide (someSys updated) "Guide" slug "A guide" "Content"
    beginner (ofZ 30) [mkGuideStep "One" "Do it" None] None someCategory [] "2024-01-15".

End Example2.
(* ================================================================= *)
(** * Properties *)

(** ** Strings *)

Module StringFacts.

#[local] Arguments Ascii.eqb : simpl never.

Lemma append_nil_r (s : string) : s ++ "" = s.
Proof. induction s as [|c s IH]; simpl; congruence. Qed.

Lemma append_assoc (a b c : string) : (a ++ b) ++ c = a ++ (b ++ c).
Proof. induction a as [|x a IH]; simpl; congruence. Qed.

Lemma length_append (a b : string) :
  String.length (a ++ b) = (String.length a + String.length b)%nat.
Proof. induction a as [|x a IH]; simpl; congruence. Qed.

Lemma startsWith_Prefix (p s : string) : startsWith p s = true <-> Prefix p s.
Proof.
  revert s; induction p as [|a p IH]; intros s.
  - split; [intros _; now exists s | reflexivity].
  - destruct s as [|b s]; cbn [startsWith].
    + split; [discriminate | intros [r Hr]; discriminate].
    + rewrite andb_true_iff, Ascii.eqb_eq, IH. split.
      * intros [-> [r ->]]. now exists r.
      * intros [r Hr]. injection Hr as -> ->. split; [reflexivity | now exists r].
Qed.

Lemma startsWith_app (p r : string) : startsWith p (p ++ r) = true.
Proof. apply startsWith_Prefix. now exists r. Qed.

Lemma includes_Contains (p s : string) : includes p s = true <-> Contains p s.
Proof.
  induction s as [|c s IH]; cbn [includes].
  - rewrite orb_false_r, startsWith_Prefix. split.
    + intros [r Hr]. exists "", r. exact Hr.
    + intros [l [r Hr]]. destruct l; simpl in Hr; [now exists r | discriminate].
  - rewrite orb_true_iff, startsWith_Prefix, IH. split.
    + intros [[r Hr] | [l [r Hr]]].
      * exists "", r. exact Hr.
      * exists (String c l), r. simpl. congruence.
    + intros [l [r Hr]]. destruct l as [|d l]; simpl in Hr.
      * left. now exists r.
      * right. exists l, r. congruence.
Qed.

Lemma stripPrefix_app (p r : string) : stripPrefix p (p ++ r) = Some r.
Proof.
  induction p as [|a p IH]; simpl; [reflexivity|].
  now rewrite Ascii.eqb_refl.
Qed.

Lemma stripPrefix_Some (p s r : string) : stripPrefix p s = Some r -> s = p ++ r.
Proof.
  revert s; induction p as [|a p IH]; intros s H.
  - simpl in H. injection H as ->. reflexivity.
  - destruct s as [|b s]; simpl in H; [discriminate|].
    destruct (Ascii.eqb_spec a b) as [->|]; [|discriminate].
    simpl. f_equal. now apply IH.
Qed.

Lemma stripPrefix_startsWith (p s : string) :
  startsWith p s = true <-> exists r, stripPrefix p s = Some r.
Proof.
  rewrite startsWith_Prefix. split.
  - intros [r ->]. exists r. apply stripPrefix_app.
  - intros [r H]. exists r. now apply stripPrefix_Some.
Qed.

Lemma stripPrefix_None (p s : string) :
  startsWith p s = false -> stripPrefix p s = None.
Proof.
  intros H. destruct (stripPrefix p s) as [r|] eqn:E; [|reflexivity].
  assert (startsWith p s = true) by (apply stripPrefix_startsWith; eauto).
  congruence.
Qed.

(** [//] in a string, one character at a time. *)
Lemma includes_dbl_cons (c : ascii) (s : string) :
  includes "//" (String c s) =
  (Ascii.eqb c "/"%char && startsWith "/" s) || includes "//" s.
Proof.
  cbn [includes startsWith]. destruct s as [|d s]; cbn [startsWith].
  - now rewrite !andb_false_r.
  - now rewrite !andb_true_r.
Qed.

Lemma startsWith_slash_app (a b : string) :
  startsWith "/" (a ++ b) =
  match a with EmptyString => startsWith "/" b | _ => startsWith "/" a end.
Proof.
  destruct a as [|c a]; reflexivity.
Qed.

Lemma endsWith_slash_cons (c : ascii) (s : string) :
  endsWith "/" (String c s) =
  match s with EmptyString => Ascii.eqb c "/"%char | _ => endsWith "/" s end.
Proof.
  destruct s as [|d s].
  - cbn [endsWith String.eqb]. now destruct (Ascii.eqb c "/"%char).
  - cbn [endsWith]. replace (String c (String d s) =? "/")%string with false; [reflexivity|].
    symmetry. apply String.eqb_neq. congruence.
Qed.

Lemma includes_dbl_app (a b : string) :
  includes "//" (a ++ b) =
  includes "//" a || includes "//" b || (endsWith "/" a && startsWith "/" b).
Proof.
  induction a as [|c a IH].
  - simpl. now rewrite orb_false_r.
  - change (String c a ++ b) with (String c (a ++ b)).
    rewrite !includes_dbl_cons, IH, startsWith_slash_app, endsWith_slash_cons.
    destruct a as [|d a].
    + change ("" ++ b) with b. change (includes "//" "") with false.
      change (endsWith "/" "") with false. change (startsWith "/" "") with false.
      destruct (Ascii.eqb c "/"%char), (startsWith "/" b), (includes "//" b); reflexivity.
    + destruct (Ascii.eqb c "/"%char), (startsWith "/" (String d a)),
        (includes "//" (String d a)), (includes "//" b),
        (endsWith "/" (String d a)), (startsWith "/" b); reflexivity.
Qed.

Lemma endsWith_slice0m1 (s : string) :
  endsWith "/" s = true -> s = slice0m1 s ++ "/".
Proof.
  induction s as [|c s IH]; [discriminate|].
  rewrite endsWith_slash_cons. destruct s as [|d s].
  - intros H. apply Ascii.eqb_eq in H. now subst.
  - intros H. specialize (IH H). cbn [slice0m1]. simpl. f_equal. exact IH.
Qed.

Lemma slice0m1_app (p : string) (c : ascii) (s : string) :
  slice0m1 (p ++ String c s) = p ++ slice0m1 (String c s).
Proof.
  induction p as [|a p IH]; [reflexivity|].
  change (String a p ++ String c s) with (String a (p ++ String c s)).
  cbn [slice0m1]. rewrite IH.
  destruct (p ++ String c s) eqn:E; [destruct p; discriminate|reflexivity].
Qed.

Lemma endsWith_slash_app (a : string) (c : ascii) (b : string) :
  endsWith "/" (a ++ String c b) = endsWith "/" (String c b).
Proof.
  induction a as [|x a IH]; [reflexivity|].
  change (String x a ++ String c b) with (String x (a ++ String c b)).
  rewrite endsWith_slash_cons, IH.
  destruct (a ++ String c b) eqn:E; [destruct a; discriminate|reflexivity].
Qed.

Lemma stripTrailingSlashes_Prefix (b : string) :
  Prefix (stripTrailingSlashes b) b.
Proof.
  induction b as [|c b [r Hr]]; [now exists ""|].
  simpl. destruct (stripTrailingSlashes b) as [|d t].
  - destruct (Ascii.eqb c "/"%char).
    + now exists (String c b).
    + exists b. reflexivity.
  - exists r. simpl in *. congruence.
Qed.

Lemma slice0m1_Prefix (b : string) : Prefix (slice0m1 b) b.
Proof.
  induction b as [|c b [r Hr]]; [now exists ""|].
  destruct b as [|d b].
  - now exists (String c "").
  - exists r. cbn [slice0m1]. simpl. f_equal. exact Hr.
Qed.

Lemma stripTrailingSlashes_slice0m1 (b : string) :
  endsWith "/" b = true ->
  stripTrailingSlashes (slice0m1 b) = stripTrailingSlashes b.
Proof.
  induction b as [|c b IH]; [reflexivity|].
  rewrite endsWith_slash_cons. destruct b as [|d b].
  - intros H. apply Ascii.eqb_eq in H. subst. reflexivity.
  - intros H. specialize (IH H).
    change (slice0m1 (String c (String d b))) with (String c (slice0m1 (String d b))).
    remember (slice0m1 (String d b)) as t. remember (String d b) as u.
    cbn [stripTrailingSlashes]. now rewrite IH.
Qed.

Lemma Prefix_trans (a b c : string) : Prefix a b -> Prefix b c -> Prefix a c.
Proof.
  intros [r ->] [t ->]. exists (r ++ t). apply append_assoc.
Qed.

End StringFacts.
Import StringFacts.

(** ** formatSitemapUrl *)

Module UrlFacts.

#[local] Arguments Ascii.eqb : simpl never.

Lemma formatSitemapUrl_relative_eq (u b : string) :
  isAbsolute u = false ->
  formatSitemapUrl u b = cleanBaseUrl b ++ "/" ++ cleanUrl u.
Proof.
  unfold isAbsolute, formatSitemapUrl. intros ->. reflexivity.
Qed.

Lemma formatSitemapUrl_absolute_eq (u b : string) :
  isAbsolute u = true -> formatSitemapUrl u b = u.
Proof.
  unfold isAbsolute, formatSitemapUrl. intros ->. reflexivity.
Qed.

Lemma cleanBaseUrl_scheme (p : string) (c : ascii) (rest : string) :
  cleanBaseUrl (p ++ String c rest) = p ++ cleanBaseUrl (String c rest).
Proof.
  unfold cleanBaseUrl. rewrite endsWith_slash_app.
  destruct (endsWith "/" (String c rest)); [apply slice0m1_app | reflexivity].
Qed.

(** The base keeps its scheme when its trailing slash goes. *)
Lemma absolute_base_result (p : string) (b x : string) :
  slice0m1 p ++ "/" = p ->
  startsWith p b = true ->
  startsWith p (cleanBaseUrl b ++ "/" ++ x) = true.
Proof.
  intros Hp Hb. apply startsWith_Prefix in Hb. destruct Hb as [rest ->].
  apply startsWith_Prefix. destruct rest as [|c rest].
  - rewrite append_nil_r. unfold cleanBaseUrl.
    destruct (endsWith "/" p).
    + exists x. rewrite <- append_assoc. now rewrite Hp.
    + exists ("/" ++ x). reflexivity.
  - rewrite cleanBaseUrl_scheme, append_assoc. now eexists.
Qed.

Lemma isAbsolute_result (b x : string) :
  isAbsolute b = true -> isAbsolute (cleanBaseUrl b ++ "/" ++ x) = true.
Proof.
  unfold isAbsolute. rewrite !orb_true_iff. intros [H | H].
  - left. now apply absolute_base_result.
  - right. now apply absolute_base_result.
Qed.

Lemma cleanUrl_clean (u : string) :
  includes "//" u = false ->
  includes "//" (cleanUrl u) = false /\ startsWith "/" (cleanUrl u) = false.
Proof.
  unfold cleanUrl. intros H. destruct (startsWith "/" u) eqn:E; [|auto].
  destruct u as [|c u]; [discriminate|]. cbn [slice1].
  rewrite includes_dbl_cons in H. apply orb_false_iff in H. destruct H as [H1 H2].
  cbn [startsWith] in E. rewrite andb_true_r in E. rewrite E in H1. auto.
Qed.

Lemma join_clean (x y : string) :
  includes "//" x = false -> endsWith "/" x = false ->
  includes "//" y = false -> startsWith "/" y = false ->
  includes "//" (x ++ "/" ++ y) = false.
Proof.
  intros Hx Ex Hy Sy. rewrite includes_dbl_app, Hx, Ex.
  change ("/" ++ y) with (String "/"%char y).
  rewrite includes_dbl_cons, Hy, Sy. reflexivity.
Qed.

Lemma cleanBaseUrl_clean (b : string) :
  includes "//" b = false ->
  includes "//" (cleanBaseUrl b) = false /\ endsWith "/" (cleanBaseUrl b) = false.
Proof.
  unfold cleanBaseUrl. intros H. destruct (endsWith "/" b) eqn:E; [|auto].
  rewrite (endsWith_slice0m1 b E), includes_dbl_app in H.
  apply orb_false_iff in H. destruct H as [H H3].
  apply orb_false_iff in H. destruct H as [H1 _].
  change (startsWith "/" "/") with true in H3. rewrite andb_true_r in H3. auto.
Qed.

Lemma includes_suffix (p l s : string) :
  includes p (l ++ s) = false -> includes p s = false.
Proof.
  intros H. destruct (includes p s) eqn:E; [|reflexivity].
  apply includes_Contains in E. destruct E as [a [c ->]].
  assert (includes p (l ++ a ++ p ++ c) = true) as H'; [|congruence].
  apply includes_Contains. exists (l ++ a), c. now rewrite append_assoc.
Qed.

Lemma afterScheme_suffix (s : string) : exists l, s = l ++ afterScheme s.
Proof.
  unfold afterScheme.
  destruct (stripPrefix "http://" s) as [r|] eqn:E1.
  - exists "http://". now apply stripPrefix_Some.
  - destruct (stripPrefix "https://" s) as [r|] eqn:E2.
    + exists "https://". now apply stripPrefix_Some.
    + now exists "".
Qed.

(** A base that has a scheme [p]. *)
Lemma scheme_base_clean (p rest y : string) :
  slice0m1 p ++ "/" = p ->
  (forall z, afterScheme (p ++ z) = z) ->
  includes "//" rest = false ->
  includes "//" y = false -> startsWith "/" y = false ->
  includes "//" (afterScheme (cleanBaseUrl (p ++ rest) ++ "/" ++ y)) = false.
Proof.
  intros Hp Hs Hrest Hy Sy. destruct rest as [|c rest].
  - rewrite append_nil_r. unfold cleanBaseUrl. destruct (endsWith "/" p).
    + rewrite <- append_assoc, Hp, Hs. exact Hy.
    + rewrite Hs. change ("/" ++ y) with (String "/"%char y).
      rewrite includes_dbl_cons, Hy, Sy. reflexivity.
  - rewrite cleanBaseUrl_scheme, append_assoc, Hs.
    destruct (cleanBaseUrl_clean _ Hrest). now apply join_clean.
Qed.

Lemma noDoubleSlash_result (u b : string) :
  includes "//" u = false ->
  noDoubleSlash b = true ->
  noDoubleSlash (cleanBaseUrl b ++ "/" ++ cleanUrl u) = true.
Proof.
  unfold noDoubleSlash. rewrite !negb_true_iff. intros Hu Hb.
  destruct (cleanUrl_clean u Hu) as [Hy Sy].
  unfold afterScheme in Hb.
  destruct (stripPrefix "http://" b) as [rest|] eqn:E1.
  - apply stripPrefix_Some in E1. subst b.
    apply scheme_base_clean; [reflexivity | intros z; reflexivity | assumption ..].
  - destruct (stripPrefix "https://" b) as [rest|] eqn:E2.
    + apply stripPrefix_Some in E2. subst b.
      apply scheme_base_clean; [reflexivity | intros z; reflexivity | assumption ..].
    + destruct (cleanBaseUrl_clean b Hb) as [H1 H2].
      destruct (afterScheme_suffix (cleanBaseUrl b ++ "/" ++ cleanUrl u)) as [l Hl].
      apply (includes_suffix _ l). rewrite <- Hl. now apply join_clean.
Qed.

Lemma existsb_excludePatterns (u : string) :
  existsb (fun pattern => includes pattern u) excludePatterns = true <->
  Contains "/preview/" u \/ Contains "/search" u \/ Contains "/api/" u \/
  Contains "/_" u \/ Contains "/admin" u.
Proof.
  unfold excludePatterns. cbn [existsb].
  rewrite !orb_true_iff, !includes_Contains. intuition discriminate.
Qed.

End UrlFacts.
Import UrlFacts.

(** C9. [shouldIncludeInSitemap] is false exactly for the URLs that contain
    one of [/preview/], [/search], [/api/], [/_], [/admin] as a substring,
    wherever it stands; so a URL containing [/blog/admin-tips] is excluded;
    and it is a total function to the booleans. *)
Theorem shouldIncludeInSitemap_substrings :
  (forall u : string,
     shouldIncludeInSitemap u = false <->
     Contains "/preview/" u \/ Contains "/search" u \/ Contains "/api/" u \/
     Contains "/_" u \/ Contains "/admin" u) /\
  (forall l r : string, shouldIncludeInSitemap (l ++ "/blog/admin-tips" ++ r) = false) /\
  (forall u : string, shouldIncludeInSitemap u = true \/ shouldIncludeInSitemap u = false).
Proof.
  assert (forall u : string,
     shouldIncludeInSitemap u = false <->
     Contains "/preview/" u \/ Contains "/search" u \/ Contains "/api/" u \/
     Contains "/_" u \/ Contains "/admin" u) as H.
  { intros u. unfold shouldIncludeInSitemap.
    rewrite negb_false_iff. apply existsb_excludePatterns. }
  split; [exact H|]. split.
  - intros l r. apply H. do 4 right.
    exists (l ++ "/blog"), ("-tips" ++ r). now rewrite append_assoc.
  - intros u. destruct (shouldIncludeInSitemap u); auto.
Qed.

(** C4, as the code has it. [formatSitemapUrl] returns an absolute URL as it
    is, whatever the base; and it is idempotent for every URL when the base
    itself starts with [http://] or [https://]. *)
Theorem formatSitemapUrl_idempotent (u b : string) :
  (isAbsolute u = true -> forall b' : string, formatSitemapUrl u b' = u) /\
  (isAbsolute b = true ->
   formatSitemapUrl (formatSitemapUrl u b) b = formatSitemapUrl u b).
Proof.
  split.
  - intros H b'. now apply formatSitemapUrl_absolute_eq.
  - intros Hb. destruct (isAbsolute u) eqn:Hu.
    + now rewrite !(formatSitemapUrl_absolute_eq u b Hu).
    + rewrite (formatSitemapUrl_relative_eq u b Hu).
      apply formatSitemapUrl_absolute_eq. now apply isAbsolute_result.
Qed.

(** C5, as the code has it. For a relative [u], [formatSitemapUrl u b] is
    [b] without one trailing slash, a slash, and [u] without one leading
    slash; it starts with [b] stripped of its trailing slashes; and it has no
    [//] other than the one after the scheme when [u] has none and [b] has no
    other. *)
Theorem formatSitemapUrl_relative (u b : string) :
  isAbsolute u = false ->
  formatSitemapUrl u b =
    (if endsWith "/" b then slice0m1 b else b) ++ "/" ++
    (if startsWith "/" u then slice1 u else u) /\
  Prefix (if endsWith "/" b then slice0m1 b else b) (formatSitemapUrl u b) /\
  Prefix (stripTrailingSlashes b) (formatSitemapUrl u b) /\
  (includes "//" u = false -> noDoubleSlash b = true ->
   noDoubleSlash (formatSitemapUrl u b) = true).
Proof.
  intros Hu. rewrite (formatSitemapUrl_relative_eq u b Hu).
  fold (cleanBaseUrl b). fold (cleanUrl u).
  assert (Prefix (cleanBaseUrl b) (cleanBaseUrl b ++ "/" ++ cleanUrl u)) as HP
    by (now exists ("/" ++ cleanUrl u)).
  split; [reflexivity|]. split; [exact HP|]. split.
  - apply Prefix_trans with (cleanBaseUrl b); [|exact HP].
    unfold cleanBaseUrl. destruct (endsWith "/" b) eqn:E.
    + rewrite <- (stripTrailingSlashes_slice0m1 b E).
      apply stripTrailingSlashes_Prefix.
    + apply stripTrailingSlashes_Prefix.
  - apply noDoubleSlash_result.
Qed.

(** ** escapeXml and its inverse *)

Module EscapeFacts.

Import Xml Layout.
#[local] Arguments Ascii.eqb : simpl never.

Lemma replaceAll_app (c : ascii) (rep a b : string) :
  replaceAll c rep (a ++ b) = replaceAll c rep a ++ replaceAll c rep b.
Proof.
  induction a as [|d a IH]; [reflexivity|].
  cbn [append replaceAll]. rewrite IH.
  destruct (Ascii.eqb d c); [now rewrite append_assoc | reflexivity].
Qed.

Lemma escapeXml_cons (c : ascii) (s : string) :
  escapeXml (String c s) = escapeChar c ++ escapeXml s.
Proof.
  unfold escapeXml, escapeChar.
  cbn [replaceAll]. destruct (Ascii.eqb c "&"%char) eqn:E1.
  { now rewrite !replaceAll_app. }
  cbn [replaceAll]. destruct (Ascii.eqb c "<"%char) eqn:E2.
  { now rewrite !replaceAll_app. }
  cbn [replaceAll]. destruct (Ascii.eqb c ">"%char) eqn:E3.
  { now rewrite !replaceAll_app. }
  cbn [replaceAll]. destruct (Ascii.eqb c "034"%char) eqn:E4.
  { now rewrite !replaceAll_app. }
  cbn [replaceAll]. destruct (Ascii.eqb c "'"%char) eqn:E5; reflexivity.
Qed.

Lemma escapeXml_nil : escapeXml "" = "".
Proof. reflexivity. Qed.

Lemma includes_char_cons (a c : ascii) (s : string) :
  includes (String a "") (String c s) = Ascii.eqb c a || includes (String a "") s.
Proof. cbn [includes startsWith]. now rewrite andb_true_r. Qed.

Lemma includes_char_nil (a : ascii) : includes (String a "") "" = false.
Proof. reflexivity. Qed.

Lemma includes_char_app (a : ascii) (s t : string) :
  includes (String a "") (s ++ t) = includes (String a "") s || includes (String a "") t.
Proof.
  induction s as [|c s IH]; [reflexivity|].
  cbn [append]. rewrite !includes_char_cons, IH. apply orb_assoc.
Qed.

Lemma escapeChar_free (a c : ascii) :
  special a = true -> includes (String a "") (escapeChar c) = false.
Proof.
  unfold special. rewrite !orb_true_iff, !Ascii.eqb_eq.
  unfold escapeChar. intros Ha.
  destruct (Ascii.eqb_spec c "&"%char); [intuition (subst; reflexivity)|].
  destruct (Ascii.eqb_spec c "<"%char); [intuition (subst; reflexivity)|].
  destruct (Ascii.eqb_spec c ">"%char); [intuition (subst; reflexivity)|].
  destruct (Ascii.eqb_spec c "034"%char); [intuition (subst; reflexivity)|].
  destruct (Ascii.eqb_spec c "'"%char); [intuition (subst; reflexivity)|].
  rewrite includes_char_cons, includes_char_nil, orb_false_r.
  apply Ascii.eqb_neq. intuition congruence.
Qed.

Lemma escapeXml_free (a : ascii) (s : string) :
  special a = true -> includes (String a "") (escapeXml s) = false.
Proof.
  intros Ha. induction s as [|c s IH]; [reflexivity|].
  now rewrite escapeXml_cons, includes_char_app, escapeChar_free, IH.
Qed.

Lemma unescape_escapeChar (c : ascii) (r : string) :
  unescapeFrom Plain (escapeChar c ++ r) = option_map (String c) (unescapeFrom Plain r).
Proof.
  unfold escapeChar.
  destruct (Ascii.eqb_spec c "&"%char) as [->|N1]; [reflexivity|].
  destruct (Ascii.eqb_spec c "<"%char) as [->|N2]; [reflexivity|].
  destruct (Ascii.eqb_spec c ">"%char) as [->|N3]; [reflexivity|].
  destruct (Ascii.eqb_spec c "034"%char) as [->|N4]; [reflexivity|].
  destruct (Ascii.eqb_spec c "'"%char) as [->|N5]; [reflexivity|].
  cbn [append unescapeFrom].
  apply Ascii.eqb_neq in N1. now rewrite N1.
Qed.

Lemma unescape_escapeXml (s : string) : unescape (escapeXml s) = Some s.
Proof.
  unfold unescape. induction s as [|c s IH]; [reflexivity|].
  now rewrite escapeXml_cons, unescape_escapeChar, IH.
Qed.

Lemma unescape_plain (s : string) :
  includes "&" s = false -> unescape s = Some s.
Proof.
  unfold unescape. induction s as [|c s IH]; [reflexivity|].
  rewrite includes_char_cons. intros H. apply orb_false_iff in H.
  destruct H as [H1 H2]. cbn [unescapeFrom]. now rewrite H1, IH.
Qed.


Lemma allChars_app (P : ascii -> bool) (s t : string) :
  allChars P (s ++ t) = allChars P s && allChars P t.
Proof.
  induction s as [|c s IH]; [reflexivity|].
  cbn [append allChars]. now rewrite IH, andb_assoc.
Qed.


End EscapeFacts.
Import EscapeFacts.

(** ** Reading back what is written *)

Module ReaderFacts.

Import Xml Layout.
#[local] Arguments Ascii.eqb : simpl never.

Lemma lex_text (t r acc : string) :
  includes "<" t = false ->
  lex (InText acc) (t ++ r) = lex (InText (acc ++ t)) r.
Proof.
  revert acc. induction t as [|c t IH]; intros acc H.
  - now rewrite append_nil_r.
  - rewrite includes_char_cons in H. apply orb_false_iff in H. destruct H as [Hc Ht].
    cbn [append lex]. rewrite Hc, (IH _ Ht). unfold snoc.
    now rewrite append_assoc.
Qed.

Lemma lex_tag (g r acc : string) :
  includes "<" g = false -> includes ">" g = false ->
  lex (InTag acc) (g ++ ">" ++ r) =
  option_map (cons (tagToken (acc ++ g))) (lex (InText "") r).
Proof.
  revert acc. induction g as [|c g IH]; intros acc H1 H2.
  - now rewrite append_nil_r.
  - rewrite includes_char_cons in H1, H2.
    apply orb_false_iff in H1. destruct H1 as [Hc1 Hg1].
    apply orb_false_iff in H2. destruct H2 as [Hc2 Hg2].
    cbn [append lex]. rewrite Hc1, Hc2, (IH _ Hg1 Hg2). unfold snoc.
    now rewrite append_assoc.
Qed.

Lemma plainName_spec (name : string) :
  plainName name = true ->
  tagToken name = TOpen name "" /\
  includes "<" name = false /\ includes ">" name = false.
Proof.
  unfold plainName. rewrite !andb_true_iff, !negb_true_iff.
  intros [[H1 H2] H3]. split; [|auto].
  destruct (tagToken name) as [| n a | |]; try discriminate.
  apply andb_true_iff in H1. destruct H1 as [Hn Ha].
  apply String.eqb_eq in Hn, Ha. now subst.
Qed.

Lemma lex_markup (acc g r : string) :
  includes "<" g = false -> includes ">" g = false ->
  lex (InText acc) ("<" ++ g ++ ">" ++ r) =
  option_map (fun ts => TText acc :: tagToken g :: ts) (lex (InText "") r).
Proof.
  intros H1 H2.
  change ("<" ++ g ++ ">" ++ r) with (String "<" (g ++ ">" ++ r)).
  cbn [lex]. change (Ascii.eqb "<" "<") with true. cbn iota.
  rewrite (lex_tag _ _ _ H1 H2). change ("" ++ g) with g.
  now destruct (lex (InText "") r).
Qed.

Lemma lex_open (acc name r : string) :
  plainName name = true ->
  lex (InText acc) ("<" ++ name ++ ">" ++ r) =
  option_map (fun ts => TText acc :: TOpen name "" :: ts) (lex (InText "") r).
Proof.
  intros H. apply plainName_spec in H. destruct H as [Ht [H1 H2]].
  change ("<" ++ name ++ ">" ++ r) with (String "<" (name ++ ">" ++ r)).
  cbn [lex]. change (Ascii.eqb "<" "<") with true. cbn iota.
  rewrite (lex_tag _ _ _ H1 H2). change ("" ++ name) with name. rewrite Ht.
  now destruct (lex (InText "") r).
Qed.

Lemma lex_close (acc name r : string) :
  plainName name = true ->
  lex (InText acc) ("</" ++ name ++ ">" ++ r) =
  option_map (fun ts => TText acc :: TClose name :: ts) (lex (InText "") r).
Proof.
  intros H. apply plainName_spec in H. destruct H as [Ht [H1 H2]].
  change ("</" ++ name ++ ">" ++ r) with (String "<" (String "/" (name ++ ">" ++ r))).
  cbn [lex]. change (Ascii.eqb "<" "<") with true.
  change (Ascii.eqb "/" ">") with false. change (Ascii.eqb "/" "<") with false.
  cbn iota. rewrite (lex_tag _ _ _ H1 H2).
  now destruct (lex (InText "") r).
Qed.

Lemma lex_fieldLine (f : string * string) (r : string) :
  writable f ->
  lex (InText LF) (fieldLine f ++ r) =
  option_map (app (fieldTokens f)) (lex (InText LF) r).
Proof.
  intros [Hn Hv]. unfold fieldLine. rewrite !append_assoc.
  change ("    <" ++ fst f ++ ">" ++ snd f ++ "</" ++ fst f ++ ">" ++ LF ++ r)
    with ("    " ++ "<" ++ fst f ++ ">" ++ snd f ++ "</" ++ fst f ++ ">" ++ LF ++ r).
  rewrite (lex_text "    ") by reflexivity.
  rewrite (lex_open _ _ _ Hn), (lex_text (snd f)) by exact Hv.
  rewrite (lex_close _ _ _ Hn), (lex_text LF) by reflexivity.
  cbn [append]. now destruct (lex (InText LF) r).
Qed.

Lemma lex_fieldLines (fs : list (string * string)) (r : string) :
  Forall writable fs ->
  lex (InText LF) (fieldLines fs ++ r) =
  option_map (app (flat_map fieldTokens fs)) (lex (InText LF) r).
Proof.
  induction 1 as [|f fs Hf _ IH].
  - change (fieldLines [] ++ r) with r. now destruct (lex (InText LF) r).
  - cbn [fieldLines flat_map]. rewrite append_assoc, (lex_fieldLine _ _ Hf), IH.
    destruct (lex (InText LF) r); [|reflexivity].
    cbn [option_map]. now rewrite app_assoc.
Qed.

Lemma lex_recordText (acc name : string) (fs : list (string * string)) (r : string) :
  plainName name = true -> Forall writable fs ->
  lex (InText acc) (recordText name fs ++ r) =
  option_map (app (recordTokens acc name fs)) (lex (InText LF) r).
Proof.
  intros Hn Hfs. unfold recordText. rewrite !append_assoc.
  change ("  <" ++ name ++ ">" ++ LF ++ fieldLines fs ++ "  </" ++ name ++ ">" ++ LF ++ r)
    with ("  " ++ "<" ++ name ++ ">" ++ LF ++ fieldLines fs ++ "  " ++ "</" ++ name ++ ">" ++ LF ++ r).
  rewrite (lex_text "  ") by reflexivity.
  rewrite (lex_open _ _ _ Hn), (lex_text LF) by reflexivity.
  rewrite (lex_fieldLines _ _ Hfs), (lex_text "  ") by reflexivity.
  rewrite (lex_close _ _ _ Hn), (lex_text LF) by reflexivity.
  unfold recordTokens. cbn [append]. destruct (lex (InText LF) r); [|reflexivity].
  cbn [option_map app]. now rewrite <- app_assoc.
Qed.

Lemma lex_recordTexts (name : string) (rs : list (list (string * string))) (r : string) :
  plainName name = true -> Forall (Forall writable) rs ->
  lex (InText LF) (recordTexts name rs ++ r) =
  option_map (app (recordsTokens name rs)) (lex (InText LF) r).
Proof.
  intros Hn. induction 1 as [|fs rs Hfs _ IH].
  - change (recordTexts name [] ++ r) with r. now destruct (lex (InText LF) r).
  - cbn [recordTexts recordsTokens].
    rewrite append_assoc, (lex_recordText _ _ _ _ Hn Hfs), IH.
    destruct (lex (InText LF) r); [|reflexivity].
    cbn [option_map]. now rewrite app_assoc.
Qed.

Lemma build_fieldTokens (f : string * string) ts cur stack :
  build (fieldTokens f ++ ts) cur stack = build ts (cur ++ fieldNodes f) stack.
Proof.
  unfold fieldTokens, fieldNodes. cbn [app build].
  now rewrite String.eqb_refl, <- app_assoc.
Qed.

Lemma build_fields (fs : list (string * string)) ts cur stack :
  build (flat_map fieldTokens fs ++ ts) cur stack =
  build ts (cur ++ flat_map fieldNodes fs) stack.
Proof.
  revert cur. induction fs as [|f fs IH]; intros cur.
  - cbn [flat_map app]. now rewrite app_nil_r.
  - cbn [flat_map]. now rewrite <- !app_assoc, build_fieldTokens, IH, <- app_assoc.
Qed.

Lemma build_record (acc name : string) (fs : list (string * string)) ts cur stack :
  build (recordTokens acc name fs ++ ts) cur stack =
  build ts (cur ++ recordNodes acc name fs) stack.
Proof.
  unfold recordTokens, recordNodes. cbn [app build].
  rewrite <- app_assoc, build_fields. cbn [app build].
  now rewrite String.eqb_refl, <- app_assoc.
Qed.

Lemma build_records (name : string) (rs : list (list (string * string))) ts cur stack :
  build (recordsTokens name rs ++ ts) cur stack =
  build ts (cur ++ recordsNodes name rs) stack.
Proof.
  revert cur. induction rs as [|fs rs IH]; intros cur.
  - cbn [recordsTokens recordsNodes app]. now rewrite app_nil_r.
  - cbn [recordsTokens recordsNodes].
    now rewrite <- !app_assoc, build_record, IH, <- app_assoc.
Qed.

Lemma fields_fieldNodes (fs : list (string * string)) :
  fields (flat_map fieldNodes fs ++ [CharData (LF ++ "  ")]) = readFields fs.
Proof.
  induction fs as [|[n raw] fs IH]; [reflexivity|].
  cbn [flat_map fieldNodes app fields readFields textContent option_map fst snd].
  change (allWhitespace (LF ++ "    ")) with true. cbn iota.
  now rewrite append_nil_r, IH.
Qed.

Lemma records_recordsNodes (name : string) rs rs' :
  Forall2 (fun fs fs' => readFields fs = Some fs') rs rs' ->
  records name (recordsNodes name rs ++ [CharData LF]) = Some rs'.
Proof.
  induction 1 as [|fs fs' rs rs' Hfs _ IH]; [reflexivity|].
  cbn [recordsNodes recordNodes app records].
  change (allWhitespace (LF ++ "  ")) with true. cbn iota.
  now rewrite String.eqb_refl, fields_fieldNodes, Hfs, IH.
Qed.

(** A written record read alone. *)
Lemma parse_recordText (name : string) (fs : list (string * string)) :
  plainName name = true -> Forall writable fs ->
  parse (recordText name fs) = Some (recordNodes "" name fs ++ [CharData LF])%list.
Proof.
  intros Hn Hfs. unfold parse.
  rewrite <- (append_nil_r (recordText name fs)), (lex_recordText _ _ _ _ Hn Hfs).
  cbn [lex option_map]. now rewrite build_record.
Qed.

End ReaderFacts.
Import ReaderFacts.

(** ** Numbers as text *)

Module NumberFacts.

#[local] Arguments Ascii.eqb : simpl never.

Lemma digitChar_isDigit (d : Z) : 0 <= d < 10 -> isDigit (digitChar d) = true.
Proof.
  intros H.
  assert (d = 0 \/ d = 1 \/ d = 2 \/ d = 3 \/ d = 4 \/
          d = 5 \/ d = 6 \/ d = 7 \/ d = 8 \/ d = 9) as Hd by lia.
  repeat (destruct Hd as [-> | Hd]; [reflexivity|]). subst. reflexivity.
Qed.

Lemma digitChar_mod (n : Z) : isDigit (digitChar (n mod 10)) = true.
Proof. apply digitChar_isDigit. apply Z.mod_pos_bound. lia. Qed.

Lemma digitsAux_chars (fuel : positive) (n : Z) (acc : string) :
  allChars isDigit acc = true -> allChars isDigit (digitsAux fuel n acc) = true.
Proof.
  revert n acc. induction fuel as [f IH | f IH |]; intros n acc Hacc; cbn [digitsAux].
  - destruct (n <? 10); [|apply IH]; cbn [allChars]; now rewrite digitChar_mod.
  - destruct (n <? 10); [|apply IH]; cbn [allChars]; now rewrite digitChar_mod.
  - cbn [allChars]. now rewrite digitChar_mod.
Qed.

Lemma toDecimal_chars (n : Z) : allChars isDigit (toDecimal n) = true.
Proof.
  destruct n; [reflexivity | | reflexivity]. now apply digitsAux_chars.
Qed.



(** The fuel suffices: a number below [10^k] has at most [k] digits. *)
Lemma digitsAux_length (fuel : positive) (n : Z) (k : nat) (acc : string) :
  0 <= n <= Zpos fuel -> n < 10 ^ Z.of_nat (S k) ->
  (String.length (digitsAux fuel n acc) <= S k + String.length acc)%nat.
Proof.
  revert n k acc.
  assert (forall f : positive,
    (forall n k acc, 0 <= n <= Zpos f -> n < 10 ^ Z.of_nat (S k) ->
       (String.length (digitsAux f n acc) <= S k + String.length acc)%nat) ->
    forall n k acc d, 0 <= n <= 2 * Zpos f + 1 -> n < 10 ^ Z.of_nat (S k) ->
      (String.length
         (if (n <? 10)%Z then String d acc else digitsAux f (n / 10)%Z (String d acc))
       <= S k + String.length acc)%nat) as Hstep.
  { intros f IH n k acc d Hn Hk. destruct (Z.ltb_spec n 10) as [Hlt | Hge].
    - cbn. lia.
    - destruct k as [|k].
      + change (10 ^ Z.of_nat 1) with 10 in Hk. lia.
      + rewrite Nat2Z.inj_succ, Z.pow_succ_r in Hk by lia.
        assert (n / 10 < 10 ^ Z.of_nat (S k))
          by (apply Z.div_lt_upper_bound; lia).
        assert (0 <= n / 10 <= Zpos f).
        { split; [apply Z.div_pos; lia|].
          apply Z.lt_succ_r. apply Z.div_lt_upper_bound; lia. }
        specialize (IH (n / 10) k (String d acc)). cbn [String.length] in IH. lia. }
  induction fuel as [f IH | f IH |]; intros n k acc Hn Hk; cbn [digitsAux].
  - apply Hstep; [exact IH | lia | exact Hk].
  - apply Hstep; [exact IH | lia | exact Hk].
  - cbn. lia.
Qed.

Lemma toDecimal_length (n : Z) (k : nat) :
  0 <= n < 10 ^ Z.of_nat (S k) -> (String.length (toDecimal n) <= S k)%nat.
Proof.
  intros [H0 Hk]. destruct n as [|p|p]; [cbn; lia | | lia].
  unfold toDecimal. pose proof (digitsAux_length p (Zpos p) k "" ltac:(lia) Hk).
  cbn [String.length] in *. lia.
Qed.

Lemma repeat0_chars (k : nat) : allChars isDigit (repeat0 k) = true.
Proof. induction k as [|k IH]; [reflexivity|]. cbn [repeat0 allChars]. now rewrite IH. Qed.

Lemma repeat0_length (k : nat) : String.length (repeat0 k) = k.
Proof. induction k as [|k IH]; [reflexivity|]. cbn. now rewrite IH. Qed.

(** A zero-padded field: exactly [w] digits. *)
Lemma padStart0_field (w : nat) (n : Z) :
  0 <= n < 10 ^ Z.of_nat (S w) ->
  String.length (padStart0 (S w) (toDecimal n)) = S w /\
  allChars isDigit (padStart0 (S w) (toDecimal n)) = true.
Proof.
  intros H. pose proof (toDecimal_length n w H) as Hl. unfold padStart0. split.
  - rewrite length_append, repeat0_length. lia.
  - now rewrite allChars_app, repeat0_chars, toDecimal_chars.
Qed.







End NumberFacts.
Import NumberFacts.

(** ** The conforming reader on text without CR and control characters *)

Module ConformingFacts.

Import Xml Layout.

















End ConformingFacts.
Import ConformingFacts.

(** ** generateSitemapEntry and generateSitemapXml *)

Section SitemapFacts.

Import Xml Layout.
Context {host : Host}.

Lemma toFixed_one (p : number) : toFixed p 1 = Ok (priorityText p).
Proof.
  unfold priorityText, toFixed.
  change ((1 <? 0) || (100 <? 1)) with false. cbn iota.
  destruct p as [s | s | | s m e]; try reflexivity.
  destruct (magnitude m e) as [num den]. now destruct (10 ^ 21 * den <=? num).
Qed.

Lemma priorityText_zero (s : bool) : priorityText (S754_zero s) = "0.0".
Proof. reflexivity. Qed.




Lemma optionalField_written (name : string) (o : option string) :
  plainName name = true ->
  Forall writable (map (fun f => (fst f, escapeXml (snd f))) (optionalField name o)).
Proof.
  intros Hn. unfold optionalField. destruct (truthyOpt o); constructor; [|constructor].
  split; [exact Hn | now apply escapeXml_free].
Qed.

Lemma plainText_spec (t : string) :
  plainText t = true -> includes "<" t = false /\ includes "&" t = false.
Proof.
  unfold plainText. now rewrite andb_true_iff, !negb_true_iff.
Qed.

Lemma entryWritten_writable_if (e : SitemapEntry) :
  (forall p, priority e = Some p -> plainText (priorityText p) = true) ->
  Forall writable (entryWritten e).
Proof.
  intros Hp. unfold entryWritten. constructor.
  - split; [reflexivity | now apply escapeXml_free].
  - rewrite map_app, <- app_assoc.
    apply Forall_app; split; [now apply optionalField_written|].
    apply Forall_app; split; [now apply optionalField_written|].
    destruct (priority e) as [p|]; constructor; [|constructor].
    split; [reflexivity | now apply plainText_spec, Hp].
Qed.

Lemma readFields_app fs fs' gs gs' :
  readFields fs = Some fs' -> readFields gs = Some gs' ->
  readFields (fs ++ gs) = Some (fs' ++ gs')%list.
Proof.
  revert fs'. induction fs as [|[n raw] fs IH]; intros fs' Hf Hg.
  - injection Hf as <-. exact Hg.
  - cbn [app readFields] in *. destruct (unescape raw); [|discriminate].
    destruct (readFields fs) as [r|]; [|discriminate].
    injection Hf as <-. now rewrite (IH r eq_refl Hg).
Qed.

Lemma readFields_escaped fs :
  readFields (map (fun f => (fst f, escapeXml (snd f))) fs) = Some fs.
Proof.
  induction fs as [|[n v] fs IH]; [reflexivity|].
  cbn [map readFields fst snd]. now rewrite unescape_escapeXml, IH.
Qed.

Lemma readFields_entry_if (e : SitemapEntry) :
  (forall p, priority e = Some p -> plainText (priorityText p) = true) ->
  readFields (entryWritten e) = Some (entryFields e).
Proof.
  intros Hp. unfold entryWritten, entryFields.
  change (("loc", escapeXml (url e)) :: ?x)%list
    with ([("loc", escapeXml (url e))] ++ x)%list.
  change (("loc", url e) :: ?x)%list with ([("loc", url e)] ++ x)%list.
  apply readFields_app.
  - cbn [readFields]. now rewrite unescape_escapeXml.
  - rewrite map_app. rewrite <- app_assoc. apply readFields_app; [apply readFields_escaped|].
    apply readFields_app; [apply readFields_escaped|].
    destruct (priority e) as [p|]; [|reflexivity].
    cbn [readFields]. rewrite unescape_plain; [reflexivity|].
    now apply plainText_spec, Hp.
Qed.

Lemma readElement_recordText (name : string) fs fs' :
  plainName name = true -> Forall writable fs -> readFields fs = Some fs' ->
  readElement name (recordText name fs) = Some fs'.
Proof.
  intros Hn Hw Hr. unfold readElement.
  rewrite (parse_recordText _ _ Hn Hw). unfold recordNodes.
  cbn [app rootElement allWhitespace blank]. cbn.
  now rewrite String.eqb_refl, fields_fieldNodes.
Qed.

Lemma generateSitemapEntry_eq (e : SitemapEntry) :
  generateSitemapEntry e = Ok (recordText "url" (entryWritten e)).
Proof.
  unfold generateSitemapEntry, entryWritten, optionalField, recordText.
  destruct e as [u l c p]. cbn [url lastmod changefreq priority].
  destruct (truthyOpt l), (truthyOpt c), p as [p|];
    cbn [bind]; rewrite ?toFixed_one; cbn [bind]; f_equal;
    cbn [app map fieldLines fst snd]; unfold fieldLine; cbn [fst snd];
    unfold LF; rewrite !append_assoc; cbn [append]; reflexivity.
Qed.

Lemma fieldLines_app fs gs : fieldLines (fs ++ gs) = fieldLines fs ++ fieldLines gs.
Proof.
  induction fs as [|f fs IH]; [reflexivity|].
  cbn [app fieldLines]. now rewrite IH, append_assoc.
Qed.

Lemma field_optional (k name : string) (o : option string) rest :
  Xml.field k (optionalField name o ++ rest) =
  if (name =? k)%string && truthyOpt o then o else Xml.field k rest.
Proof.
  unfold optionalField. destruct o as [v|]; cbn [truthyOpt].
  - destruct (JsString.truthy v); cbn [app Xml.field getOr].
    + now destruct (name =? k)%string.
    + now rewrite andb_false_r.
  - now rewrite andb_false_r.
Qed.

Lemma field_entryFields (e : SitemapEntry) :
  Xml.field "loc" (entryFields e) = Some (url e) /\
  Xml.field "lastmod" (entryFields e) = (if truthyOpt (lastmod e) then lastmod e else None) /\
  Xml.field "changefreq" (entryFields e) =
    (if truthyOpt (changefreq e) then changefreq e else None) /\
  Xml.field "priority" (entryFields e) = option_map priorityText (priority e).
Proof.
  unfold entryFields. cbn [Xml.field]. rewrite !field_optional.
  change ("loc" =? "loc")%string with true.
  change ("loc" =? "lastmod")%string with false.
  change ("loc" =? "changefreq")%string with false.
  change ("loc" =? "priority")%string with false.
  change ("lastmod" =? "lastmod")%string with true.
  change ("lastmod" =? "changefreq")%string with false.
  change ("lastmod" =? "priority")%string with false.
  change ("changefreq" =? "lastmod")%string with false.
  change ("changefreq" =? "changefreq")%string with true.
  change ("changefreq" =? "priority")%string with false.
  cbn [andb]. cbn iota.
  repeat split.
  - destruct (truthyOpt (lastmod e)); [reflexivity | now destruct (priority e)].
  - destruct (truthyOpt (changefreq e)); [reflexivity | now destruct (priority e)].
  - now destruct (priority e).
Qed.





Context {laws : HostLaws host}.






Lemma appendEach_entries (entries : list SitemapEntry) (xml : string) :
  appendEach generateSitemapEntry xml entries =
  Ok (xml ++ recordTexts "url" (map entryWritten entries)).
Proof.
  revert xml. induction entries as [|e entries IH]; intros xml.
  - cbn. now rewrite append_nil_r.
  - cbn [appendEach map recordTexts]. rewrite generateSitemapEntry_eq. cbn [bind].
    now rewrite IH, append_assoc.
Qed.

Lemma generateSitemapXml_eq (entries : list SitemapEntry) :
  generateSitemapXml entries =
  Ok (xmlDeclaration ++ "<urlset xmlns=" ++ sitemapNamespace ++ ">" ++ LF ++
      recordTexts "url" (map entryWritten entries) ++ "</urlset>" ++ LF).
Proof.
  unfold generateSitemapXml. rewrite appendEach_entries. cbn [bind].
  now rewrite !append_assoc.
Qed.

Lemma parse_urlset (rs : list (list (string * string))) :
  Forall (Forall writable) rs ->
  parse (xmlDeclaration ++ "<urlset xmlns=" ++ sitemapNamespace ++ ">" ++ LF ++
         recordTexts "url" rs ++ "</urlset>" ++ LF) =
  Some [CharData ""; CharData LF;
        Element "urlset" ("xmlns=" ++ sitemapNamespace)
          (recordsNodes "url" rs ++ [CharData LF]);
        CharData LF].
Proof.
  intros Hw. unfold parse.
  set (decl := "?xml version=" ++ DQ ++ "1.0" ++ DQ ++ " encoding=" ++ DQ ++ "UTF-8" ++ DQ ++ "?").
  set (body := "urlset xmlns=" ++ sitemapNamespace).
  set (X := recordTexts "url" rs ++ "</urlset>" ++ LF).
  change (xmlDeclaration ++ "<urlset xmlns=" ++ sitemapNamespace ++ ">" ++ LF ++ X)
    with ("<" ++ decl ++ ">" ++ LF ++ "<" ++ body ++ ">" ++ LF ++ X).
  rewrite (lex_markup "" decl), (lex_text LF) by reflexivity.
  rewrite (lex_markup _ body), (lex_text LF) by reflexivity.
  subst X. rewrite (lex_recordTexts "url" rs _ eq_refl Hw).
  change (lex (InText LF) ("</urlset>" ++ LF))
    with (Some [TText LF; TClose "urlset"; TText LF]).
  change (tagToken decl) with (TDecl (String.substring 1 100 decl)).
  change (tagToken body) with (TOpen "urlset" ("xmlns=" ++ sitemapNamespace)).
  cbn [option_map app build]. rewrite build_records.
  reflexivity.
Qed.

Lemma readSitemap_records (rs rs' : list (list (string * string))) :
  Forall (Forall writable) rs ->
  Forall2 (fun fs fs' => readFields fs = Some fs') rs rs' ->
  readSitemap (xmlDeclaration ++ "<urlset xmlns=" ++ sitemapNamespace ++ ">" ++ LF ++
               recordTexts "url" rs ++ "</urlset>" ++ LF) = Some rs'.
Proof.
  intros Hw Hr. unfold readSitemap. rewrite (parse_urlset rs Hw).
  cbn [rootElement blank]. change (allWhitespace "") with true.
  change (allWhitespace LF) with true. cbn [andb]. cbn iota.
  change ("urlset" =? "urlset")%string with true. cbn iota.
  now apply records_recordsNodes.
Qed.




End SitemapFacts.

Section PresenceFacts.

Import Xml Layout.
Context {host : Host}.

(** C10. The presence tests differ by field. An empty [lastmod], or an
    empty [changefreq], is written as an absent one is: no element. A
    priority of zero is present: the element reads
    [<priority>0.0</priority>], where an absent priority gives none. *)
Theorem generateSitemapEntry_presence
    (u : string) (l c : option string) (p : option number) (s : bool) :
  generateSitemapEntry (mkSitemapEntry u (Some "") c p) =
    generateSitemapEntry (mkSitemapEntry u None c p) /\
  generateSitemapEntry (mkSitemapEntry u l (Some "") p) =
    generateSitemapEntry (mkSitemapEntry u l None p) /\
  (exists xml : string,
     generateSitemapEntry (mkSitemapEntry u l c (Some (S754_zero s))) = Ok xml /\
     Contains ("    <priority>0.0</priority>" ++ LF) xml /\
     option_map (Xml.field "priority") (Xml.readElement "url" xml) = Some (Some "0.0")) /\
  (exists xml : string,
     generateSitemapEntry (mkSitemapEntry u l c None) = Ok xml /\
     option_map (Xml.field "priority") (Xml.readElement "url" xml) = Some None).
Proof.
  split; [reflexivity|]. split; [reflexivity|]. split.
  - set (e := mkSitemapEntry u l c (Some (S754_zero s))).
    exists (recordText "url" (entryWritten e)).
    split; [apply generateSitemapEntry_eq|]. split.
    + unfold recordText, entryWritten. cbn [priority e].
      change (("loc", escapeXml (url e)) :: ?x ++ ?y)%list
        with ((("loc", escapeXml (url e)) :: x) ++ y)%list.
      rewrite fieldLines_app, priorityText_zero.
      match goal with |- context [fieldLines ?A ++ _] => generalize (fieldLines A) end.
      intros lines.
      exists ("  <url>" ++ LF ++ lines), ("  </url>" ++ LF).
      change (fieldLines [("priority", "0.0")])
        with (("    <priority>0.0</priority>" ++ LF) ++ "").
      rewrite append_nil_r, !append_assoc. reflexivity.
    + rewrite (readElement_recordText "url" _ (entryFields e)); cbn [option_map].
      * f_equal. destruct (field_entryFields e) as [_ [_ [_ H]]]. exact H.
      * reflexivity.
      * apply entryWritten_writable_if. intros q Hq. injection Hq as <-. reflexivity.
      * apply readFields_entry_if. intros q Hq. injection Hq as <-. reflexivity.
  - set (e := mkSitemapEntry u l c None).
    exists (recordText "url" (entryWritten e)).
    split; [apply generateSitemapEntry_eq|].
    rewrite (readElement_recordText "url" _ (entryFields e)); cbn [option_map].
    + f_equal. destruct (field_entryFields e) as [_ [_ [_ H]]]. exact H.
    + reflexivity.
    + apply entryWritten_writable_if. intros q Hq. discriminate.
    + apply readFields_entry_if. intros q Hq. discriminate.
Qed.

End PresenceFacts.

(** ** Dates *)

Module DateFacts.

#[local] Arguments Ascii.eqb : simpl never.

Lemma YearFromTime_spec (t : Z) :
  DayFromYear (YearFromTime t) <= Day t < DayFromYear (YearFromTime t + 1).
Proof.
  unfold YearFromTime. generalize (Day t). intros d. cbv zeta.
  remember (1970 + 400 * d / 146097) as y eqn:Hy.
  assert (146097 * (y - 1970) <= 400 * d < 146097 * (y - 1970) + 146097) as Hd
    by (subst y; pose proof (Z.div_mod (400 * d) 146097);
        pose proof (Z.mod_pos_bound (400 * d) 146097); lia).
  clear Hy.
  destruct (Z.leb_spec (DayFromYear (y + 1)) d) as [H1|H1].
  - unfold DayFromYear in *. Z.div_mod_to_equations. lia.
  - destruct (Z.leb_spec (DayFromYear y) d) as [H2|H2];
      unfold DayFromYear in *; Z.div_mod_to_equations; lia.
Qed.

Lemma year_length (y : Z) :
  DayFromYear (y + 1) - DayFromYear y = 365 + (if isLeapYear y then 1 else 0).
Proof.
  unfold DayFromYear, isLeapYear.
  destruct (Z.eqb_spec (y mod 4) 0), (Z.eqb_spec (y mod 100) 0),
    (Z.eqb_spec (y mod 400) 0); cbn [andb orb negb];
    Z.div_mod_to_equations; lia.
Qed.

Lemma DayWithinYear_range (t : Z) : 0 <= DayWithinYear t < 365 + InLeapYear t.
Proof.
  unfold DayWithinYear, InLeapYear.
  pose proof (YearFromTime_spec t). pose proof (year_length (YearFromTime t)). lia.
Qed.

Lemma InLeapYear_range (t : Z) : InLeapYear t = 0 \/ InLeapYear t = 1.
Proof. unfold InLeapYear. destruct (isLeapYear _); auto. Qed.

Lemma MonthFromTime_range (t : Z) : 0 <= MonthFromTime t <= 11.
Proof.
  unfold MonthFromTime.
  repeat match goal with
         | |- context [if ?a <? ?b then _ else _] => destruct (a <? b)
         end; lia.
Qed.

Lemma DateFromTime_range (t : Z) : 1 <= DateFromTime t <= 31.
Proof.
  pose proof (DayWithinYear_range t) as Hd.
  pose proof (InLeapYear_range t) as Hl.
  unfold DateFromTime, MonthFromTime.
  repeat match goal with
         | |- context [if ?a <? ?b then _ else _] =>
             destruct (Z.ltb_spec a b)
         end; lia.
Qed.

Lemma clock_ranges (t : Z) :
  0 <= HourFromTime t < 24 /\ 0 <= MinFromTime t < 60 /\
  0 <= SecFromTime t < 60 /\ 0 <= msFromTime t < 1000.
Proof.
  unfold HourFromTime, MinFromTime, SecFromTime, msFromTime.
  repeat split; apply Z.mod_pos_bound; lia.
Qed.

(** The years a clipped time value can fall in. *)
Lemma YearFromTime_clipped (t : Z) :
  timeClipped t = true -> -271821 <= YearFromTime t <= 275760.
Proof.
  unfold timeClipped. intros H. apply Z.leb_le in H.
  pose proof (YearFromTime_spec t) as Hy. revert Hy.
  generalize (YearFromTime t). intros y.
  assert (-100000000 <= Day t <= 100000000) as Hd
    by (unfold Day, msPerDay; Z.div_mod_to_equations; lia).
  revert Hd. generalize (Day t). intros d Hd Hy.
  unfold DayFromYear in Hy. Z.div_mod_to_equations. lia.
Qed.

Lemma digitField_pad (w : nat) (n : Z) :
  0 <= n < 10 ^ Z.of_nat (S w) -> digitField (S w) (padStart0 (S w) (toDecimal n)).
Proof. apply padStart0_field. Qed.

Lemma takeDigits_digitField (w : nat) (x r : string) :
  digitField w x -> takeDigits w (x ++ r) = Some r.
Proof.
  intros [Hl Hc]. revert w Hl Hc. induction x as [|c x IH]; intros w Hl Hc.
  - cbn in Hl. subst w. reflexivity.
  - cbn [String.length] in Hl. subst w. cbn [allChars] in Hc.
    apply andb_true_iff in Hc. destruct Hc as [Hc Hx].
    cbn [append takeDigits]. rewrite Hc. now apply IH.
Qed.

Lemma isDigit_not_sign (c : ascii) :
  isDigit c = true -> Ascii.eqb c "+"%char || Ascii.eqb c "-"%char = false.
Proof.
  intros H. apply orb_false_iff.
  split; apply Ascii.eqb_neq; intros ->; discriminate.
Qed.

Lemma andThen_Some (x : string) (f : string -> option string) :
  andThen (Some x) f = f x.
Proof. reflexivity. Qed.

Lemma takeChar_cons (c : ascii) (r : string) : takeChar c (String c r) = Some r.
Proof. cbn [takeChar]. now rewrite Ascii.eqb_refl. Qed.

(** The year field of a year from 0 to 9999: four digits. *)
Lemma yearField_four (y : Z) (r : string) :
  0 <= y <= 9999 ->
  takeDigits 4 (yearField y ++ r) = Some r /\
  takeExpandedYear (yearField y ++ r) = None.
Proof.
  intros Hy. unfold yearField.
  replace ((0 <=? y) && (y <=? 9999)) with true
    by (symmetry; apply andb_true_iff; split; apply Z.leb_le; lia).
  destruct (digitField_pad 3 y ltac:(cbn; lia)) as [Hl Hc].
  split; [now apply takeDigits_digitField|].
  destruct (padStart0 4 (toDecimal y)) as [|c x]; [discriminate|].
  cbn [append takeExpandedYear]. cbn [allChars] in Hc.
  apply andb_true_iff in Hc. destruct Hc as [Hc _].
  now rewrite (isDigit_not_sign c Hc).
Qed.

(** The year field of any other year a clipped time value falls in: a sign
    and six digits. *)
Lemma yearField_expanded (y : Z) (r : string) :
  -271821 <= y <= 275760 -> ~ 0 <= y <= 9999 ->
  takeExpandedYear (yearField y ++ r) = Some r /\
  takeDigits 4 (yearField y ++ r) = None.
Proof.
  intros Hy Hn. unfold yearField.
  replace ((0 <=? y) && (y <=? 9999)) with false
    by (symmetry; apply andb_false_iff;
        destruct (Z.leb_spec 0 y); [right; apply Z.leb_gt; lia | now left]).
  destruct (Z.ltb_spec y 0) as [H0|H0]; rewrite append_assoc; cbn [append]; split.
  - cbn [takeExpandedYear].
    change (Ascii.eqb "-" "+" || Ascii.eqb "-" "-") with true. cbn iota.
    apply takeDigits_digitField, digitField_pad. cbn. lia.
  - reflexivity.
  - cbn [takeExpandedYear].
    change (Ascii.eqb "+" "+" || Ascii.eqb "+" "-") with true. cbn iota.
    apply takeDigits_digitField, digitField_pad. cbn. lia.
  - reflexivity.
Qed.

Ltac take_field :=
  rewrite andThen_Some, takeDigits_digitField by (apply digitField_pad; cbn; lia).

Ltac take_char c :=
  rewrite andThen_Some;
  match goal with
  | |- context [takeChar c (?lit ++ ?r)] =>
      change (takeChar c (lit ++ r)) with (takeChar c (String c r))
  end;
  rewrite takeChar_cons.

(** What [isoString] writes after the year. *)
Lemma afterYear_clock (t : Z) :
  afterYear (Some ("-" ++
    padStart0 2 (toDecimal (MonthFromTime t + 1)) ++ "-" ++
    padStart0 2 (toDecimal (DateFromTime t)) ++ "T" ++
    padStart0 2 (toDecimal (HourFromTime t)) ++ ":" ++
    padStart0 2 (toDecimal (MinFromTime t)) ++ ":" ++
    padStart0 2 (toDecimal (SecFromTime t)) ++ "." ++
    padStart0 3 (toDecimal (msFromTime t)) ++ "Z")) = true.
Proof.
  unfold afterYear.
  pose proof (MonthFromTime_range t) as Hm.
  pose proof (DateFromTime_range t) as Hd.
  destruct (clock_ranges t) as [Hh [Hmi [Hs Hms]]].
  take_char "-"%char. take_field. take_char "-"%char. take_field.
  take_char "T"%char. take_field. take_char ":"%char. take_field.
  take_char ":"%char. take_field. take_char "."%char.
  rewrite <- (append_nil_r "Z"). take_field.
  reflexivity.
Qed.

(** The text of a clipped time value is in the date-time string format
    exactly when its year is from 0 to 9999, and in the expanded format
    otherwise. *)
Lemma isoString_format (t : Z) :
  timeClipped t = true ->
  isDateTimeString (isoString t) = fourDigitYear t /\
  isExpandedDateTimeString (isoString t) = negb (fourDigitYear t).
Proof.
  intros Ht. pose proof (YearFromTime_clipped t Ht) as Hy.
  pose proof (afterYear_clock t) as Hc.
  unfold isDateTimeString, isExpandedDateTimeString, isoString, fourDigitYear.
  match goal with
  | |- context [yearField ?y ++ ?r] => set (rest := r) in *
  end.
  destruct (Z.leb_spec 0 (YearFromTime t)) as [H0|H0];
    [destruct (Z.leb_spec (YearFromTime t) 9999) as [H9|H9]|]; cbn [andb negb].
  - destruct (yearField_four (YearFromTime t) rest (conj H0 H9)) as [E1 E2].
    rewrite E1, E2, Hc. split; reflexivity.
  - destruct (yearField_expanded (YearFromTime t) rest Hy ltac:(lia)) as [E1 E2].
    rewrite E1, E2, Hc. split; reflexivity.
  - destruct (yearField_expanded (YearFromTime t) rest Hy ltac:(lia)) as [E1 E2].
    rewrite E1, E2, Hc. split; reflexivity.
Qed.



End DateFacts.
Import DateFacts.

Section TimestampFacts.

Context {host : Host}.

Lemma appendEach_ok {A : Type} (render : A -> result string) (l : list A) :
  (forall x, exists s, render x = Ok s) ->
  forall xml, exists s, appendEach render xml l = Ok s.
Proof.
  intros Hr. induction l as [|x l IH]; intros xml; cbn [appendEach].
  - now exists xml.
  - destruct (Hr x) as [s ->]. cbn [bind]. apply IH.
Qed.

Lemma generateSitemapIndexEntry_ok (e : SitemapIndex) :
  exists xml, generateSitemapIndexEntry e = Ok xml.
Proof. unfold generateSitemapIndexEntry. eauto. Qed.

Context {laws : HostLaws host}.

(** C3, as the code has it. [formatSitemapTimestamp] gives, for a string
    or a [Date] whose time value is a number, the text of that time value
    in UTC with three digits of milliseconds: in the date-time string
    format [YYYY-MM-DDTHH:mm:ss.sssZ] exactly when the year is from 0 to
    9999, and otherwise in the expanded format, a sign and six digits of
    year, [+YYYYYY-MM-DDTHH:mm:ss.sssZ]. For any other input it throws the
    error [Invalid timestamp: ...] and returns nothing; and no other
    operation of the sitemap module throws: the four generators return a
    document and [validateSitemapUrl] answers [false] where the URL parser
    throws. *)
Theorem formatSitemapTimestamp_spec (timestamp : string + Date) :
  (forall d : Date, timestamp = inr d -> wellFormed d) ->
  match timeValue timestamp with
  | Some t =>
      formatSitemapTimestamp timestamp = Ok (isoString t) /\
      isDateTimeString (isoString t) = fourDigitYear t /\
      isExpandedDateTimeString (isoString t) = negb (fourDigitYear t)
  | None =>
      exists e : JsError,
        formatSitemapTimestamp timestamp = Throw e /\ InvalidTimestamp e
  end /\
  (forall e, exists xml, generateSitemapEntry e = Ok xml) /\
  (forall e, exists xml, generateSitemapIndexEntry e = Ok xml) /\
  (forall entries, exists xml, generateSitemapXml entries = Ok xml) /\
  (forall entries, exists xml, generateSitemapIndexXml entries = Ok xml) /\
  (forall u, validateSitemapUrl u =
             match URL_protocol u with
             | Some p => (p =? "http:")%string || (p =? "https:")%string
             | None => false
             end).
Proof.
  intros Hwf. split.
  - assert (forall t, timeValue timestamp = Some t -> timeClipped t = true) as Hclip.
    { intros t Ht. destruct timestamp as [s | d]; cbn [timeValue] in Ht.
      - exact (Date_parse_clipped s t Ht).
      - specialize (Hwf d eq_refl). unfold wellFormed in Hwf. now rewrite Ht in Hwf. }
    destruct (timeValue timestamp) as [t|] eqn:Ht.
    + split; [|now apply isoString_format, Hclip].
      unfold formatSitemapTimestamp.
      destruct timestamp as [s | d]; cbn [timeValue getTime] in *;
        rewrite Ht; unfold toISOString; cbn [getTime]; now rewrite ?Ht.
    + unfold formatSitemapTimestamp.
      destruct timestamp as [s | d]; cbn [timeValue getTime] in *; rewrite Ht;
        eexists; (split; [reflexivity | eexists; reflexivity]).
  - split; [intros e; eexists; apply generateSitemapEntry_eq|].
    split; [apply generateSitemapIndexEntry_ok|].
    split; [intros entries; eexists; apply generateSitemapXml_eq|]. split.
    + intros entries. unfold generateSitemapIndexXml.
      destruct (appendEach_ok generateSitemapIndexEntry entries
                  generateSitemapIndexEntry_ok
                  (xmlDeclaration ++ "<sitemapindex xmlns=" ++ sitemapNamespace ++ ">" ++ LF))
        as [s Hs].
      rewrite Hs. cbn [bind]. eauto.
    + intros u. unfold validateSitemapUrl, URL_new.
      now destruct (URL_protocol u).
Qed.

End TimestampFacts.

(** ** JSON-LD objects *)

Module JsonFacts.

Lemma populated_nil opt parent : populated opt parent (JObject []) = true.
Proof. reflexivity. Qed.

Lemma populated_cons opt parent k x ms :
  populated opt parent (JObject ((k, x) :: ms)) =
  (if opt parent k then negb (isNullOrEmpty x) else true)
  && populated opt k x && populated opt parent (JObject ms).
Proof. reflexivity. Qed.

Lemma populated_array_nil opt parent : populated opt parent (JArray []) = true.
Proof. reflexivity. Qed.

Lemma populated_array_cons opt parent x xs :
  populated opt parent (JArray (x :: xs)) =
  populated opt parent x && populated opt parent (JArray xs).
Proof. reflexivity. Qed.

Lemma populated_strings opt parent (l : list string) :
  populated opt parent (strings l) = true.
Proof.
  unfold strings. induction l as [|s l IH]; [reflexivity|].
  cbn [map]. now rewrite populated_array_cons, IH.
Qed.

Lemma populated_map opt parent {A : Type} (f : A -> json) (l : list A) :
  (forall x, populated opt parent (f x) = true) ->
  populated opt parent (JArray (map f l)) = true.
Proof.
  intros Hf. induction l as [|x l IH]; [reflexivity|].
  cbn [map]. now rewrite populated_array_cons, Hf, IH.
Qed.

Lemma populated_mapIndexed opt parent {A : Type} (f : A -> Z -> json) (l : list A) :
  (forall x i, populated opt parent (f x i) = true) ->
  forall i, populated opt parent (JArray (mapIndexed f i l)) = true.
Proof.
  intros Hf. induction l as [|x l IH]; intros i; [reflexivity|].
  cbn [mapIndexed]. now rewrite populated_array_cons, Hf, IH.
Qed.

Lemma populated_setProp opt parent k v ms :
  member_ok opt parent k v = true ->
  populated opt parent (JObject ms) = true ->
  populated opt parent (JObject (setProp k v ms)) = true.
Proof.
  unfold member_ok. intros Hv. induction ms as [|[k' v'] ms IH]; intros Hms.
  - cbn [setProp]. now rewrite populated_cons, Hv.
  - rewrite populated_cons in Hms. apply andb_true_iff in Hms. destruct Hms as [H1 H2].
    cbn [setProp]. destruct (k' =? k)%string.
    + now rewrite populated_cons, Hv, H2.
    + now rewrite populated_cons, H1, (IH H2).
Qed.

Lemma populated_setNested opt parent k k2 v ms :
  member_ok opt k k2 v = true ->
  populated opt parent (JObject ms) = true ->
  populated opt parent (JObject (setNested k k2 v ms)) = true.
Proof.
  intros Hv. induction ms as [|[k' v'] ms IH]; intros Hms; [reflexivity|].
  rewrite populated_cons in Hms. apply andb_true_iff in Hms. destruct Hms as [H1 H2].
  apply andb_true_iff in H1. destruct H1 as [H0 H1].
  destruct v' as [| s | x | items | inner];
    try (cbn [setNested]; now rewrite populated_cons, H0, H1, (IH H2)).
  cbn [setNested]. destruct (String.eqb_spec k' k) as [->|Hk].
  - rewrite populated_cons, H2, andb_true_r.
    rewrite (populated_setProp opt k k2 v inner Hv H1), andb_true_r.
    now destruct (opt parent k).
  - now rewrite populated_cons, H0, H1, (IH H2).
Qed.

Lemma getProp_setProp k k' v ms :
  getProp k (setProp k' v ms) = if (k' =? k)%string then Some v else getProp k ms.
Proof.
  induction ms as [|[k0 v0] ms IH]; cbn [setProp getProp].
  - reflexivity.
  - destruct (String.eqb_spec k0 k') as [->|H0]; cbn [getProp].
    + now destruct (k' =? k)%string.
    + rewrite IH. destruct (String.eqb_spec k0 k) as [->|H1]; [|reflexivity].
      destruct (String.eqb_spec k' k) as [->|H2]; [congruence | reflexivity].
Qed.

Lemma nonempty_append (a : string) (c : ascii) (l b : string) :
  isNullOrEmpty (JString (a ++ String c l ++ b)) = false.
Proof. now destruct a. Qed.

End JsonFacts.
Import JsonFacts.

(** ** The generator *)

Section SchemaFacts.

Context {host : Host}.
Variable this : SchemaGenerator.

(** Evaluates the key tests of [populated] on literal keys. *)
Ltac key_tests :=
  repeat match goal with
         | |- context [isGuardedKey ?a ?b] =>
             let v := eval vm_compute in (isGuardedKey a b) in
             change (isGuardedKey a b) with v
         end.

Ltac literal_object :=
  unfold member_ok; rewrite ?populated_cons, ?populated_nil; key_tests;
  cbn [populated isNullOrEmpty negb andb].

Lemma imageObject_populated asset :
  populated isGuardedKey "image" (JObject (imageObject this asset)) = true.
Proof. unfold imageObject. now literal_object. Qed.

Ltac object_with_values :=
  unfold member_ok; rewrite ?populated_cons, ?populated_nil; key_tests;
  rewrite ?populated_strings, ?imageObject_populated;
  rewrite ?nonempty_append;
  cbn [isNullOrEmpty negb andb];
  repeat match goal with
         | |- context [populated ?o ?p (JString ?s)] =>
             change (populated o p (JString s)) with true
         | |- context [populated ?o ?p (JNumber ?s)] =>
             change (populated o p (JNumber s)) with true
         end;
  cbn [andb].

Lemma organization_populated :
  populated isGuardedKey "" (JObject (generateOrganizationSchema this)) = true /\
  populated isGuardedKey "publisher" (JObject (generateOrganizationSchema this)) = true.
Proof.
  unfold generateOrganizationSchema.
  destruct (socialLinks (config this)) as [links|];
    [destruct (0 <? List.length links)%nat|];
    destruct (truthyOpt (logoUrl (config this)));
    split;
    repeat (apply populated_setProp; [now object_with_values|]);
    now literal_object.
Qed.

Lemma howToStep_populated step :
  populated isGuardedKey "step" (howToStep this step) = true.
Proof.
  unfold howToStep. destruct (step_image step) as [image|].
  - apply populated_setProp; [now object_with_values | now literal_object].
  - now literal_object.
Qed.

Lemma blogPosting_populated post canonicalUrl :
  populated isGuardedKey ""
    (JObject (generateBlogPostingSchema this post canonicalUrl)) = true.
Proof.
  unfold generateBlogPostingSchema, present.
  destruct organization_populated as [_ Horg].
  destruct (JsString.truthy (author_slug (author post))),
    (post_featuredImage post) as [featuredImage|],
    (0 <? List.length (tags post))%nat; cbn [andb];
    try destruct (details_image (file featuredImage)) as [image|];
    repeat first
      [ apply populated_setProp; [now object_with_values|]
      | apply populated_setNested; [now object_with_values|] ];
    object_with_values; now rewrite Horg.
Qed.

Lemma howTo_populated guide :
  populated isGuardedKey "" (JObject (generateHowToSchema this guide)) = true.
Proof.
  unfold generateHowToSchema, present.
  destruct (guide_featuredImage guide) as [featuredImage|],
    (truthyNumber (estimatedTime guide)),
    (0 <? List.length (tools guide))%nat; cbn [andb];
    repeat (apply populated_setProp; [now object_with_values|]);
    object_with_values;
    now rewrite (populated_map _ _ _ _ (howToStep_populated)).
Qed.

Lemma others_populated :
  populated isGuardedKey "" (JObject (generateWebSiteSchema this)) = true /\
  (forall breadcrumbs,
     populated isGuardedKey "" (JObject (generateBreadcrumbListSchema this breadcrumbs)) = true) /\
  (forall faqEntries,
     populated isGuardedKey "" (JObject (generateFAQPageSchema faqEntries)) = true).
Proof.
  split; [unfold generateWebSiteSchema; now literal_object|]. split.
  - intros breadcrumbs. unfold generateBreadcrumbListSchema. object_with_values.
    rewrite populated_mapIndexed; [reflexivity|].
    intros crumb i. now literal_object.
  - intros faqEntries. unfold generateFAQPageSchema. object_with_values.
    rewrite populated_map; [reflexivity|].
    intros entry. now literal_object.
Qed.

Lemma steps_Forall2 (l : list GuideStep) :
  Forall2 (fun step item =>
             exists members, item = JObject members /\
               getProp "name" members = Some (JString (step_title step)) /\
               getProp "text" members = Some (JString (step_content step)) /\
               getProp "image" members =
                 option_map (fun a => JObject (imageObject this a)) (step_image step))
          l (map (howToStep this) l).
Proof.
  induction l as [|step l IH]; constructor; [|exact IH].
  unfold howToStep. destruct (step_image step) as [image|]; eexists; repeat split.
Qed.

(** C7. The object [generateBlogPostingSchema] returns has the post's
    [publishedAt] as [datePublished] and its system [updatedAt] as
    [dateModified]; it has no [keywords] when the post has no tags and the
    tags as [keywords] when it has some. *)
Theorem generateBlogPostingSchema_dates (post : BlogPost) (canonicalUrl : string) :
  let schema := generateBlogPostingSchema this post canonicalUrl in
  getProp "datePublished" schema = Some (JString (publishedAt post)) /\
  getProp "dateModified" schema = Some (JString (updatedAt (post_sys post))) /\
  getProp "keywords" schema =
    match tags post with
    | [] => None
    | _ :: _ => Some (strings (tags post))
    end.
Proof.
  cbv zeta. unfold generateBlogPostingSchema, present.
  destruct (JsString.truthy (author_slug (author post))),
    (post_featuredImage post) as [featuredImage|],
    (tags post) as [|tag rest];
    try destruct (details_image (file featuredImage)) as [image|];
    repeat split.
Qed.

(** C8. The [step] array [generateHowToSchema] returns has one element per
    step of the guide, in the order of the input, the i-th with the title
    of the i-th step as [name] and its content as [text]; and [totalTime]
    is [PT{estimatedTime}M] when [estimatedTime] is truthy and is absent
    otherwise, zero and NaN being the falsy numbers. The number is shown as
    a template literal shows it: an integer up to 2^53 by its digits, any
    larger number and any number that is no integer by the shortest digits
    that read back as it, which the runtime gives. *)
Theorem generateHowToSchema_steps (guide : Guide) :
  let schema := generateHowToSchema this guide in
  (exists items : list json,
     getProp "step" schema = Some (JArray items) /\
     List.length items = List.length (steps guide) /\
     Forall2 (fun step item =>
                exists members, item = JObject members /\
                  getProp "name" members = Some (JString (step_title step)) /\
                  getProp "text" members = Some (JString (step_content step)))
             (steps guide) items) /\
  getProp "totalTime" schema =
    (if truthyNumber (estimatedTime guide)
     then Some (JString ("PT" ++ numberToString (estimatedTime guide) ++ "M"))
     else None) /\
  (forall s : bool, truthyNumber (S754_zero s) = false) /\
  (getProp "totalTime" schema = None <->
   (exists s : bool, estimatedTime guide = S754_zero s) \/
   estimatedTime guide = S754_nan) /\
  (forall n : Z,
     0 < n <= 2 ^ 53 -> estimatedTime guide = ofZ n ->
     getProp "totalTime" schema = Some (JString ("PT" ++ toDecimal n ++ "M"))) /\
  (forall (m : positive) (e : Z),
     estimatedTime guide = S754_finite false m e ->
     snd (magnitude m e) * (fst (magnitude m e) / snd (magnitude m e))
       <> fst (magnitude m e) \/
     2 ^ 53 < fst (magnitude m e) / snd (magnitude m e) ->
     getProp "totalTime" schema =
       Some (JString ("PT" ++ shortestDecimal m e ++ "M"))).
Proof.
  cbv zeta.
  assert (getProp "totalTime" (generateHowToSchema this guide) =
          (if truthyNumber (estimatedTime guide)
           then Some (JString ("PT" ++ numberToString (estimatedTime guide) ++ "M"))
           else None)) as Htotal.
  { unfold generateHowToSchema, present.
    destruct (guide_featuredImage guide), (truthyNumber (estimatedTime guide)),
      (tools guide); reflexivity. }
  split; [|split; [exact Htotal|split; [reflexivity|split; [|split]]]].
  - exists (map (howToStep this) (steps guide)). split; [|split].
    + unfold generateHowToSchema, present.
      destruct (guide_featuredImage guide), (truthyNumber (estimatedTime guide)),
        (tools guide); reflexivity.
    + apply length_map.
    + eapply Forall2_impl; [|apply steps_Forall2].
      intros step item [members [H1 [H2 [H3 _]]]]. eauto.
  - rewrite Htotal. destruct (estimatedTime guide) as [s | s | | s m e];
      cbn [truthyNumber]; split; intros H; try discriminate H; eauto;
      destruct H as [[s' H] | H]; discriminate H.
  - intros n Hn He. rewrite Htotal, He.
    destruct n as [|p|p]; try lia. cbn [ofZ truthyNumber numberToString].
    unfold magnitude. change (0 <=? 0) with true. cbn iota.
    change (2 ^ 0) with 1. rewrite Z.mul_1_r, Z.mod_1_r, Z.div_1_r.
    change (0 =? 0) with true.
    replace (Z.pos p <=? 2 ^ 53) with true by (symmetry; apply Z.leb_le; lia).
    reflexivity.
  - intros m e He Hbig. rewrite Htotal, He.
    cbn [truthyNumber numberToString].
    assert (0 < snd (magnitude m e)) as Hden.
    { unfold magnitude. destruct (Z.leb_spec 0 e); cbn [snd]; [lia|].
      apply Z.pow_pos_nonneg; lia. }
    destruct (magnitude m e) as [num den]. cbn [fst snd] in *.
    replace ((num mod den =? 0) && (num / den <=? 2 ^ 53)) with false; [reflexivity|].
    symmetry. apply andb_false_iff. destruct Hbig as [Hr | Hr].
    + left. apply Z.eqb_neq. intros Hz. apply Hr.
      pose proof (Z.div_mod num den ltac:(lia)). lia.
    + right. apply Z.leb_gt. exact Hr.
Qed.

(** C6, as the code has it. No object a generator operation returns binds
    [logo], [sameAs], [author.url], [image], [width], [height], [keywords],
    [totalTime], [tool] or a step's [image] to [null] or to the empty
    string, at any depth; each of them is present exactly when its source
    is there and not empty; [articleSection] is bound to the name of the
    post's category for every post. *)
Theorem optional_fields_guarded
    (post : BlogPost) (canonicalUrl : string) (guide : Guide)
    (breadcrumbs : list Breadcrumb) (faqEntries : list FaqEntry) :
  let organization := generateOrganizationSchema this in
  let blogPosting := generateBlogPostingSchema this post canonicalUrl in
  let howTo := generateHowToSchema this guide in
  (populated isGuardedKey "" (JObject organization) = true /\
   populated isGuardedKey "" (JObject (generateWebSiteSchema this)) = true /\
   populated isGuardedKey "" (JObject blogPosting) = true /\
   populated isGuardedKey "" (JObject howTo) = true /\
   populated isGuardedKey "" (JObject (generateBreadcrumbListSchema this breadcrumbs)) = true /\
   populated isGuardedKey "" (JObject (generateFAQPageSchema faqEntries)) = true) /\
  (getProp "logo" organization =
     (if truthyOpt (logoUrl (config this))
      then Some (JObject [("@type", JString "ImageObject");
                          ("url", JString (getOr (logoUrl (config this))))])
      else None) /\
   getProp "sameAs" organization =
     match socialLinks (config this) with
     | Some (link :: links) => Some (strings (link :: links))
     | _ => None
     end) /\
  (getNested "author" "url" blogPosting =
     (if JsString.truthy (author_slug (author post))
      then Some (JString (siteUrl (config this) ++ "/author/" ++ author_slug (author post)))
      else None) /\
   match post_featuredImage post with
   | None => getProp "image" blogPosting = None
   | Some asset =>
       exists members,
         getProp "image" blogPosting = Some (JObject members) /\
         getProp "width" members =
           option_map (fun d => JNumber (width d)) (details_image (file asset)) /\
         getProp "height" members =
           option_map (fun d => JNumber (height d)) (details_image (file asset))
   end /\
   getProp "articleSection" blogPosting =
     Some (JString (category_name (post_category post))) /\
   getProp "keywords" blogPosting =
     match tags post with
     | [] => None
     | _ :: _ => Some (strings (tags post))
     end) /\
  (getProp "image" howTo =
     option_map (fun a => JObject (imageObject this a)) (guide_featuredImage guide) /\
   getProp "totalTime" howTo =
     (if truthyNumber (estimatedTime guide)
      then Some (JString ("PT" ++ numberToString (estimatedTime guide) ++ "M"))
      else None) /\
   getProp "tool" howTo =
     match tools guide with
     | [] => None
     | _ :: _ => Some (strings (tools guide))
     end /\
   exists items : list json,
     getProp "step" howTo = Some (JArray items) /\
     Forall2 (fun step item =>
                exists members, item = JObject members /\
                  getProp "image" members =
                    option_map (fun a => JObject (imageObject this a)) (step_image step))
             (steps guide) items).
Proof.
  cbv zeta. split; [|split; [|split]].
  - destruct others_populated as [Hweb [Hcrumbs Hfaq]].
    split; [apply organization_populated|]. split; [exact Hweb|].
    split; [apply blogPosting_populated|]. split; [apply howTo_populated|].
    split; [apply Hcrumbs | apply Hfaq].
  - unfold generateOrganizationSchema.
    destruct (socialLinks (config this)) as [[|link links]|],
      (truthyOpt (logoUrl (config this))); split; reflexivity.
  - unfold generateBlogPostingSchema, present.
    destruct (JsString.truthy (author_slug (author post))),
      (post_featuredImage post) as [featuredImage|],
      (tags post) as [|tag rest];
      try destruct (details_image (file featuredImage)) as [image|];
      repeat split; eexists; repeat split.
  - unfold generateHowToSchema, present.
    split; [|split; [|split]];
      try (destruct (guide_featuredImage guide), (truthyNumber (estimatedTime guide)),
             (tools guide); reflexivity).
    exists (map (howToStep this) (steps guide)). split.
    + destruct (guide_featuredImage guide), (truthyNumber (estimatedTime guide)),
        (tools guide); reflexivity.
    + eapply Forall2_impl; [|apply steps_Forall2].
      intros step item [members [H1 [_ [_ H4]]]]. eauto.
Qed.

End SchemaFacts.

(** ** The properties on the sample data *)

Module ExampleFacts.

Import Example.

(** The sample host keeps the laws of a host. *)
Lemma sampleHost_laws : HostLaws sampleHost.
Proof.
  constructor.
  - intros m e. reflexivity.
  - intros s t. cbn [Date_parse sampleHost].
    destruct (s =? "2024-01-15T10:00:00Z")%string; [|discriminate].
    intros H. injection H as <-. reflexivity.
Qed.

(** C4 fails as stated: with a base that is not absolute, the result is
    relative again and a second pass puts the base in front once more. *)
Lemma formatSitemapUrl_relative_base_not_idempotent :
  formatSitemapUrl "blog" "example.com" = "example.com/blog" /\
  formatSitemapUrl (formatSitemapUrl "blog" "example.com") "example.com"
    = "example.com/example.com/blog" /\
  formatSitemapUrl (formatSitemapUrl "blog" "example.com") "example.com"
    <> formatSitemapUrl "blog" "example.com".
Proof. repeat split. discriminate. Qed.

(** C4 on a relative URL under an absolute base, and on an absolute URL. *)
Lemma formatSitemapUrl_idempotent_witness :
  isAbsolute "https://example.com/" = true /\
  isAbsolute "https://example.com/blog/test" = true /\
  formatSitemapUrl "/blog/test" "https://example.com/" = "https://example.com/blog/test" /\
  formatSitemapUrl (formatSitemapUrl "/blog/test" "https://example.com/") "https://example.com/"
    = formatSitemapUrl "/blog/test" "https://example.com/" /\
  formatSitemapUrl "https://example.com/blog/test" "https://other.com"
    = "https://example.com/blog/test".
Proof.
  split; [reflexivity|]. split; [reflexivity|]. split; [reflexivity|]. split.
  - apply (formatSitemapUrl_idempotent "/blog/test" "https://example.com/"). reflexivity.
  - apply (formatSitemapUrl_idempotent "https://example.com/blog/test" "https://other.com").
    reflexivity.
Defined.

(** C5 fails as stated: only one leading slash of the URL is removed. *)
Lemma formatSitemapUrl_double_slash :
  isAbsolute "//a" = false /\
  formatSitemapUrl "//a" "https://x.com" = "https://x.com//a" /\
  noDoubleSlash (formatSitemapUrl "//a" "https://x.com") = false.
Proof. repeat split. Qed.

(** C5 on a URL with one leading slash and a base with one trailing slash. *)
Lemma formatSitemapUrl_relative_witness :
  isAbsolute "/blog/test" = false /\
  includes "//" "/blog/test" = false /\
  noDoubleSlash "https://example.com/" = true /\
  Prefix "https://example.com" (formatSitemapUrl "/blog/test" "https://example.com/") /\
  noDoubleSlash (formatSitemapUrl "/blog/test" "https://example.com/") = true.
Proof.
  destruct (formatSitemapUrl_relative "/blog/test" "https://example.com/" eq_refl)
    as [_ [_ [Hp Hd]]].
  split; [reflexivity|]. split; [reflexivity|]. split; [reflexivity|].
  split; [exact Hp | exact (Hd eq_refl eq_refl)].
Defined.




(** C3 fails as stated: the first millisecond of the year 10000 is a valid
    date, and its text has a sign and six digits of year, 27 characters. *)
Lemma formatSitemapTimestamp_year_10000 :
  wellFormed farDate /\
  @formatSitemapTimestamp sampleHost (inr farDate) = Ok "+010000-01-01T00:00:00.000Z" /\
  String.length "+010000-01-01T00:00:00.000Z" = 27%nat /\
  isDateTimeString "+010000-01-01T00:00:00.000Z" = false.
Proof. vm_compute. repeat split. Qed.

(** C3 on the date of the test suite, as a [Date] and as a string, on the
    first millisecond of the year 10000, and on a string that is no date. *)
Lemma formatSitemapTimestamp_spec_witness :
  @formatSitemapTimestamp sampleHost (inr (mkDate (Some 1705312800000)))
    = Ok "2024-01-15T10:00:00.000Z" /\
  @formatSitemapTimestamp sampleHost (inl "2024-01-15T10:00:00Z")
    = Ok "2024-01-15T10:00:00.000Z" /\
  isDateTimeString "2024-01-15T10:00:00.000Z" = true /\
  @formatSitemapTimestamp sampleHost (inr farDate) = Ok "+010000-01-01T00:00:00.000Z" /\
  isExpandedDateTimeString "+010000-01-01T00:00:00.000Z" = true /\
  (exists e : JsError,
     @formatSitemapTimestamp sampleHost (inl "invalid-date") = Throw e /\
     InvalidTimestamp e).
Proof.
  assert (forall t : Z, timeClipped t = true ->
            forall d : Date, @inr string Date (mkDate (Some t)) = inr d -> wellFormed d)
    as Hd.
  { intros t Ht d H. injection H as <-. exact Ht. }
  assert (forall (s : string) (d : Date), @inl string Date s = inr d -> wellFormed d) as Hs.
  { intros s d H. discriminate H. }
  destruct (@formatSitemapTimestamp_spec sampleHost sampleHost_laws
              (inr (mkDate (Some 1705312800000))) (Hd 1705312800000 eq_refl))
    as [[H1 [H2 _]] _].
  destruct (@formatSitemapTimestamp_spec sampleHost sampleHost_laws
              (inl "2024-01-15T10:00:00Z") (Hs _)) as [[H3 _] _].
  destruct (@formatSitemapTimestamp_spec sampleHost sampleHost_laws
              (inr farDate) (Hd year10000 eq_refl)) as [[H5 [_ H6]] _].
  destruct (@formatSitemapTimestamp_spec sampleHost sampleHost_laws
              (inl "invalid-date") (Hs _)) as [H4 _].
  split; [exact H1|]. split; [exact H3|]. split; [exact H2|].
  split; [exact H5|]. split; [exact H6 | exact H4].
Defined.

(** C8 on a guide of 30 minutes, on one of 2^64 minutes with the digits the
    runtime shows for that number, and on one of no minutes. *)
Lemma generateHowToSchema_steps_witness :
  getProp "totalTime" (@generateHowToSchema sampleHost sampleGenerator
                         (sampleGuide (ofZ 30))) = Some (JString "PT30M") /\
  getProp "totalTime" (@generateHowToSchema digitsHost sampleGenerator
                         (sampleGuide (ofZ (2 ^ 64))))
    = Some (JString "PT18446744073709552000M") /\
  getProp "totalTime" (@generateHowToSchema sampleHost sampleGenerator
                         (sampleGuide (ofZ 0))) = None.
Proof.
  split; [|split].
  - destruct (@generateHowToSchema_steps sampleHost sampleGenerator (sampleGuide (ofZ 30)))
      as [_ [_ [_ [_ [H _]]]]].
    apply (H 30); [vm_compute; split; [reflexivity | discriminate] | reflexivity].
  - destruct (@generateHowToSchema_steps digitsHost sampleGenerator
                (sampleGuide (ofZ (2 ^ 64)))) as [_ [_ [_ [_ [_ H]]]]].
    apply (H (Z.to_pos (2 ^ 64)) 0); [reflexivity|].
    right. vm_compute. reflexivity.
  - destruct (@generateHowToSchema_steps sampleHost sampleGenerator (sampleGuide (ofZ 0)))
      as [_ [_ [_ [H _]]]].
    apply H. left. exists false. reflexivity.
Defined.

(** C6 fails as stated: a post whose category has an empty name gets
    [articleSection] bound to the empty string. *)
Lemma articleSection_empty_string :
  category_name (post_category samplePost) = "" /\
  getProp "articleSection"
    (generateBlogPostingSchema sampleGenerator samplePost "https://example.com/blog/title")
    = Some (JString "") /\
  populated isOptionalKey ""
    (JObject (generateBlogPostingSchema sampleGenerator samplePost
                "https://example.com/blog/title")) = false.
Proof. repeat split. Qed.

End ExampleFacts.

(* ================================================================= *)
(** * Further properties *)

(** ** escapeXml, formatSitemapUrl, shouldIncludeInSitemap *)

Module LibraryFacts.

#[local] Arguments Ascii.eqb : simpl never.

Lemma escapeChar_length (c : ascii) :
  (1 <= String.length (escapeChar c))%nat /\
  (escaped c = true -> (2 <= String.length (escapeChar c))%nat) /\
  (escaped c = false -> escapeChar c = String c "").
Proof.
  unfold escapeChar, escaped, special.
  destruct (Ascii.eqb c "&"%char); [cbn; repeat split; try lia; discriminate|].
  destruct (Ascii.eqb c "<"%char); [cbn; repeat split; try lia; discriminate|].
  destruct (Ascii.eqb c ">"%char); [cbn; repeat split; try lia; discriminate|].
  destruct (Ascii.eqb c "034"%char); [cbn; repeat split; try lia; discriminate|].
  destruct (Ascii.eqb c "'"%char); [cbn; repeat split; try lia; discriminate|].
  cbn. repeat split; try lia; discriminate.
Qed.

Lemma escapeXml_length (s : string) :
  (String.length s <= String.length (escapeXml s))%nat.
Proof.
  induction s as [|c s IH]; [cbn; lia|].
  rewrite escapeXml_cons, length_append. cbn [String.length].
  destruct (escapeChar_length c) as [H _]. lia.
Qed.

Lemma slice0m1_snoc (b : string) : slice0m1 (b ++ "/") = b.
Proof.
  induction b as [|c b IH]; [reflexivity|].
  change (String c b ++ "/") with (String c (b ++ "/")).
  cbn [slice0m1]. rewrite IH. destruct b; reflexivity.
Qed.

Lemma endsWith_snoc (b : string) : endsWith "/" (b ++ "/") = true.
Proof.
  destruct b as [|c b]; [reflexivity|].
  change (String c b ++ "/") with ((String c b) ++ String "/"%char "").
  now rewrite endsWith_slash_app.
Qed.

Lemma includes_extend (p l u r : string) :
  includes p u = true -> includes p (l ++ u ++ r) = true.
Proof.
  rewrite !includes_Contains. intros [a [b ->]].
  exists (l ++ a), (b ++ r). now rewrite !append_assoc.
Qed.

Lemma excluded_extend (l u r : string) :
  shouldIncludeInSitemap u = false -> shouldIncludeInSitemap (l ++ u ++ r) = false.
Proof.
  unfold shouldIncludeInSitemap. rewrite !negb_false_iff, !existsb_exists.
  intros [p [Hin Hp]]. exists p. split; [exact Hin | now apply includes_extend].
Qed.

Lemma cleanUrl_rooted (u : string) :
  startsWith "/" u = true -> "/" ++ cleanUrl u = u.
Proof.
  unfold cleanUrl. intros H. rewrite H. destruct u as [|c u]; [discriminate|].
  cbn [startsWith] in H. rewrite andb_true_r in H. apply Ascii.eqb_eq in H.
  now subst.
Qed.

Lemma formatSitemapUrl_absolute_base (u b : string) :
  isAbsolute b = true -> isAbsolute (formatSitemapUrl u b) = true.
Proof.
  intros Hb. destruct (isAbsolute u) eqn:Hu.
  - now rewrite formatSitemapUrl_absolute_eq.
  - rewrite (formatSitemapUrl_relative_eq u b Hu). now apply isAbsolute_result.
Qed.

End LibraryFacts.
Import LibraryFacts.

(** X1. Escaping is done character by character: the escape of a
    concatenation is the concatenation of the escapes. *)
Theorem escapeXml_concat (a b : string) :
  escapeXml (a ++ b) = escapeXml a ++ escapeXml b.
Proof.
  induction a as [|c a IH]; [reflexivity|].
  change (String c a ++ b) with (String c (a ++ b)).
  now rewrite !escapeXml_cons, IH, append_assoc.
Qed.

(** X2. [escapeXml] loses nothing: two strings with the same escape are the
    same string. *)
Theorem escapeXml_injective (a b : string) :
  escapeXml a = escapeXml b -> a = b.
Proof.
  intros H. pose proof (unescape_escapeXml a) as Ha.
  rewrite H, unescape_escapeXml in Ha. congruence.
Qed.

(** X3. [escapeXml] leaves a string as it is exactly when the string has
    none of [&], [<], [>], double quote and single quote; so escaping twice
    is the same as escaping once only for such strings. *)
Theorem escapeXml_fixed_points (s : string) :
  (escapeXml s = s <-> allChars (fun c => negb (escaped c)) s = true) /\
  (escapeXml (escapeXml s) = escapeXml s <->
   allChars (fun c => negb (escaped c)) s = true).
Proof.
  assert (forall t, escapeXml t = t <-> allChars (fun c => negb (escaped c)) t = true) as H.
  { induction t as [|c t IH]; [split; reflexivity|].
    rewrite escapeXml_cons. cbn [allChars]. rewrite andb_true_iff, negb_true_iff.
    destruct (escapeChar_length c) as [H1 [H2 H3]]. split.
    - intros Heq. pose proof (f_equal String.length Heq) as Hl.
      rewrite length_append in Hl. cbn [String.length] in Hl.
      pose proof (escapeXml_length t) as Ht.
      destruct (escaped c) eqn:Ec; [specialize (H2 eq_refl); lia|].
      split; [reflexivity|]. apply IH. rewrite (H3 eq_refl) in Heq.
      cbn [append] in Heq. congruence.
    - intros [Ec Ht]. rewrite (H3 Ec). cbn [append]. f_equal. now apply IH. }
  split; [apply H|]. rewrite <- H. split.
  - intros Heq. pose proof (unescape_escapeXml (escapeXml s)) as Ha.
    rewrite Heq, unescape_escapeXml in Ha. congruence.
  - intros Heq. now rewrite Heq.
Qed.

(** X4. One leading slash of the URL and one trailing slash of the base make
    no difference to [formatSitemapUrl]. *)
Theorem formatSitemapUrl_slashes (u b : string) :
  (isAbsolute u = false -> startsWith "/" u = false ->
   formatSitemapUrl ("/" ++ u) b = formatSitemapUrl u b) /\
  (endsWith "/" b = false ->
   formatSitemapUrl u (b ++ "/") = formatSitemapUrl u b).
Proof.
  split.
  - intros Hu Hs.
    rewrite (formatSitemapUrl_relative_eq u b Hu).
    rewrite (formatSitemapUrl_relative_eq ("/" ++ u) b eq_refl).
    unfold cleanUrl. now rewrite Hs.
  - intros Hb. destruct (isAbsolute u) eqn:Hu.
    + now rewrite !formatSitemapUrl_absolute_eq.
    + rewrite !formatSitemapUrl_relative_eq by exact Hu.
      unfold cleanBaseUrl. now rewrite endsWith_snoc, slice0m1_snoc, Hb.
Qed.

(** X6. The sitemap filter only grows with the URL: what is excluded stays
    excluded with anything before or after it; so a path that starts with a
    slash and is excluded is excluded under every base, and a base that is
    itself excluded, with or without a slash at its end, excludes every
    relative URL. *)
Theorem shouldIncludeInSitemap_extension (l u r b : string) :
  (shouldIncludeInSitemap u = false ->
   shouldIncludeInSitemap (l ++ u ++ r) = false) /\
  (startsWith "/" u = true -> shouldIncludeInSitemap u = false ->
   shouldIncludeInSitemap (formatSitemapUrl u b) = false) /\
  (isAbsolute u = false -> shouldIncludeInSitemap b = false ->
   shouldIncludeInSitemap (formatSitemapUrl u b) = false).
Proof.
  split; [apply excluded_extend|]. split.
  - intros Hs Hx.
    assert (isAbsolute u = false) as Hu.
    { destruct u as [|c u]; [reflexivity|]. cbn [startsWith] in Hs.
      rewrite andb_true_r in Hs. apply Ascii.eqb_eq in Hs. now subst. }
    rewrite (formatSitemapUrl_relative_eq u b Hu), (cleanUrl_rooted u Hs).
    rewrite <- (append_nil_r u). now apply excluded_extend.
  - intros Hu Hx. rewrite (formatSitemapUrl_relative_eq u b Hu).
    unfold cleanBaseUrl. destruct (endsWith "/" b) eqn:He.
    + rewrite <- append_assoc, <- (endsWith_slice0m1 b He).
      change (b ++ cleanUrl u) with ("" ++ b ++ cleanUrl u).
      now apply excluded_extend.
    + change (b ++ "/" ++ cleanUrl u) with ("" ++ b ++ "/" ++ cleanUrl u).
      now apply excluded_extend.
Qed.

(** ** Sitemap index documents, priorities, the base URL *)

Section IndexFacts.

Import Xml Layout.
Context {host : Host}.











Lemma magnitude_den_pos (m : positive) (e : Z) : 0 < snd (magnitude m e).
Proof.
  unfold magnitude. destruct (0 <=? e) eqn:E; cbn [snd]; [lia|].
  apply Z.pow_pos_nonneg; lia.
Qed.

Lemma magnitude_num_pos (m : positive) (e : Z) : 0 < fst (magnitude m e).
Proof.
  unfold magnitude. destruct (Z.leb_spec 0 e); cbn [fst]; [|lia].
  apply Z.mul_pos_pos; [lia | apply Z.pow_pos_nonneg; lia].
Qed.

Lemma pointed_small (n : Z) :
  0 <= n <= 10 ->
  exists d : ascii,
    isDigit d = true /\ (pointed n 1 = "0." ++ String d "" \/ pointed n 1 = "1.0").
Proof.
  intros H. destruct (Z.eq_dec n 10) as [-> | Hten].
  - exists "0"%char. split; [reflexivity | right; reflexivity].
  - assert (exists k : nat, (k < 10)%nat /\ n = Z.of_nat k) as [k [Hk ->]]
      by (exists (Z.to_nat n); lia).
    do 10 (destruct k as [|k];
           [eexists; split; [|left; reflexivity]; reflexivity|]).
    lia.
Qed.

(** X8. A priority between 0 and 1, as the sitemap protocol wants it, is
    written with three characters: [0.] and a digit, or [1.0]. *)
Theorem priority_unit_range (p : number) :
  unitRange p = true ->
  exists d : ascii,
    isDigit d = true /\
    (toFixed p 1 = Ok ("0." ++ String d "") \/ toFixed p 1 = Ok "1.0").
Proof.
  destruct p as [s | s | | s m e]; try discriminate.
  - intros _. exists "0"%char. split; [reflexivity | left; reflexivity].
  - destruct s; [discriminate|]. unfold unitRange, toFixed.
    change ((1 <? 0) || (100 <? 1)) with false. cbn iota.
    pose proof (magnitude_den_pos m e) as Hd.
    pose proof (magnitude_num_pos m e) as Hn.
    destruct (magnitude m e) as [num den]. cbn [fst snd] in *. intros H.
    apply Z.leb_le in H.
    replace (10 ^ 21 * den <=? num) with false
      by (symmetry; apply Z.leb_gt; nia).
    change (Z.to_nat 1) with 1%nat. cbn [append].
    destruct (pointed_small (roundScaled num den 1)) as [d [Hdig Hp]].
    { unfold roundScaled. change (10 ^ 1) with 10. split.
      - apply Z.div_pos; lia.
      - apply Z.lt_succ_r, Z.div_lt_upper_bound; lia. }
    exists d. split; [exact Hdig|]. destruct Hp as [-> | ->]; auto.
Qed.

(** X5. [getSitemapBaseUrl] never gives the empty string: it is [SITE_URL]
    when that is set and not empty, and the local origin otherwise; and
    every URL formatted against it is absolute when [SITE_URL] is not set,
    is empty, or is itself absolute. *)
Theorem getSitemapBaseUrl_usable :
  JsString.truthy getSitemapBaseUrl = true /\
  (truthyOpt SITE_URL = false -> getSitemapBaseUrl = "http://localhost:4321") /\
  (truthyOpt SITE_URL = true -> Some getSitemapBaseUrl = SITE_URL) /\
  (truthyOpt SITE_URL = false \/ isAbsolute getSitemapBaseUrl = true ->
   forall u : string, isAbsolute (formatSitemapUrl u getSitemapBaseUrl) = true).
Proof.
  unfold getSitemapBaseUrl. destruct SITE_URL as [s|]; cbn [truthyOpt getOr].
  - destruct s as [|c s]; cbn [JsString.truthy]; repeat split; try discriminate.
    + intros _ u. apply (formatSitemapUrl_absolute_base u "http://localhost:4321" eq_refl).
    + intros [H | H] u; [discriminate|].
      now apply formatSitemapUrl_absolute_base.
  - repeat split; try discriminate.
    intros _ u. apply (formatSitemapUrl_absolute_base u "http://localhost:4321" eq_refl).
Qed.

End IndexFacts.

(** ** The routes that serve the sitemaps *)

Section RouteFacts.

Import Xml Layout.
Context {host : Host}.

Lemma readSitemap_generated (entries : list SitemapEntry) :
  Forall plainPriority entries ->
  exists xml, generateSitemapXml entries = Ok xml /\
              readSitemap xml = Some (map entryFields entries).
Proof.
  intros Hp. eexists. split; [apply generateSitemapXml_eq|].
  apply readSitemap_records.
  - apply Forall_map. eapply Forall_impl; [|exact Hp].
    intros e He. now apply entryWritten_writable_if.
  - induction Hp as [|e entries He _ IH]; constructor; [|exact IH].
    now apply readFields_entry_if.
Qed.

Lemma generateSitemapXml_nil : generateSitemapXml [] = Ok emptySitemap.
Proof. reflexivity. Qed.

Lemma readSitemap_empty : readSitemap emptySitemap = Some [].
Proof.
  destruct (readSitemap_generated [] (Forall_nil _)) as [xml [H1 H2]].
  rewrite generateSitemapXml_nil in H1. injection H1 as <-. exact H2.
Qed.

Lemma truthy_append (a : string) (c : ascii) (b : string) :
  JsString.truthy (a ++ String c b) = true.
Proof. now destruct a. Qed.

Lemma truthy_isoString (t : Z) : JsString.truthy (isoString t) = true.
Proof. unfold isoString. apply truthy_append. Qed.

Lemma mapResult_map {A B C : Type} (f : B -> result C) (g : A -> B) (l : list A) :
  mapResult f (map g l) = mapResult (fun x => f (g x)) l.
Proof.
  induction l as [|x l IH]; [reflexivity|]. cbn [map mapResult]. now rewrite IH.
Qed.


Lemma contentEntry_cases (prefix freq : string) (prio : number) (item : string * string) :
  contentEntry prefix freq prio item =
  if eligible prefix item then
    match Date_parse (snd item) with
    | Some t =>
        Ok (Some (mkSitemapEntry (formatSitemapUrl (prefix ++ fst item) getSitemapBaseUrl)
                    (Some (isoString t)) (Some freq) (Some prio)))
    | None => Throw (Error ("Invalid timestamp: " ++ snd item))
    end
  else Ok None.
Proof.
  unfold contentEntry, eligible, formatSitemapTimestamp, toISOString.
  destruct (shouldIncludeInSitemap _); cbn [negb getTime]; [|reflexivity].
  now destruct (Date_parse (snd item)).
Qed.

Lemma entryFields_content (prefix freq : string) (prio : number)
    (item : string * string) (t : Z) :
  JsString.truthy freq = true ->
  entryFields (mkSitemapEntry (formatSitemapUrl (prefix ++ fst item) getSitemapBaseUrl)
                 (Some (isoString t)) (Some freq) (Some prio))
  = contentFields prefix freq (priorityText prio) item t.
Proof.
  intros Hf. unfold entryFields, optionalField, contentFields.
  cbn [url lastmod changefreq priority truthyOpt getOr].
  now rewrite truthy_isoString, Hf.
Qed.

Lemma content_mapped (prefix freq : string) (prio : number) (items : list (string * string)) :
  JsString.truthy freq = true ->
  match contentRecords prefix freq (priorityText prio) items with
  | Some rs =>
      exists mapped,
        mapResult (contentEntry prefix freq prio) items = Ok mapped /\
        map entryFields (nonNull mapped) = rs /\
        Forall (fun e => priority e = Some prio) (nonNull mapped)
  | None => exists e, mapResult (contentEntry prefix freq prio) items = Throw e
  end.
Proof.
  intros Hf. induction items as [|item items IH]; [now exists []|].
  cbn [contentRecords mapResult]. rewrite contentEntry_cases.
  destruct (eligible prefix item).
  - destruct (Date_parse (snd item)) as [t|]; [|cbn [bind]; eauto].
    destruct (contentRecords prefix freq (priorityText prio) items) as [rs|].
    + destruct IH as [mapped [H1 [H2 H3]]]. rewrite H1. cbn [bind].
      eexists. split; [reflexivity|]. cbn [nonNull map].
      rewrite (entryFields_content _ _ _ _ _ Hf), H2. split; [reflexivity|].
      constructor; [reflexivity | exact H3].
    + destruct IH as [e H1]. rewrite H1. cbn [bind]. eauto.
  - destruct (contentRecords prefix freq (priorityText prio) items) as [rs|].
    + destruct IH as [mapped [H1 [H2 H3]]]. rewrite H1. cbn [bind]. eauto.
    + destruct IH as [e H1]. rewrite H1. cbn [bind]. eauto.
Qed.

Lemma contentGET_served (prefix freq : string) (prio : number)
    (fetched : result (list (string * string))) :
  JsString.truthy freq = true -> plainText (priorityText prio) = true ->
  match fetched with
  | Throw _ => contentGET prefix freq prio fetched = Ok fallbackResponse
  | Ok items =>
      match contentRecords prefix freq (priorityText prio) items with
      | Some rs =>
          exists xml,
            contentGET prefix freq prio fetched =
              Ok (mkResponse xml 200 xmlContentType "public, max-age=3600") /\
            readSitemap xml = Some rs
      | None => contentGET prefix freq prio fetched = Ok fallbackResponse
      end
  end.
Proof.
  intros Hf Hp. destruct fetched as [items | e]; [|reflexivity].
  pose proof (content_mapped prefix freq prio items Hf) as Hm.
  unfold contentGET. cbn [bind].
  destruct (contentRecords prefix freq (priorityText prio) items) as [rs|].
  - destruct Hm as [mapped [H1 [H2 H3]]]. rewrite H1. cbn [bind].
    destruct (readSitemap_generated (nonNull mapped)) as [xml [Hx Hr]].
    { eapply Forall_impl; [|exact H3]. intros e He p Hep.
      rewrite He in Hep. injection Hep as <-. exact Hp. }
    rewrite Hx. cbn [bind catchWith]. exists xml. split; [reflexivity|].
    now rewrite Hr, H2.
  - destruct Hm as [e H1]. now rewrite H1.
Qed.

Lemma blogGET_content (r : result (list BlogPost)) :
  blogGET r = contentGET "/blog/" "weekly" priority08 (mapOk (map postItem) r).
Proof.
  unfold blogGET, contentGET. destruct r as [posts | e]; [|reflexivity].
  cbn [mapOk bind]. now rewrite mapResult_map.
Qed.

Lemma guidesGET_content (r : result (list Guide)) :
  guidesGET r = contentGET "/guides/" "monthly" priority09 (mapOk (map guideItem) r).
Proof.
  unfold guidesGET, contentGET. destruct r as [guides | e]; [|reflexivity].
  cbn [mapOk bind]. now rewrite mapResult_map.
Qed.

Lemma contentRecords_None {A : Type} (g : A -> string * string)
    (prefix freq shown : string) (l : list A) (x : A) :
  In x l -> eligible prefix (g x) = true -> Date_parse (snd (g x)) = None ->
  contentRecords prefix freq shown (map g l) = None.
Proof.
  intros Hin He Hd. induction l as [|y l IH]; [contradiction|].
  cbn [map contentRecords]. destruct Hin as [-> | Hin].
  - now rewrite He, Hd.
  - rewrite (IH Hin). destruct (eligible prefix (g y)); [|reflexivity].
    now destruct (Date_parse (snd (g y))).
Qed.




Lemma priority08_text : priorityText priority08 = "0.8".
Proof. vm_compute. reflexivity. Qed.

Lemma priority09_text : priorityText priority09 = "0.9".
Proof. vm_compute. reflexivity. Qed.

Lemma blog_served (fetched : result (list (string * string))) :
  match fetched with
  | Throw _ => contentGET "/blog/" "weekly" priority08 fetched = Ok fallbackResponse
  | Ok items =>
      match contentRecords "/blog/" "weekly" "0.8" items with
      | Some rs =>
          exists xml,
            contentGET "/blog/" "weekly" priority08 fetched =
              Ok (mkResponse xml 200 xmlContentType "public, max-age=3600") /\
            readSitemap xml = Some rs
      | None => contentGET "/blog/" "weekly" priority08 fetched = Ok fallbackResponse
      end
  end.
Proof.
  pose proof (contentGET_served "/blog/" "weekly" priority08 fetched eq_refl) as H.
  rewrite priority08_text in H. now apply H.
Qed.

Lemma guides_served (fetched : result (list (string * string))) :
  match fetched with
  | Throw _ => contentGET "/guides/" "monthly" priority09 fetched = Ok fallbackResponse
  | Ok items =>
      match contentRecords "/guides/" "monthly" "0.9" items with
      | Some rs =>
          exists xml,
            contentGET "/guides/" "monthly" priority09 fetched =
              Ok (mkResponse xml 200 xmlContentType "public, max-age=3600") /\
            readSitemap xml = Some rs
      | None => contentGET "/guides/" "monthly" priority09 fetched = Ok fallbackResponse
      end
  end.
Proof.
  pose proof (contentGET_served "/guides/" "monthly" priority09 fetched eq_refl) as H.
  rewrite priority09_text in H. now apply H.
Qed.













End RouteFacts.

Section RouteProperties.

Import Xml Layout.
Context {host : Host}.

(** X9. The blog sitemap route answers the empty sitemap, cached for five
    minutes, when the content service throws, and also when one post that
    passes the sitemap filter has an [updatedAt] that is no date: one bad
    timestamp empties the whole sitemap. *)
Theorem blogGET_fallback (posts : list BlogPost) :
  (forall e : JsError,
     blogGET (Throw e) =
       Ok (mkResponse emptySitemap 200 xmlContentType "public, max-age=300")) /\
  (forall post : BlogPost,
     In post posts ->
     shouldIncludeInSitemap
       (formatSitemapUrl ("/blog/" ++ post_slug post) getSitemapBaseUrl) = true ->
     Date_parse (updatedAt (post_sys post)) = None ->
     blogGET (Ok posts) =
       Ok (mkResponse emptySitemap 200 xmlContentType "public, max-age=300")) /\
  readSitemap emptySitemap = Some [].
Proof.
  split; [reflexivity|]. split; [|apply readSitemap_empty].
  intros post Hin He Hd. rewrite blogGET_content.
  pose proof (blog_served (mapOk (map postItem) (Ok posts))) as H.
  cbn [mapOk] in H.
  now rewrite (contentRecords_None postItem "/blog/" "weekly" _ posts post Hin He Hd) in H.
Qed.

(** X11. The guides sitemap route has the same fallback: the empty
    sitemap, cached for five minutes, when the content service throws or
    when one guide that passes the filter has an [updatedAt] that is no
    date. *)
Theorem guidesGET_fallback (guides : list Guide) :
  (forall e : JsError,
     guidesGET (Throw e) =
       Ok (mkResponse emptySitemap 200 xmlContentType "public, max-age=300")) /\
  (forall guide : Guide,
     In guide guides ->
     shouldIncludeInSitemap
       (formatSitemapUrl ("/guides/" ++ guide_slug guide) getSitemapBaseUrl) = true ->
     Date_parse (updatedAt (guide_sys guide)) = None ->
     guidesGET (Ok guides) =
       Ok (mkResponse emptySitemap 200 xmlContentType "public, max-age=300")) /\
  readSitemap emptySitemap = Some [].
Proof.
  split; [reflexivity|]. split; [|apply readSitemap_empty].
  intros guide Hin He Hd. rewrite guidesGET_content.
  pose proof (guides_served (mapOk (map guideItem) (Ok guides))) as H.
  cbn [mapOk] in H.
  now rewrite (contentRecords_None guideItem "/guides/" "monthly" _ guides guide Hin He Hd) in H.
Qed.



Context {laws : HostLaws host}.




End RouteProperties.

(** ** schemas.ts and structuredData.ts: what the schemas of a page hold *)

Section GeneratorFacts.

Context {host : Host}.
Variable this : SchemaGenerator.

Lemma mapIndexed_length {A B : Type} (f : A -> Z -> B) (l : list A) :
  forall index, List.length (mapIndexed f index l) = List.length l.
Proof.
  induction l as [|x l IH]; intros index; [reflexivity|].
  cbn [mapIndexed List.length]. now rewrite IH.
Qed.

Lemma mapIndexed_nth {A B : Type} (f : A -> Z -> B) (l : list A) :
  forall (index : Z) (k : nat) (x : A),
    nth_error l k = Some x ->
    nth_error (mapIndexed f index l) k = Some (f x (index + Z.of_nat k)).
Proof.
  induction l as [|y l IH]; intros index k x H.
  - destruct k; discriminate.
  - destruct k as [|k]; cbn [nth_error mapIndexed] in *.
    + injection H as ->. now rewrite Z.add_0_r.
    + rewrite (IH (index + 1) k x H). do 2 f_equal. lia.
Qed.

Lemma mapIndexed_Forall {A B : Type} (f : A -> Z -> B) (P : B -> Prop) (l : list A) :
  (forall x index, P (f x index)) ->
  forall index, Forall P (mapIndexed f index l).
Proof.
  intros H. induction l as [|x l IH]; intros index; constructor; auto.
Qed.

Lemma startsWith_append (p a b : string) :
  startsWith p a = true -> startsWith p (a ++ b) = true.
Proof.
  revert a. induction p as [|c p IH]; intros a H; [reflexivity|].
  destruct a as [|d a]; [discriminate|].
  cbn [startsWith append] in *. apply andb_true_iff in H as [H1 H2].
  now rewrite H1, (IH a H2).
Qed.

(** The URL the generators write for a path: as it is when it starts with
    [http], else after the site URL. *)
Lemma site_url_absolute (path : string) :
  startsWith "http" (siteUrl (config this)) = true ->
  startsWith "http"
    (if startsWith "http" path then path else siteUrl (config this) ++ path) = true.
Proof.
  intros H. destruct (startsWith "http" path) eqn:E; [exact E|].
  now apply startsWith_append.
Qed.

Lemma organization_type :
  getProp "@type" (generateOrganizationSchema this) = Some (JString "Organization").
Proof.
  unfold generateOrganizationSchema.
  destruct (truthyOpt (logoUrl (config this))), (socialLinks (config this)) as [[|l ls]|];
    reflexivity.
Qed.

Lemma blogPosting_members (post : BlogPost) (canonicalUrl : string) :
  let schema := generateBlogPostingSchema this post canonicalUrl in
  getProp "@type" schema = Some (JString "BlogPosting") /\
  getProp "publisher" schema = Some (JObject (generateOrganizationSchema this)) /\
  getNested "author" "url" schema =
    (if JsString.truthy (author_slug (author post))
     then Some (JString (siteUrl (config this) ++ "/author/" ++ author_slug (author post)))
     else None) /\
  getNested "image" "url" schema =
    match post_featuredImage post with
    | Some featuredImage => getProp "url" (imageObject this featuredImage)
    | None => None
    end.
Proof.
  cbv zeta. unfold generateBlogPostingSchema, present.
  destruct (JsString.truthy (author_slug (author post))),
    (post_featuredImage post) as [featuredImage|],
    (tags post) as [|tag rest];
    try destruct (details_image (file featuredImage)) as [image|];
    repeat split.
Qed.

Lemma howTo_members (guide : Guide) :
  let schema := generateHowToSchema this guide in
  getProp "@type" schema = Some (JString "HowTo") /\
  getProp "step" schema = Some (JArray (map (howToStep this) (steps guide))) /\
  getProp "totalTime" schema =
    (if truthyNumber (estimatedTime guide)
     then Some (JString ("PT" ++ numberToString (estimatedTime guide) ++ "M"))
     else None) /\
  getNested "image" "url" schema =
    match guide_featuredImage guide with
    | Some featuredImage => getProp "url" (imageObject this featuredImage)
    | None => None
    end.
Proof.
  cbv zeta. unfold generateHowToSchema, present.
  destruct (guide_featuredImage guide), (truthyNumber (estimatedTime guide)),
    (tools guide); repeat split.
Qed.

(** X16. The [itemListElement] of a [BreadcrumbList] has one [ListItem]
    per breadcrumb, in order; the one at index [k] has position [k + 1],
    the breadcrumb's name, and as [item] the breadcrumb's URL as it is when
    it starts with [http] and after the site URL otherwise. *)
Theorem generateBreadcrumbListSchema_positions (breadcrumbs : list Breadcrumb) :
  exists items : list json,
    getProp "itemListElement" (generateBreadcrumbListSchema this breadcrumbs) =
      Some (JArray items) /\
    List.length items = List.length breadcrumbs /\
    forall (k : nat) (crumb : Breadcrumb),
      nth_error breadcrumbs k = Some crumb ->
      exists members : list (string * json),
        nth_error items k = Some (JObject members) /\
        getProp "@type" members = Some (JString "ListItem") /\
        getProp "position" members = Some (JNumber (ofZ (Z.of_nat k + 1))) /\
        getProp "name" members = Some (JString (crumb_name crumb)) /\
        getProp "item" members =
          Some (JString (if startsWith "http" (crumb_url crumb)
                         then crumb_url crumb
                         else siteUrl (config this) ++ crumb_url crumb)).
Proof.
  unfold generateBreadcrumbListSchema. eexists. split; [reflexivity|].
  split; [apply mapIndexed_length|].
  intros k crumb H. rewrite (mapIndexed_nth _ _ 0 k crumb H), Z.add_0_l.
  eexists. split; [reflexivity|]. repeat split.
Qed.

(** X17. When the site URL of the configuration starts with [http], so
    does every URL the generator composes: each breadcrumb item, the
    author URL and the image URL of a [BlogPosting], the image URL of a
    [HowTo] and of each of its steps. *)
Theorem schema_urls_absolute :
  startsWith "http" (siteUrl (config this)) = true ->
  (forall breadcrumbs : list Breadcrumb,
     exists items : list json,
       getProp "itemListElement" (generateBreadcrumbListSchema this breadcrumbs) =
         Some (JArray items) /\
       Forall (fun item => exists members,
                 item = JObject members /\
                 httpText (getProp "item" members) = true) items) /\
  (forall (post : BlogPost) (canonicalUrl : string),
     let schema := generateBlogPostingSchema this post canonicalUrl in
     (JsString.truthy (author_slug (author post)) = true ->
      httpText (getNested "author" "url" schema) = true) /\
     (post_featuredImage post <> None ->
      httpText (getNested "image" "url" schema) = true)) /\
  (forall guide : Guide,
     let schema := generateHowToSchema this guide in
     (guide_featuredImage guide <> None ->
      httpText (getNested "image" "url" schema) = true) /\
     exists items : list json,
       getProp "step" schema = Some (JArray items) /\
       Forall2 (fun step item => exists members,
                  item = JObject members /\
                  (step_image step <> None ->
                   httpText (getNested "image" "url" members) = true))
               (steps guide) items).
Proof.
  intros Hsite.
  assert (forall asset, httpText (getProp "url" (imageObject this asset)) = true) as Himage.
  { intros asset. unfold imageObject.
    change (startsWith "http"
              (if startsWith "http" (file_url (file asset)) then file_url (file asset)
               else siteUrl (config this) ++ file_url (file asset)) = true).
    now apply site_url_absolute. }
  split; [|split].
  - intros breadcrumbs. unfold generateBreadcrumbListSchema.
    eexists. split; [reflexivity|].
    apply mapIndexed_Forall. intros crumb index. eexists. split; [reflexivity|].
    change (startsWith "http"
              (if startsWith "http" (crumb_url crumb) then crumb_url crumb
               else siteUrl (config this) ++ crumb_url crumb) = true).
    now apply site_url_absolute.
  - intros post canonicalUrl. cbv zeta.
    destruct (blogPosting_members post canonicalUrl) as [_ [_ [Ha Hi]]].
    rewrite Ha, Hi. split.
    + intros ->. cbn [httpText]. now apply startsWith_append.
    + destruct (post_featuredImage post) as [featuredImage|]; [|congruence].
      intros _. apply Himage.
  - intros guide. cbv zeta.
    destruct (howTo_members guide) as [_ [Hs [_ Hi]]]. rewrite Hs, Hi. split.
    + destruct (guide_featuredImage guide) as [featuredImage|]; [|congruence].
      intros _. apply Himage.
    + eexists. split; [reflexivity|].
      clear Hs. induction (steps guide) as [|step l IH]; cbn [map];
        constructor; [|exact IH].
      unfold howToStep. destruct (step_image step) as [image|].
      * eexists. split; [reflexivity|]. intros _. apply (Himage image).
      * eexists. split; [reflexivity|]. congruence.
Qed.

(** X22. The [mainEntity] of an [FAQPage] has one [Question] per entry,
    in the order of the input: its [name] is the entry's question and the
    [text] of its [acceptedAnswer] the entry's answer; the category and
    the order of an entry are not written. *)
Theorem generateFAQPageSchema_questions (faqEntries : list FaqEntry) :
  exists items : list json,
    getProp "mainEntity" (generateFAQPageSchema faqEntries) = Some (JArray items) /\
    List.length items = List.length faqEntries /\
    Forall2 (fun entry item =>
               item = JObject [
                 ("@type", JString "Question");
                 ("name", JString (question entry));
                 ("acceptedAnswer", JObject [
                    ("@type", JString "Answer");
                    ("text", JString (answer entry))])])
            faqEntries items.
Proof.
  unfold generateFAQPageSchema. eexists. split; [reflexivity|].
  split; [apply length_map|].
  induction faqEntries as [|entry l IH]; constructor; [reflexivity | exact IH].
Qed.

End GeneratorFacts.

Section StructuredDataFacts.

Context {host : Host}.
Variable this : ContentTypeStructuredDataGenerator.

Lemma difficulty_truthy (d : Difficulty) : JsString.truthy (difficultyText d) = true.
Proof. now destruct d. Qed.

(** X18. The schemas of a guide are the [HowTo], the [BreadcrumbList],
    the [Organization] when asked for, and a [Course] last exactly when the
    [HowTo] has a [totalTime], that is when [estimatedTime] is truthy (the
    difficulty always is); the [timeRequired] of the [Course] is that
    [totalTime]. *)
Theorem generateGuideStructuredData_course
    (guide : Guide) (canonicalUrl : string) (includeOrganization : bool) :
  let schemas := generateGuideStructuredData this guide canonicalUrl includeOrganization in
  schemaTypes schemas =
    ([Some (JString "HowTo"); Some (JString "BreadcrumbList")] ++
     (if includeOrganization then [Some (JString "Organization")] else []) ++
     (if truthyNumber (estimatedTime guide) then [Some (JString "Course")] else []))%list /\
  match getProp "totalTime" (schemaAt 0 schemas) with
  | Some time =>
      exists course : list (string * json),
        last schemas JNull = JObject course /\
        getProp "@type" course = Some (JString "Course") /\
        getProp "timeRequired" course = Some time
  | None => ~ In (Some (JString "Course")) (schemaTypes schemas)
  end.
Proof.
  cbv zeta. unfold generateGuideStructuredData. cbv zeta.
  rewrite difficulty_truthy. cbn [andb].
  destruct (howTo_members (schemaGenerator this) guide) as [Ht [_ [Htime _]]].
  pose proof (organization_type (schemaGenerator this)) as Ho.
  destruct includeOrganization, (truthyNumber (estimatedTime guide));
    cbn [app schemaTypes map schemaAt nth_error last];
    rewrite Htime, Ht, ?Ho; (split; [reflexivity|]).
  - eexists. split; [reflexivity|]. split; reflexivity.
  - intros [H | [H | [H | []]]]; discriminate.
  - eexists. split; [reflexivity|]. split; reflexivity.
  - intros [H | [H | []]]; discriminate.
Qed.

(** X19. The schemas of a blog post are the [BlogPosting], the
    [BreadcrumbList] and, when asked for, the [Organization]; that
    [Organization] is the very object the [BlogPosting] has as
    [publisher]; and the breadcrumbs are Home, Blog and the post by its
    title, each under the site URL, the post at [/blog/] and its slug
    whatever the slug is. *)
Theorem generateBlogPostStructuredData_shape
    (post : BlogPost) (canonicalUrl : string) (includeOrganization : bool) :
  let schemas := generateBlogPostStructuredData this post canonicalUrl includeOrganization in
  let organization := generateOrganizationSchema (schemaGenerator this) in
  let site := siteUrl (config (schemaGenerator this)) in
  let listItem := fun (position : Z) (name item : string) =>
    JObject [("@type", JString "ListItem"); ("position", JNumber (ofZ position));
             ("name", JString name); ("item", JString item)] in
  schemaTypes schemas =
    ([Some (JString "BlogPosting"); Some (JString "BreadcrumbList")] ++
     (if includeOrganization then [Some (JString "Organization")] else []))%list /\
  getProp "publisher" (schemaAt 0 schemas) = Some (JObject organization) /\
  nth_error schemas 2 = (if includeOrganization then Some (JObject organization) else None) /\
  getProp "itemListElement" (schemaAt 1 schemas) =
    Some (JArray [listItem 1 "Home" (site ++ "/");
                  listItem 2 "Blog" (site ++ "/blog");
                  listItem 3 (post_title post) (site ++ "/blog/" ++ post_slug post)]).
Proof.
  cbv zeta. unfold generateBlogPostStructuredData. cbv zeta.
  destruct (blogPosting_members (schemaGenerator this) post canonicalUrl) as [Ht [Hp _]].
  pose proof (organization_type (schemaGenerator this)) as Ho.
  destruct includeOrganization;
    cbn [app schemaTypes map schemaAt nth_error];
    rewrite Ht, Hp, ?Ho; repeat split.
Qed.

(** X23. The fallback schemas are a [WebPage] and the [Organization]. The
    name of the page is the title when one is given and not empty, else
    the site name; its description is the one given when that is not
    empty, else [Content from] and the site name, so it is never empty;
    its URL is the canonical URL; the content type asked for is not looked
    at. *)
Theorem generateFallbackStructuredData_defaults
    (canonicalUrl : string) (title description : option string) :
  let schemas := generateFallbackStructuredData this canonicalUrl title description in
  let text :=
    match description with
    | Some (String c t) => String c t
    | _ => "Content from " ++ sd_siteName (sd_config this)
    end in
  schemaTypes schemas = [Some (JString "WebPage"); Some (JString "Organization")] /\
  getProp "name" (schemaAt 0 schemas) =
    Some (JString match title with
                  | Some (String c t) => String c t
                  | _ => sd_siteName (sd_config this)
                  end) /\
  getProp "description" (schemaAt 0 schemas) = Some (JString text) /\
  JsString.truthy text = true /\
  getProp "url" (schemaAt 0 schemas) = Some (JString canonicalUrl).
Proof.
  cbv zeta. unfold generateFallbackStructuredData. cbv zeta.
  cbn [app schemaTypes map schemaAt nth_error].
  rewrite (organization_type (schemaGenerator this)).
  unfold generateWebPageSchema.
  split; [reflexivity|]. split; [|split; [|split; [|reflexivity]]].
  - destruct title as [[|c t]|]; reflexivity.
  - destruct description as [[|c t]|]; reflexivity.
  - destruct description as [[|c t]|]; reflexivity.
Qed.

End StructuredDataFacts.

Section FactoryFacts.

Context {host : Host}.

(** X20. The generator of the factory holds two configurations, its own
    and that of its schema generator, and they agree: so the provider of a
    [Course] and the publisher of a fallback [WebPage] have the name and
    the URL of the [Organization] schema. A generator built from another
    configuration still takes its schema generator from the environment:
    its blog, FAQ and home page schemas do not depend on the configuration
    it was given. *)
Theorem createContentTypeStructuredDataGenerator_configs
    (guide : Guide) (canonicalUrl : string) (title description : option string) :
  let generator := createContentTypeStructuredDataGenerator in
  let organization := generateOrganizationSchema (schemaGenerator generator) in
  let course := generateCourseSchema generator guide canonicalUrl in
  let page := generateWebPageSchema generator canonicalUrl title description in
  (getNested "provider" "name" course = getProp "name" organization /\
   getNested "provider" "url" course = getProp "url" organization /\
   getNested "publisher" "name" page = getProp "name" organization /\
   getNested "publisher" "url" page = getProp "url" organization) /\
  (forall (given other : StructuredDataConfig) (post : BlogPost)
          (faqEntries : list FaqEntry) (includeOrganization : bool),
     generateBlogPostStructuredData (newStructuredDataGenerator given)
       post canonicalUrl includeOrganization =
     generateBlogPostStructuredData (newStructuredDataGenerator other)
       post canonicalUrl includeOrganization /\
     generateFaqStructuredData (newStructuredDataGenerator given) faqEntries canonicalUrl =
     generateFaqStructuredData (newStructuredDataGenerator other) faqEntries canonicalUrl /\
     generateHomepageStructuredData (newStructuredDataGenerator given) =
     generateHomepageStructuredData (newStructuredDataGenerator other)).
Proof.
  cbv zeta. split; [|intros; repeat split].
  unfold createContentTypeStructuredDataGenerator, newStructuredDataGenerator,
    createSchemaGenerator, generateOrganizationSchema, generateCourseSchema,
    generateWebPageSchema.
  cbn [schemaGenerator sd_config config sd_siteUrl sd_organizationName
       siteUrl organizationName logoUrl socialLinks defaultSocialLinks].
  destruct (truthyOpt SITE_URL) eqn:E.
  - cbn [truthyOpt]. rewrite truthy_append. repeat split.
  - repeat split.
Qed.

(** X21. The [Organization] schema of the factory's generator always has
    a [logo] and the three [sameAs] links: its URL is the base URL of the
    sitemaps, [SITE_URL] when set and not empty and the local origin
    otherwise, and the logo is [/images/logo.png] under that URL. *)
Theorem createSchemaGenerator_organization :
  let organization := generateOrganizationSchema createSchemaGenerator in
  getProp "url" organization = Some (JString getSitemapBaseUrl) /\
  getProp "logo" organization =
    Some (JObject [("@type", JString "ImageObject");
                   ("url", JString (getSitemapBaseUrl ++ "/images/logo.png"))]) /\
  getProp "sameAs" organization = Some (strings defaultSocialLinks) /\
  List.length defaultSocialLinks = 3%nat.
Proof.
  cbv zeta.
  unfold createSchemaGenerator, generateOrganizationSchema, getSitemapBaseUrl.
  cbn [config siteUrl organizationName logoUrl socialLinks defaultSocialLinks].
  destruct (truthyOpt SITE_URL) eqn:E.
  - cbn [truthyOpt getOr]. rewrite truthy_append. repeat split.
  - repeat split.
Qed.

End FactoryFacts.

(** ** The further properties on sample data *)

Module RouteExamples.

Import Xml Example Example2.


(** X2 on a string with an ampersand, written in two ways. *)
Lemma escapeXml_injective_witness :
  escapeXml ("a&" ++ "b") = escapeXml "a&b" /\ "a&" ++ "b" = "a&b".
Proof.
  split; [reflexivity|]. apply (escapeXml_injective ("a&" ++ "b") "a&b"). reflexivity.
Defined.

(** X4 on a path and on a base. *)
Lemma formatSitemapUrl_slashes_witness :
  formatSitemapUrl "/blog/post" "https://example.com" =
    formatSitemapUrl "blog/post" "https://example.com" /\
  formatSitemapUrl "blog/post" "https://example.com/" =
    formatSitemapUrl "blog/post" "https://example.com".
Proof.
  split.
  - apply (proj1 (formatSitemapUrl_slashes "blog/post" "https://example.com"));
      reflexivity.
  - apply (proj2 (formatSitemapUrl_slashes "blog/post" "https://example.com"));
      reflexivity.
Defined.

(** X6 on a path under [/admin], and on a base that ends in [/api/]. *)
Lemma shouldIncludeInSitemap_extension_witness :
  shouldIncludeInSitemap "/admin" = false /\
  shouldIncludeInSitemap ("https://example.com/blog" ++ "/admin" ++ "-tips") = false /\
  shouldIncludeInSitemap (formatSitemapUrl "/admin" "https://example.com") = false /\
  shouldIncludeInSitemap "https://x.com/api/" = false /\
  shouldIncludeInSitemap (formatSitemapUrl "page" "https://x.com/api/") = false.
Proof.
  destruct (shouldIncludeInSitemap_extension
              "https://example.com/blog" "/admin" "-tips" "https://example.com")
    as [H1 [H2 _]].
  destruct (shouldIncludeInSitemap_extension "" "page" "" "https://x.com/api/")
    as [_ [_ H3]].
  split; [reflexivity|]. split; [apply H1; reflexivity|].
  split; [apply H2; reflexivity|]. split; [reflexivity|]. apply H3; reflexivity.
Defined.


(** X8 on the double nearest to 0.8. *)
Lemma priority_unit_range_witness :
  unitRange priority08 = true /\
  exists d : ascii,
    isDigit d = true /\
    (@toFixed (siteHost None) priority08 1 = Ok ("0." ++ String d "") \/
     @toFixed (siteHost None) priority08 1 = Ok "1.0").
Proof.
  assert (unitRange priority08 = true) as H by (vm_compute; reflexivity).
  split; [exact H|]. exact (@priority_unit_range (siteHost None) priority08 H).
Defined.

(** X9 on two posts, the second with an [updatedAt] that is no date. *)
Lemma blogGET_fallback_witness :
  @blogGET (siteHost (Some "https://example.com"))
    (Ok [somePost "first" "2024-01-15T10:00:00Z"; somePost "second" "yesterday"]) =
  Ok (mkResponse emptySitemap 200
        xmlContentType "public, max-age=300").
Proof.
  destruct (@blogGET_fallback (siteHost (Some "https://example.com"))
              [somePost "first" "2024-01-15T10:00:00Z"; somePost "second" "yesterday"])
    as [_ [H _]].
  apply (H (somePost "second" "yesterday")).
  - right. left. reflexivity.
  - vm_compute. reflexivity.
  - vm_compute. reflexivity.
Defined.


(** X11 on a guide with an [updatedAt] that is no date. *)
Lemma guidesGET_fallback_witness :
  @guidesGET (siteHost (Some "https://example.com")) (Ok [someGuide "guide" "soon"]) =
  Ok (mkResponse emptySitemap 200
        xmlContentType "public, max-age=300").
Proof.
  destruct (@guidesGET_fallback (siteHost (Some "https://example.com"))
              [someGuide "guide" "soon"]) as [_ [H _]].
  apply (H (someGuide "guide" "soon")).
  - left. reflexivity.
  - vm_compute. reflexivity.
  - vm_compute. reflexivity.
Defined.





(** X17 on the sample generator, whose site URL is [https://example.com]. *)
Lemma schema_urls_absolute_witness :
  startsWith "http" (siteUrl (config sampleGenerator)) = true /\
  httpText (getNested "author" "url"
              (generateBlogPostingSchema sampleGenerator samplePost
                 "https://example.com/blog/title")) = true.
Proof.
  split; [reflexivity|].
  destruct (@schema_urls_absolute (siteHost None) sampleGenerator eq_refl) as [_ [H _]].
  apply (H samplePost "https://example.com/blog/title"). reflexivity.
Defined.

End RouteExamples.
